(** * Multi-agent orchestration core: bounded tool loops, delegation and
    completion gating

  A shallow embedding of the Python sources

    - [agents/multi_agent/tool_chat.py]      (ToolChatAgent)
    - [agents/tool_interface.py]             (RunShellTool, WriteFileTool)
    - [agents/shell_interface.py]            (ShellInterface)
    - [agents/multi_agent/coder.py]          (CoderTool)
    - [agents/multi_agent/researcher.py]     (ResearcherTool)
    - [agents/multi_agent/test_generator.py] (TestGenerator)
    - [agents/multi_agent/orchestrator.py]   (MultiAgent)
    - [agents/multi_agent/utils.py]          (rel_path)

  Python code that mutates objects and may raise is written in a state
  and error monad.  Everything outside the repository (the JSON decoder,
  the chat-completion endpoint, the MCP client, subprocesses, the import
  machinery, the prompt templates) is an operation of the class [Env];
  every theorem holds for every instance of it.  Calls to the logger are
  left out: they only record events and never steer control flow. *)

From Stdlib Require Import ZArith String Ascii List DecimalString.
From stdpp Require Import base gmap strings list.

Set Warnings "-register-all".
Local Open Scope Z_scope.

(** ** Python values, exceptions and the handful of built-ins in use *)

Module Py.

(** The exception classes that occur in the modelled code.  All of them
    derive from [Exception] except [SystemExit], which stands for the
    classes that derive from [BaseException] only. *)
Inductive exn_class :=
| JSONDecodeError | TypeError | AttributeError | ValueError | OSError
| ImportError | APIError | McpError | Exception | SystemExit.

(** An exception object: its class and [str(exc)]. *)
Record exn := Exn { class_of : exn_class; str_of : string }.

Definition is_Exception (c : exn_class) : bool :=
  match c with SystemExit => false | _ => true end.

Definition is_ImportError (c : exn_class) : bool :=
  match c with ImportError => true | _ => false end.

Inductive result (A : Type) :=
| Ok (a : A)
| Raise (e : exn).
Arguments Ok {A} a.
Arguments Raise {A} e.

(** What [json.loads] returns: dict, list, str, int, float, bool, None.
    Of a float only its truth value and its text are ever used. A dict
    is kept as the list of its members in source order; a later member
    overrides an earlier one with the same key. *)
Inductive json :=
| JNull
| JBool (b : bool)
| JInt (z : Z)
| JFloat (nonzero : bool) (text : string)
| JStr (s : string)
| JList (l : list json)
| JDict (d : list (string * json)).

(** [bool(v)] *)
Definition truthy (v : json) : bool :=
  match v with
  | JNull => false
  | JBool b => b
  | JInt z => negb (z =? 0)
  | JFloat nz _ => nz
  | JStr s => negb (String.eqb s EmptyString)
  | JList l => match l with [] => false | _ => true end
  | JDict d => match d with [] => false | _ => true end
  end.

(** [d.get(k)] on the members of a dict *)
Fixpoint dict_get (k : string) (d : list (string * json)) : option json :=
  match d with
  | [] => None
  | (k', v) :: d' =>
      match dict_get k d' with
      | Some v' => Some v'
      | None => if String.eqb k k' then Some v else None
      end
  end.

(** [bool(s)] for [s : str | None] *)
Definition nonempty (s : string) : bool := negb (String.eqb s EmptyString).

(** [s or d] for [s : str | None] *)
Definition str_or (s : option string) (d : string) : string :=
  match s with
  | Some t => if nonempty t then t else d
  | None => d
  end.

(** [str(z)] for an int *)
Definition str_Z (z : Z) : string := NilZero.string_of_int (Z.to_int z).

(** [str(b)] for a bool *)
Definition str_bool (b : bool) : string := if b then "True" else "False".

(** [range(a, b)] *)
Definition range (a b : Z) : list Z :=
  map (fun i : nat => a + Z.of_nat i) (seq 0 (Z.to_nat (b - a))).

(** The characters [str.strip()] removes, within ASCII. *)
Definition is_space (c : ascii) : bool :=
  let n := nat_of_ascii c in
  ((9 <=? n)%nat && (n <=? 13)%nat) || ((28 <=? n)%nat && (n <=? 32)%nat).

Fixpoint lstrip (s : string) : string :=
  match s with
  | EmptyString => EmptyString
  | String c s' => if is_space c then lstrip s' else s
  end.

Fixpoint rstrip (s : string) : string :=
  match s with
  | EmptyString => EmptyString
  | String c s' =>
      match rstrip s' with
      | EmptyString => if is_space c then EmptyString else String c EmptyString
      | t => String c t
      end
  end.

Definition strip (s : string) : string := rstrip (lstrip s).

(** [p in s] *)
Fixpoint contains (p s : string) : bool :=
  String.prefix p s ||
  match s with
  | EmptyString => false
  | String _ s' => contains p s'
  end.

(** [s[:n]] *)
Definition take_str (n : nat) (s : string) : string := String.substring 0 n s.

(** [sep.join(l)] *)
Definition join (sep : string) (l : list string) : string := String.concat sep l.

(** A line break *)
Definition nl : string := String (ascii_of_nat 10) EmptyString.

(** [v.get], which only a dict has *)
Definition as_dict (v : json) : result (list (string * json)) :=
  match v with
  | JDict d => Ok d
  | _ => Raise (Exn AttributeError "object has no attribute 'get'")
  end.

(** [v.strip()], which only a str has *)
Definition method_strip (v : json) : result string :=
  match v with
  | JStr s => Ok (strip s)
  | _ => Raise (Exn AttributeError "object has no attribute 'strip'")
  end.

(** The keys of a dict, each once, in the order of first appearance *)
Fixpoint dict_keys (seen : list string) (d : list (string * json)) : list string :=
  match d with
  | [] => []
  | (k, _) :: d' =>
      if existsb (String.eqb k) seen then dict_keys seen d'
      else k :: dict_keys (k :: seen) d'
  end.

Definition as_str (v : json) : option string :=
  match v with
  | JStr s => Some s
  | _ => None
  end.

Fixpoint chars (s : string) : list string :=
  match s with
  | EmptyString => []
  | String c s' => String c EmptyString :: chars s'
  end.

(** [sep.join(v)]: [v] has to be an iterable of str *)
Definition str_join (sep : string) (v : json) : result string :=
  match v with
  | JList l =>
      if forallb (fun x => match as_str x with Some _ => true | None => false end) l
      then Ok (join sep (omap as_str l))
      else Raise (Exn TypeError "sequence item: expected str instance")
  | JStr s => Ok (join sep (chars s))
  | JDict d => Ok (join sep (dict_keys [] d))
  | _ => Raise (Exn TypeError "can only join an iterable")
  end.

(** [s.split()]: the maximal runs of characters that are not whitespace.
    [cur] holds the run being read. *)
Fixpoint split_ws (cur : string) (s : string) : list string :=
  match s with
  | EmptyString => if nonempty cur then [cur] else []
  | String c s' =>
      if is_space c
      then (if nonempty cur then cur :: split_ws EmptyString s' else split_ws EmptyString s')
      else split_ws (cur +:+ String c EmptyString) s'
  end.

Definition split (s : string) : list string := split_ws EmptyString s.

(** The position a slice bound [k] stands for in a sequence of length
    [len]: a negative bound counts from the end, and every bound is
    clipped to the sequence. *)
Definition slice_index (len : nat) (k : Z) : nat :=
  Z.to_nat (Z.min (Z.of_nat len) (if k <? 0 then Z.max 0 (Z.of_nat len + k) else k)).

(** [s[:k]] *)
Definition slice_to (k : Z) (s : string) : string :=
  String.substring 0 (slice_index (String.length s) k) s.

(** [s[k:]] *)
Definition slice_from (k : Z) (s : string) : string :=
  let i := slice_index (String.length s) k in
  String.substring i (String.length s - i) s.


End Py.
Export Py.

(** ** pathlib paths and the file system *)

Module Path.

(** A pure path: whether it is anchored at the root, and its components.
    [".."] components are kept until [resolve]. *)
Record t := mk { is_absolute : bool; parts : list string }.

Fixpoint split_slash (cur : string) (s : string) : list string :=
  match s with
  | EmptyString => [cur]
  | String c s' =>
      if Ascii.eqb c "/" then cur :: split_slash EmptyString s'
      else split_slash (cur +:+ String c EmptyString) s'
  end.

Definition keep_part (c : string) : bool :=
  negb (String.eqb c EmptyString) && negb (String.eqb c ".").

(** [Path(s)] *)
Definition of_string (s : string) : t :=
  {| is_absolute := String.prefix "/" s;
     parts := List.filter keep_part (split_slash EmptyString s) |}.

(** [a / b] *)
Definition joinpath (a b : t) : t :=
  if is_absolute b then b
  else {| is_absolute := is_absolute a; parts := parts a ++ parts b |}.

(** [p.parent] *)
Definition parent (p : t) : t :=
  {| is_absolute := is_absolute p; parts := removelast (parts p) |}.

Definition normalize_step (acc : list string) (c : string) : list string :=
  if String.eqb c ".." then removelast acc else acc ++ [c].

Definition normalize (l : list string) : list string :=
  fold_left normalize_step l [].

(** [p.resolve()], in a file system without symbolic links: the path is
    made absolute against the current directory and [".."] is folded. *)
Definition resolve (cwd : list string) (p : t) : t :=
  {| is_absolute := true;
     parts := normalize ((if is_absolute p then [] else cwd) ++ parts p) |}.

Fixpoint is_prefix (a b : list string) : bool :=
  match a, b with
  | [], _ => true
  | x :: a', y :: b' => String.eqb x y && is_prefix a' b'
  | _ :: _, [] => false
  end.

(** [p.as_posix()] *)
Definition as_posix (p : t) : string :=
  if is_absolute p then "/" +:+ Py.join "/" (parts p)
  else match parts p with
       | [] => "."
       | l => Py.join "/" l
       end.

(** [p.relative_to(base)]: purely lexical; raises [ValueError] when
    [base] is not a prefix of [p]. *)
Definition relative_to (p base : t) : result t :=
  if Bool.eqb (is_absolute p) (is_absolute base) && is_prefix (parts base) (parts p)
  then Ok {| is_absolute := false; parts := drop (length (parts base)) (parts p) |}
  else Raise (Exn ValueError
                ("'" +:+ as_posix p +:+ "' is not in the subpath of '"
                     +:+ as_posix base +:+ "'")).

(** [Path(v)] for a decoded value, which has to be a str *)
Definition of_json (v : json) : result t :=
  match v with
  | JStr s => Ok (of_string s)
  | _ => Raise (Exn TypeError "expected str, bytes or os.PathLike object")
  end.

End Path.

Module FS.

Inductive node :=
| File (content : string)
| Dir.

(** The file system maps the components of a resolved absolute path to
    the node found there; the root [[]] is always a directory. *)
Abbreviation t := (gmap (list string) node).

Definition is_dir (fs : t) (l : list string) : bool :=
  match l with
  | [] => true
  | _ => match fs !! l with Some Dir => true | _ => false end
  end.

Definition exists_ (fs : t) (l : list string) : bool :=
  match l with
  | [] => true
  | _ => match fs !! l with Some _ => true | None => false end
  end.

(** The proper prefixes of [l] followed by [l] itself, shortest first,
    without the root. *)
Fixpoint ancestors (pre l : list string) : list (list string) :=
  match l with
  | [] => []
  | c :: l' => (pre ++ [c]) :: ancestors (pre ++ [c]) l'
  end.

Definition blocked (fs : t) (l : list string) : bool :=
  match fs !! l with Some (File _) => true | _ => false end.

Definition add_dir (fs : t) (l : list string) : t :=
  match fs !! l with
  | None => <[l := Dir]> fs
  | Some _ => fs
  end.

End FS.

Module FSOps.
Import FS.

(** The first location of [chain] that does not exist yet and that the
    operating system refuses to create, with the error text. *)
Fixpoint first_denied (deny : list string -> option string) (fs : FS.t)
  (chain : list (list string)) : option string :=
  match chain with
  | [] => None
  | a :: rest =>
      if exists_ fs a then first_denied deny fs rest
      else match deny a with
           | Some msg => Some msg
           | None => first_denied deny fs rest
           end
  end.

(** [Path.mkdir(parents=True, exist_ok=True)] at a resolved location:
    fails when a component on the way is a regular file or cannot be
    created, and otherwise creates every missing directory.  A
    simplification: a call that fails creates nothing, where Python keeps
    the directories it had made before the one that failed. *)
Definition mkdir (deny : list string -> option string) (fs : FS.t)
  (l : list string) : result FS.t :=
  let chain := ancestors [] l in
  if existsb (blocked fs) chain
  then Raise (Exn OSError ("[Errno 17] File exists: '/" +:+ Py.join "/" l +:+ "'"))
  else match first_denied deny fs chain with
       | Some msg => Raise (Exn OSError msg)
       | None => Ok (fold_left add_dir chain fs)
       end.

(** [Path.write_text(content)] at a resolved location.  A simplification:
    every failure is one of opening the file and leaves no trace; a write
    that fails once the file is open, which leaves the file empty, is not
    modelled. *)
Definition write_text (deny : list string -> option string) (fs : FS.t)
  (l : list string) (content : string) : result FS.t :=
  match l with
  | [] => Raise (Exn OSError "[Errno 21] Is a directory: '/'")
  | _ =>
      if negb (is_dir fs (removelast l))
      then Raise (Exn OSError ("[Errno 2] No such file or directory: '/" +:+ Py.join "/" l +:+ "'"))
      else if is_dir fs l
      then Raise (Exn OSError ("[Errno 21] Is a directory: '/" +:+ Py.join "/" l +:+ "'"))
      else match deny l with
           | Some msg => Raise (Exn OSError msg)
           | None => Ok (<[l := File content]> fs)
           end
  end.

End FSOps.

(** ** The chat protocol: messages, tool calls, requests *)

Inductive role := developer | user | assistant | tool.

(** [tool_call.id], [tool_call.function.name] and
    [tool_call.function.arguments]; the argument text is untrusted and may
    be absent. *)
Record ToolCall := {
  call_id : string;
  function_name : string;
  function_arguments : option string
}.

(** A transcript entry, a dict with a ["role"] and some of ["content"],
    ["tool_calls"], ["tool_call_id"]. *)
Record Message := {
  msg_role : role;
  content : option string;
  tool_calls : option (list ToolCall);
  tool_call_id : option string
}.

(** [response.choices[0].message] *)
Record AssistantMessage := {
  reply_content : option string;
  reply_tool_calls : option (list ToolCall)
}.

(** One request sent to the chat-completion endpoint with what came back.
    [ex_agent] is the agent that issued it (the [subagent] label the code
    logs next to each request); [ex_tools] are the names of the advertised
    tools, [None] for [tools=None]. *)
Record Exchange := {
  ex_agent : string;
  ex_messages : list Message;
  ex_tools : option (list string);
  ex_response : result AssistantMessage
}.

Definition text_message (r : role) (text : string) : Message :=
  {| msg_role := r; content := Some text; tool_calls := None; tool_call_id := None |}.

Definition calls_message (tcs : list ToolCall) : Message :=
  {| msg_role := assistant; content := None; tool_calls := Some tcs; tool_call_id := None |}.

Definition tool_message (id : string) (text : string) : Message :=
  {| msg_role := tool; content := Some text; tool_calls := None; tool_call_id := Some id |}.

(** The calls of a reply; [message.tool_calls] is falsy when it is [None]
    or empty. *)
Definition calls_of (m : AssistantMessage) : list ToolCall :=
  match reply_tool_calls m with
  | Some tcs => tcs
  | None => []
  end.

Definition has_tool_calls (m : AssistantMessage) : bool :=
  match calls_of m with [] => false | _ => true end.

(** ** External collaborators *)

(** What [subprocess.run(cmd, shell=True, ..., timeout=...)] does. *)
Inductive proc_outcome :=
| Completed (stdout : string) (returncode : Z)
| TimedOut
| SpawnFailed (msg : string).

(** What executing a module file does: it raises, or it leaves a module
    whose attribute [solve] is absent ([None]) or present, callable or
    not. *)
Inductive load_outcome :=
| LoadRaised (e : exn)
| Loaded (solve : option bool).

(** Everything the agents call that lives outside the repository.  A
    failure is given by the text of the exception that is raised.
    - [json_loads]: [json.loads]; [inl msg] is a [JSONDecodeError];
    - [repr]: how a decoded value prints inside an f-string;
    - [cwd]: the current directory, used by [Path.resolve];
    - [os_error]: locations the operating system refuses to create or
      write, with the [OSError] text;
    - [subprocess_run]: running a shell command in a directory, on a file
      system;
    - [chat_completions_create]: the model endpoint, answering a request
      (issuing agent, transcript, advertised tools) given all earlier
      exchanges; [inl msg] is a transport fault;
    - [exec_module]: loading the module file at a location;
    - [mcp_connect], [mcp_list_tools], [mcp_call_tool]: the MCP client;
      a tool result is the list of the [text] attributes of its content;
    - [format_prompt]: formatting a named prompt template with keyword arguments. *)
Class Env := {
  json_loads : string -> string + json;
  json_loads_empty_object : json_loads "{}" = inr (JDict []);
  repr : json -> string;
  cwd : list string;
  os_error : list string -> option string;
  subprocess_run : Path.t -> string -> FS.t -> proc_outcome * FS.t;
  chat_completions_create :
    list Exchange -> string -> list Message -> option (list string) ->
    string + AssistantMessage;
  exec_module : FS.t -> list string -> load_outcome * FS.t;
  mcp_connect : option string;
  mcp_list_tools : string + list string;
  mcp_call_tool : list (string * json) -> string -> json -> string + list (option string);
  format_prompt : string -> list (string * string) -> string
}.

(** ** Program state *)

(** The mutable world of one run: the file system, the requests made to
    the model endpoint so far (oldest first), the MCP tool invocations so
    far, and the mutable attributes of the long-lived tool objects
    ([CoderTool.solver_path], [TestGenerator.solver_path],
    [TestGenerator.history]). *)
Record State := {
  fs : FS.t;
  exchanges : list Exchange;
  mcp_calls : list (string * json);
  coder_solver_path : Path.t;
  testgen_solver_path : Path.t;
  testgen_history : list Message
}.

Definition set_fs (f : FS.t) (s : State) : State :=
  {| fs := f; exchanges := exchanges s; mcp_calls := mcp_calls s;
     coder_solver_path := coder_solver_path s;
     testgen_solver_path := testgen_solver_path s;
     testgen_history := testgen_history s |}.

Definition add_exchange (e : Exchange) (s : State) : State :=
  {| fs := fs s; exchanges := exchanges s ++ [e]; mcp_calls := mcp_calls s;
     coder_solver_path := coder_solver_path s;
     testgen_solver_path := testgen_solver_path s;
     testgen_history := testgen_history s |}.

Definition add_mcp_call (c : string * json) (s : State) : State :=
  {| fs := fs s; exchanges := exchanges s; mcp_calls := mcp_calls s ++ [c];
     coder_solver_path := coder_solver_path s;
     testgen_solver_path := testgen_solver_path s;
     testgen_history := testgen_history s |}.

Definition set_coder_solver_path (p : Path.t) (s : State) : State :=
  {| fs := fs s; exchanges := exchanges s; mcp_calls := mcp_calls s;
     coder_solver_path := p;
     testgen_solver_path := testgen_solver_path s;
     testgen_history := testgen_history s |}.

Definition set_testgen_solver_path (p : Path.t) (s : State) : State :=
  {| fs := fs s; exchanges := exchanges s; mcp_calls := mcp_calls s;
     coder_solver_path := coder_solver_path s;
     testgen_solver_path := p;
     testgen_history := testgen_history s |}.

Definition set_testgen_history (h : list Message) (s : State) : State :=
  {| fs := fs s; exchanges := exchanges s; mcp_calls := mcp_calls s;
     coder_solver_path := coder_solver_path s;
     testgen_solver_path := testgen_solver_path s;
     testgen_history := h |}.

(** ** The state and error monad *)

(** A computation on a state [S] that returns a value or raises; what it
    did to the state before raising stays done. *)
Definition M (S A : Type) : Type := S -> result A * S.

#[global] Instance M_ret {S} : MRet (M S) := fun A a s => (Ok a, s).

#[global] Instance M_bind {S} : MBind (M S) :=
  fun A B f c s =>
    match c s with
    | (Ok a, s') => f a s'
    | (Raise e, s') => (Raise e, s')
    end.

Definition raise {S A} (e : exn) : M S A := fun s => (Raise e, s).

Definition get {S} : M S S := fun s => (Ok s, s).

Definition modify {S} (f : S -> S) : M S unit := fun s => (Ok tt, f s).

(** [try: c  except <classes> as exc: h exc] *)
Definition try_except {S A} (c : M S A) (classes : exn_class -> bool)
  (h : exn -> M S A) : M S A :=
  fun s =>
    match c s with
    | (Raise e, s') => if classes (class_of e) then h e s' else (Raise e, s')
    | r => r
    end.

(** A computation of the world run from a function that also keeps local
    variables [L]. *)
Definition lift {L S A} (c : M S A) : M (L * S) A :=
  fun ls =>
    match c (snd ls) with
    | (r, s') => (r, (fst ls, s'))
    end.

(** The local variables of an enclosing function read and updated. *)
Definition get_local {L S} : M (L * S) L := fun ls => (Ok (fst ls), ls).

Definition modify_local {L S} (f : L -> L) : M (L * S) unit :=
  fun ls => (Ok tt, (f (fst ls), snd ls)).

(** [for x in xs: body], where the body may leave the loop early with a
    value ([break] after an assignment, or [return]). *)
Inductive control (R : Type) :=
| Continue
| Break (r : R).
Arguments Continue {R}.
Arguments Break {R} r.

Fixpoint for_ {S A R} (xs : list A) (body : A -> M S (control R)) : M S (option R) :=
  match xs with
  | [] => mret None
  | x :: xs' =>
      c ← body x;
      match c with
      | Continue => for_ xs' body
      | Break r => mret (Some r)
      end
  end.

(** A result of a library call turned into a computation. *)
Definition of_result {S A} (r : result A) : M S A := fun s => (r, s).

(** ** File-system calls of [pathlib] as computations *)

Section PathCalls.
Context {E : Env}.

(** Where a path leads: the components of the resolved path.  Without
    symbolic links a path and its resolution name the same node. *)
Definition location (p : Path.t) : list string := Path.parts (Path.resolve cwd p).

(** [p.exists()] *)
Definition Path_exists (p : Path.t) : M State bool :=
  fun s => (Ok (FS.exists_ (fs s) (location p)), s).

(** [p.mkdir(parents=True, exist_ok=True)] *)
Definition Path_mkdir (p : Path.t) : M State unit :=
  fun s =>
    match FSOps.mkdir os_error (fs s) (location p) with
    | Ok f => (Ok tt, set_fs f s)
    | Raise e => (Raise e, s)
    end.

(** [p.write_text(content)] *)
Definition Path_write_text (p : Path.t) (text : string) : M State unit :=
  fun s =>
    match FSOps.write_text os_error (fs s) (location p) text with
    | Ok f => (Ok tt, set_fs f s)
    | Raise e => (Raise e, s)
    end.

(** [rel_path] of [agents/multi_agent/utils.py] *)
Definition rel_path (workdir target : Path.t) : string :=
  match Path.relative_to (Path.resolve cwd target) (Path.resolve cwd workdir) with
  | Ok rel => Path.as_posix rel
  | Raise _ => Path.as_posix (Path.resolve cwd target)
  end.

End PathCalls.

(** ** [agents/shell_interface.py] *)

(** [shlex.split], from the standard library: [inl msg] is the
    [ValueError] raised for a quotation that is not closed or an escape
    with nothing after it. *)
Class Shlex := { shlex_split : string -> string + list string }.

Module ShellInterface.

(** A handler of a custom command: [handler(arg_string, content)]. *)
Abbreviation Command := (string -> option string -> M State (string * Z)).

Section ShellInterface.
Context {E : Env}.

(** [timeout] holds the text of the float, as it prints. *)
Record t := { workdir : Path.t; timeout : string }.

(** [ShellInterface(workdir, timeout)] *)
Definition make (workdir : Path.t) (timeout : string) : t :=
  {| workdir := Path.resolve cwd workdir; timeout := timeout |}.

Definition run_command (self : t) (cmd : string) : M State (string * Z) :=
  if negb (nonempty (strip cmd)) then mret ("Empty command", -1)
  else fun s =>
    match subprocess_run (workdir self) cmd (fs s) with
    | (Completed out rc, f) => (Ok (out, rc), set_fs f s)
    | (TimedOut, f) =>
        (Ok ("Command timed out after " +:+ timeout self +:+ " seconds", -1), set_fs f s)
    | (SpawnFailed msg, f) =>
        (Ok ("Command execution failed: " +:+ msg, -1), set_fs f s)
    end.

Definition _handle_write_file (self : t) (arg : string) (content : option string)
  : M State (string * Z) :=
  if negb (nonempty arg) then mret ("Usage: write_file <path>", 1)
  else match content with
  | None => mret ("write_file requires a 'content' field in the JSON payload", 1)
  | Some text =>
      let target := Path.of_string arg in
      let target :=
        if Path.is_absolute target then target
        else Path.joinpath (workdir self) target in
      let target := Path.resolve cwd target in
      match Path.relative_to target (workdir self) with
      | Raise _ => mret ("write_file target must be within the working directory", 1)
      | Ok rel =>
          _ ← Path_mkdir (Path.parent target);
          _ ← Path_write_text target text;
          mret ("Wrote " +:+ str_Z (Z.of_nat (String.length text)) +:+ " bytes to "
                  +:+ Path.as_posix rel, 0)
      end
  end.

(** The attribute [_custom_commands] is passed along: [initial] is what
    [__init__] leaves in it. *)
Definition initial (self : t) : gmap string Command :=
  {[ "write_file" := _handle_write_file self ]}.

Definition register_custom_command (_custom_commands : gmap string Command)
  (name : string) (handler : Command) : gmap string Command :=
  <[name := handler]> _custom_commands.

Context {L : Shlex}.

Definition execute (self : t) (_custom_commands : gmap string Command)
  (cmd : string) (content : option string) : M State (string * Z) :=
  let stripped := strip cmd in
  if negb (nonempty stripped) then mret ("Empty command", -1)
  else match shlex_split stripped with
  | inl exc => mret ("Command parse error: " +:+ exc, -1)
  | inr tokens =>
      match tokens with
      | name :: _ =>
          match _custom_commands !! name with
          | Some handler =>
              let arg := strip (slice_from (Z.of_nat (String.length name)) stripped) in
              try_except (handler arg content) is_Exception
                (fun exc =>
                   mret ("Custom command '" +:+ name +:+ "' failed: " +:+ str_of exc, -1))
          | None => run_command self stripped
          end
      | [] => run_command self stripped
      end
  end.

End ShellInterface.
End ShellInterface.

(** ** [agents/tool_interface.py] *)

(** [bool(d.get(k))] *)
Definition given (v : option json) : bool :=
  match v with
  | Some j => truthy j
  | None => false
  end.

Definition json_loads_None : exn :=
  Exn TypeError "the JSON object must be str, bytes or bytearray, not NoneType".

(** [_shorten(value, max_len)]; [str(value)] is [value] itself for a
    str. *)
Definition _shorten (value : option string) (max_len : Z) : string :=
  match value with
  | None => EmptyString
  | Some value =>
      let text := Py.join " " (Py.split value) in
      if Z.of_nat (String.length text) <=? max_len then text
      else
        let keep := max_len / 2 in
        slice_to keep text +:+ "..." +:+ slice_from (- keep) text
  end.

Module RunShellTool.
Section RunShellTool.
Context {E : Env}.

Record t := { workdir : Path.t; shell : ShellInterface.t }.

(** [RunShellTool(workdir, logger)] *)
Definition make (workdir : Path.t) : t :=
  {| workdir := workdir; shell := ShellInterface.make workdir "60.0" |}.

Definition name : string := "run_shell".

Definition execute (self : t) (tool_call : ToolCall) (step_num : Z) : M State string :=
  match function_arguments tool_call with
  | None => raise json_loads_None
  | Some raw =>
      match json_loads raw with
      | inl exc => mret ("Error: Invalid JSON in run_shell arguments (" +:+ exc +:+ ")")
      | inr (JDict args) =>
          let cmd := dict_get "cmd" args in
          let action := dict_get "action" args in
          if negb (given cmd) then mret "Error: Must include cmd in call to run_shell"
          else if negb (given action) then mret "Error: Must include action in call to run_shell"
          else match cmd with
               | Some (JStr cmd) =>
                   '(output, return_code) ← ShellInterface.run_command (shell self) cmd;
                   mret (output +:+ " (exit_code=" +:+ str_Z return_code +:+ ")")
               | _ =>
                   (* [cmd.strip()] in [run_command] on a value that is not a str *)
                   raise (Exn AttributeError "object has no attribute 'strip'")
               end
      | inr _ => mret "Error: run_shell arguments must be a JSON object"
      end
  end.

End RunShellTool.
End RunShellTool.

Module WriteFileTool.
Section WriteFileTool.
Context {E : Env}.

Record t := { workdir : Path.t }.

Definition name : string := "write_file".

(** The part of [execute] inside [try:]. *)
Definition write (self : t) (target : Path.t) (content_arg : json) : M State string :=
  let target := Path.resolve cwd target in
  _ ← of_result (Path.relative_to target (workdir self));
  _ ← Path_mkdir (Path.parent target);
  match content_arg with
  | JStr text =>
      _ ← Path_write_text target text;
      rel ← of_result (Path.relative_to target (workdir self));
      mret ("Wrote " +:+ str_Z (Z.of_nat (String.length text)) +:+ " bytes to "
              +:+ Path.as_posix rel)
  | _ => raise (Exn TypeError "data must be str")
  end.

Definition execute (self : t) (tool_call : ToolCall) (step_num : Z) : M State string :=
  match function_arguments tool_call with
  | None => raise json_loads_None
  | Some raw =>
      match json_loads raw with
      | inl exc => mret ("Error: Invalid JSON in write_file arguments (" +:+ exc +:+ ")")
      | inr (JDict args) =>
          let path := dict_get "path" args in
          let content_arg := dict_get "content" args in
          let action := dict_get "action" args in
          if negb (given path) then mret "Error: Must include path in call to write_file"
          else if negb (given content_arg) then mret "Error: Must include content in call to write_file"
          else if negb (given action) then mret "Error: Must include action in call to write_file"
          else match path, content_arg with
               | Some (JStr path), Some content_arg =>
                   let target := Path.of_string path in
                   let target :=
                     if Path.is_absolute target then target
                     else Path.joinpath (workdir self) target in
                   try_except (write self target content_arg) is_Exception
                     (fun exc => mret ("Error writing file: " +:+ str_of exc))
               | _, _ =>
                   (* [Path(path)] on a value that is not a str *)
                   raise (Exn TypeError "expected str, bytes or os.PathLike object")
               end
      | inr _ => mret "Error: write_file arguments must be a JSON object"
      end
  end.

End WriteFileTool.
End WriteFileTool.

(** ** The model endpoint *)

Section Endpoint.
Context {E : Env}.

(** [client.chat.completions.create(model=..., messages=..., tools=...)]
    followed by [response.choices[0].message]; the request and what came
    back are added to the exchanges of the run. *)
Definition chat (agent : string) (messages : list Message) (tools : option (list string))
  : M State AssistantMessage :=
  fun s =>
    let r := match chat_completions_create (exchanges s) agent messages tools with
             | inl msg => Raise (Exn APIError msg)
             | inr m => Ok m
             end in
    (r, add_exchange {| ex_agent := agent; ex_messages := messages;
                        ex_tools := tools; ex_response := r |} s).

End Endpoint.

(** [messages.append(m)] on the transcript a loop owns *)
Definition append {S} (m : Message) : M (list Message * S) unit :=
  modify_local (fun ms => ms ++ [m]).

(** A function body run with a local variable that starts as [init] and
    is dropped at the end. *)
Definition with_local {L S A} (init : L) (c : M (L * S) A) : M S A :=
  fun s =>
    match c (init, s) with
    | (r, (_, s')) => (r, s')
    end.

(** A function body run on a mutable object held by the state: what the
    body did to it stays done, also when the body raises. *)
Definition with_object {L S A} (read : S -> L) (write : L -> S -> S)
  (c : M (L * S) A) : M S A :=
  fun s =>
    match c (read s, s) with
    | (r, (l, s')) => (r, write l s')
    end.

(** ** [agents/multi_agent/tool_chat.py] *)

Module ToolChatAgent.

(** A tool handler: [handler(tool_call, step_num)] returns the text of the
    tool message. *)
Abbreviation Handler := (ToolCall -> Z -> M State string).

Section ToolChatAgent.
Context {E : Env}.

Record t := {
  name : string;
  tools : list string;
  tool_handlers : gmap string Handler;
  max_steps : Z
}.

(** The body of [for tc in message.tool_calls]. *)
Definition call_tool (self : t) (step_num : Z) (tc : ToolCall)
  : M (list Message * State) (control unit) :=
  result ← match tool_handlers self !! function_name tc with
           | Some handler => lift (handler tc step_num)
           | None => mret ("Unknown tool: " +:+ function_name tc)
           end;
  _ ← append (tool_message (call_id tc) result);
  mret Continue.

(** The body of [for inner_step in range(1, self.max_steps + 1)];
    [Break final_text] is the assignment to [final_text] followed by
    [break]. *)
Definition step (self : t) (step_num : Z) (inner_step : Z)
  : M (list Message * State) (control string) :=
  messages ← get_local;
  message ← lift (chat (name self) messages (Some (tools self)));
  if has_tool_calls message then
    _ ← append (calls_message (calls_of message));
    _ ← for_ (calls_of message) (call_tool self step_num);
    mret Continue
  else
    let final_text := str_or (reply_content message) EmptyString in
    _ ← append (text_message assistant final_text);
    mret (Break final_text).

(** [run] on the list object [messages]. *)
Definition run_on (self : t) (system_prompt : string) (step_num : Z)
  : M (list Message * State) string :=
  _ ← append (text_message developer system_prompt);
  final ← for_ (range 1 (max_steps self + 1)) (step self step_num);
  mret (default EmptyString final).

(** [run(system_prompt, step_num)], with [messages=None]. *)
Definition run (self : t) (system_prompt : string) (step_num : Z) : M State string :=
  with_local [] (run_on self system_prompt step_num).

End ToolChatAgent.
End ToolChatAgent.

(** ** [agents/multi_agent/researcher.py] *)

Module ResearcherTool.
Section ResearcherTool.
Context {E : Env}.

Record t := { task_description : string; max_steps : Z }.

Definition name : string := "call_researcher".

Definition _safe_json_load (raw_json : option string) : json :=
  match json_loads (str_or raw_json "{}") with
  | inr v => v
  | inl _ => JDict []
  end.

Definition _extract_tool_text (result : list (option string)) : string :=
  Py.join (String (ascii_of_nat 10) EmptyString)
    (omap (fun text => match text with
                       | Some t => if nonempty t then Some t else None
                       | None => None
                       end) result).

(** [await client.call_tool(name, tool_args)] *)
Definition call_mcp (tool : string) (tool_args : json) : M State (list (option string)) :=
  fun s =>
    let r := match mcp_call_tool (mcp_calls s) tool tool_args with
             | inl msg => Raise (Exn McpError msg)
             | inr content => Ok content
             end in
    (r, add_mcp_call (tool, tool_args) s).

(** The body of [for tc in message.tool_calls]. *)
Definition call_tool (tc : ToolCall) : M (list Message * State) (control unit) :=
  let tool_args := _safe_json_load (function_arguments tc) in
  tool_result ← try_except
      (result ← lift (call_mcp (function_name tc) tool_args);
       mret (_extract_tool_text result))
      is_Exception
      (fun exc => mret ("Error calling MCP tool " +:+ function_name tc +:+ ": " +:+ str_of exc));
  _ ← append (tool_message (call_id tc) tool_result);
  mret Continue.

(** The body of [for inner_step in range(1, self.max_steps + 1)]. *)
Definition step (openai_tools : list string) (inner_step : Z)
  : M (list Message * State) (control string) :=
  messages ← get_local;
  message ← lift (chat "researcher" messages (Some openai_tools));
  if negb (has_tool_calls message) then
    let final_text := str_or (reply_content message) EmptyString in
    _ ← append (text_message assistant final_text);
    mret (Break final_text)
  else
    _ ← append (calls_message (calls_of message));
    _ ← for_ (calls_of message) call_tool;
    mret Continue.

Definition summarize_now : string :=
  "Summarize your findings now in plain text (no tool calls).".

(** The block after [async with]: the forced summary. *)
Definition finish (final_text : string) : M (list Message * State) string :=
  final_text ←
    (if negb (nonempty final_text) then
       _ ← append (text_message user summarize_now);
       messages ← get_local;
       summary_msg ← lift (chat "researcher" messages None);
       mret (str_or (reply_content summary_msg) EmptyString)
     else mret final_text);
  mret (str_or (Some final_text) "No researcher answer produced.").

Definition _run_researcher (self : t) (prompt : string) (step_num : Z) : M State string :=
  with_local [text_message developer prompt]
    (match mcp_connect with
     | Some msg => raise (Exn McpError msg)
     | None =>
         match mcp_list_tools with
         | inl exc => mret ("Error listing MCP tools: " +:+ exc)
         | inr openai_tools =>
             final ← for_ (range 1 (max_steps self + 1)) (step openai_tools);
             finish (default EmptyString final)
         end
     end).


Definition execute (self : t) (tool_call : ToolCall) (step_num : Z) : M State string :=
  let raw_args := str_or (function_arguments tool_call) EmptyString in
  let args := _safe_json_load (Some raw_args) in
  if negb (truthy args) then
    mret ("Error: Invalid JSON in call_researcher arguments." +:+ nl +:+ nl
          +:+ "Received: " +:+ take_str 200 raw_args +:+ nl +:+ nl
          +:+ "Please provide 'query' as a string and optionally 'libraries' as an array of strings.")
  else
    args ← of_result (as_dict args);
    query ← of_result (method_strip (default (JStr EmptyString) (dict_get "query" args)));
    if negb (nonempty query) then
      mret ("Error: 'query' parameter is required for call_researcher." +:+ nl +:+ nl
            +:+ "Please provide a clear question about what library/API information you need.")
    else
      let libraries := dict_get "libraries" args in
      libraries_text ←
        (if given libraries
         then of_result (str_join ", " (default JNull libraries))
         else mret "(none provided)");
      let prompt := format_prompt "RESEARCHER_PROMPT"
                      [("query", query); ("libraries", libraries_text);
                       ("task_description", task_description self)] in
      try_except (_run_researcher self prompt step_num) is_Exception
        (fun exc =>
           mret ("Error running researcher: " +:+ str_of exc +:+ nl +:+ nl
                 +:+ "Query: " +:+ query +:+ nl +:+ "Libraries: " +:+ libraries_text
                 +:+ nl +:+ nl
                 +:+ "The MCP service may be unavailable or the query may have timed out. Consider rephrasing the query or trying fewer libraries at once.")).

End ResearcherTool.
End ResearcherTool.

(** ** [agents/multi_agent/coder.py] *)

Module CoderTool.
Section CoderTool.
Context {E : Env}.

(** The attribute [solver_path] is mutable and lives in the state. *)
Record t := {
  workdir : Path.t;
  packages : list string;
  python_cmd : string;
  reference_text : string;
  validation_text : string;
  write_file_tool : WriteFileTool.t;
  run_shell_tool : RunShellTool.t;
  researcher_tool : option ResearcherTool.t;
  max_steps : Z
}.

Definition name : string := "call_coder".

Definition write_file (self : t) (tool_call : ToolCall) (step_num : Z) : M State string :=
  WriteFileTool.execute (write_file_tool self) tool_call step_num.

Definition run_shell (self : t) (tool_call : ToolCall) (step_num : Z) : M State string :=
  RunShellTool.execute (run_shell_tool self) tool_call step_num.

Definition call_researcher (self : t) (tool_call : ToolCall) (step_num : Z) : M State string :=
  match researcher_tool self with
  | None => mret "Error: Researcher not available in this configuration."
  | Some researcher => ResearcherTool.execute researcher tool_call step_num
  end.

(** [self.agent], as [__init__] builds it. *)
Definition agent (self : t) : ToolChatAgent.t :=
  let tools := [WriteFileTool.name; RunShellTool.name] in
  let tool_handlers : gmap string ToolChatAgent.Handler :=
    <["run_shell" := run_shell self]> {["write_file" := write_file self]} in
  match researcher_tool self with
  | Some _ =>
      {| ToolChatAgent.name := "coder";
         ToolChatAgent.tools := tools ++ [ResearcherTool.name];
         ToolChatAgent.tool_handlers :=
           <["call_researcher" := call_researcher self]> tool_handlers;
         ToolChatAgent.max_steps := max_steps self |}
  | None =>
      {| ToolChatAgent.name := "coder";
         ToolChatAgent.tools := tools;
         ToolChatAgent.tool_handlers := tool_handlers;
         ToolChatAgent.max_steps := max_steps self |}
  end.

Definition execute (self : t) (tool_call : ToolCall) (step_num : Z)
  (task_name task_description : string) : M State string :=
  match json_loads (str_or (function_arguments tool_call) "{}") with
  | inl exc =>
      mret ("Error: Invalid JSON in call_coder arguments. " +:+ exc +:+ nl +:+ nl
            +:+ "Make sure 'approach' is provided as a properly escaped string.")
  | inr args =>
      args ← of_result (as_dict args);
      approach ← of_result (method_strip (default (JStr EmptyString) (dict_get "approach" args)));
      if negb (nonempty approach) then
        mret ("Error: 'approach' parameter is required for call_coder." +:+ nl +:+ nl
              +:+ "Please provide a clear implementation strategy describing:" +:+ nl
              +:+ "- Which algorithm/library to use" +:+ nl
              +:+ "- Key implementation details" +:+ nl
              +:+ "- Expected input/output format")
      else
        let output_path_raw := dict_get "output_path" args in
        s ← get;
        let solver_path := coder_solver_path s in
        target ← (if given output_path_raw
                  then of_result (Path.of_json (default JNull output_path_raw))
                  else mret solver_path);
        let target :=
          if Path.is_absolute target then target
          else Path.resolve cwd (Path.joinpath (Path.parent solver_path) target) in
        _ ← Path_mkdir (Path.parent target);
        _ ← modify (set_coder_solver_path target);
        let researcher_instructions :=
          match researcher_tool self with
          | Some _ => "CODER_RESEARCHER_INSTRUCTIONS"
          | None => EmptyString
          end in
        let prompt := format_prompt "CODER_PROMPT_BASE"
          [("solver_path", rel_path (workdir self) target);
           ("task_name", task_name);
           ("task_description", str_or (Some task_description) "(no description provided)");
           ("approach", str_or (Some approach) "(no approach provided)");
           ("packages", str_or (Some (Py.join ", " (packages self))) "(none)");
           ("python_cmd", python_cmd self);
           ("reference_text", str_or (Some (reference_text self)) "(reference unavailable)");
           ("validation_text", str_or (Some (validation_text self)) "(validation unavailable)");
           ("researcher_instructions", researcher_instructions)] in
        summary ← ToolChatAgent.run (agent self) prompt step_num;
        exists_ ← Path_exists target;
        let result := "Coder finished. solver_path=" +:+ rel_path (workdir self) target
                        +:+ " exists=" +:+ str_bool exists_ +:+ ". Notes: " +:+ summary in
        mret (if exists_ then result
              else result +:+ nl +:+ nl
                   +:+ "WARNING: The solver file was not created. The coder may have encountered an error or didn't use write_file.")
  end.

End CoderTool.
End CoderTool.

(** ** [agents/multi_agent/test_generator.py] *)

Module TestGenerator.
Section TestGenerator.
Context {E : Env}.

(** The attributes [solver_path] and [history] are mutable and live in the
    state. *)
Record t := {
  workdir : Path.t;
  python_cmd : string;
  reference_text : string;
  validation_text : string;
  write_file_tool : WriteFileTool.t;
  run_shell_tool : RunShellTool.t;
  max_steps : Z;
  num_test_problems : Z
}.

Definition name : string := "call_testgen".

Definition write_file (self : t) (tool_call : ToolCall) (step_num : Z) : M State string :=
  WriteFileTool.execute (write_file_tool self) tool_call step_num.

Definition run_shell (self : t) (tool_call : ToolCall) (step_num : Z) : M State string :=
  RunShellTool.execute (run_shell_tool self) tool_call step_num.

(** [self.agent], as [__init__] builds it. *)
Definition agent (self : t) : ToolChatAgent.t :=
  {| ToolChatAgent.name := "test_generator";
     ToolChatAgent.tools := [WriteFileTool.name; RunShellTool.name];
     ToolChatAgent.tool_handlers :=
       <["run_shell" := run_shell self]> {["write_file" := write_file self]};
     ToolChatAgent.max_steps := max_steps self |}.

Definition solver_path_required (parsed : json) : string :=
  "Error: solver_path is required for call_testgen." +:+ nl +:+ nl
  +:+ "Received: " +:+ repr parsed +:+ nl +:+ nl
  +:+ "Please provide solver_path as a non-empty string.".

Definition execute (self : t) (tool_call : ToolCall) (step_num : Z)
  (task_name task_description : string) : M State string :=
  let args := str_or (function_arguments tool_call) "{}" in
  match json_loads args with
  | inl exc =>
      mret ("Error: Invalid JSON in call_testgen arguments. " +:+ exc +:+ nl +:+ nl
            +:+ "Make sure solver_path is provided as a string.")
  | inr parsed =>
      members ← of_result (as_dict parsed);
      let solver_path_arg := dict_get "solver_path" members in
      directions ←
        (if given (dict_get "directions" members)
         then of_result (method_strip (default JNull (dict_get "directions" members)))
         else mret (strip EmptyString));
      match solver_path_arg with
      | Some (JStr solver_path_arg) =>
          if negb (nonempty (strip solver_path_arg)) then mret (solver_path_required parsed)
          else
            let target := Path.of_string solver_path_arg in
            let target :=
              if Path.is_absolute target then target
              else Path.resolve cwd (Path.joinpath (workdir self) target) in
            _ ← modify (set_testgen_solver_path target);
            let prompt := format_prompt "TEST_GEN_PROMPT"
              [("task_name", task_name);
               ("task_description", str_or (Some task_description) "(no description provided)");
               ("python_cmd", python_cmd self);
               ("solver_path", rel_path (workdir self) target);
               ("num_test_problems", str_Z (num_test_problems self));
               ("directions", str_or (Some directions) "Focus on realistic, scaling benchmarks.");
               ("reference_text", str_or (Some (reference_text self)) "(reference unavailable)");
               ("validation_text", str_or (Some (validation_text self)) "(validation unavailable)")] in
            final_text ← with_object testgen_history set_testgen_history
                           (ToolChatAgent.run_on (agent self) prompt step_num);
            mret (str_or (Some (strip final_text)) "No summary produced.")
      | _ => mret (solver_path_required parsed)
      end
  end.

End TestGenerator.
End TestGenerator.

(** ** [agents/multi_agent/orchestrator.py] *)

(** The coordinator's variable [messages].  The variable is rebound and
    appended to while the loop runs; [earlier] keeps the values it had
    before, latest first, so that a property of the transcript can be
    stated for every point of the run. *)
Module Transcript.

Record t := { messages : list Message; earlier : list (list Message) }.

Definition start (ms : list Message) : t := {| messages := ms; earlier := [] |}.

Definition set_messages (ms : list Message) (tr : t) : t :=
  {| messages := ms; earlier := messages tr :: earlier tr |}.

(** Every value the variable has had, the current one first. *)
Definition values (tr : t) : list (list Message) := messages tr :: earlier tr.

Definition rebind {S} (f : list Message -> list Message) : M (t * S) unit :=
  modify_local (fun tr => set_messages (f (messages tr)) tr).

Definition append {S} (m : Message) : M (t * S) unit :=
  rebind (fun ms => ms ++ [m]).

End Transcript.

Module MultiAgent.
Section MultiAgent.
Context {E : Env}.

Record t := {
  task : string;
  max_steps : Z;
  enable_researcher : bool;
  enable_tester : bool
}.

(** What [run] has computed from its arguments and the configuration when
    it reaches the construction of the tools. *)
Record Locals := {
  workdir : Path.t;
  task_description : string;
  packages : list string;
  python_cmd : string;
  reference_text : string;
  validation_text : string;
  solver_path : Path.t
}.

(** The static method [_build_python_cmd]; [str(rel)] of a path is its
    [as_posix()]. *)
Definition _build_python_cmd (workdir python_path : Path.t) : string :=
  match Path.relative_to python_path workdir with
  | Ok rel =>
      let rel :=
        if negb (String.prefix "." (Path.as_posix rel))
        then Path.joinpath (Path.of_string ".") rel
        else rel in
      Path.as_posix rel
  | Raise _ => Path.as_posix python_path
  end.

Definition write_file_tool (l : Locals) : WriteFileTool.t :=
  {| WriteFileTool.workdir := workdir l |}.

Definition run_shell_tool (l : Locals) : RunShellTool.t :=
  RunShellTool.make (workdir l).

Definition researcher_tool (self : t) (l : Locals) : option ResearcherTool.t :=
  if enable_researcher self then
    Some {| ResearcherTool.task_description :=
              str_or (Some (task_description l)) "(no description provided)";
            ResearcherTool.max_steps := 15 |}
  else None.

Definition coder_tool (self : t) (l : Locals) : CoderTool.t :=
  {| CoderTool.workdir := workdir l;
     CoderTool.packages := packages l;
     CoderTool.python_cmd := python_cmd l;
     CoderTool.reference_text := reference_text l;
     CoderTool.validation_text := validation_text l;
     CoderTool.write_file_tool := write_file_tool l;
     CoderTool.run_shell_tool := run_shell_tool l;
     CoderTool.researcher_tool := researcher_tool self l;
     CoderTool.max_steps := 14 |}.

Definition test_generator (self : t) (l : Locals) : option TestGenerator.t :=
  if enable_tester self then
    Some {| TestGenerator.workdir := workdir l;
            TestGenerator.python_cmd := python_cmd l;
            TestGenerator.reference_text := reference_text l;
            TestGenerator.validation_text := validation_text l;
            TestGenerator.write_file_tool := write_file_tool l;
            TestGenerator.run_shell_tool := run_shell_tool l;
            TestGenerator.max_steps := 10;
            TestGenerator.num_test_problems := 3 |}
  else None.

Definition get_coordinator_prompt (enable_researcher enable_tester : bool) : string :=
  if enable_researcher && enable_tester then "COORDINATOR_FULL"
  else if negb enable_researcher && enable_tester then "COORDINATOR_NO_RESEARCHER"
  else if negb enable_researcher && negb enable_tester then "COORDINATOR_CODER_ONLY"
  else "COORDINATOR_RESEARCHER_NO_TESTER".

Definition system_prompt (self : t) (l : Locals) : string :=
  let prompt_kwargs :=
    [("task_name", task self);
     ("task_description", str_or (Some (task_description l)) "(no description provided)");
     ("solver_path", rel_path (workdir l) (solver_path l));
     ("python_cmd", python_cmd l);
     ("packages", str_or (Some (Py.join ", " (packages l))) "(none)")] in
  let prompt_kwargs :=
    if enable_tester self
    then prompt_kwargs ++ [("test_command", python_cmd l +:+ " harness.py {solver_path}")]
    else prompt_kwargs in
  format_prompt (get_coordinator_prompt (enable_researcher self) (enable_tester self))
    prompt_kwargs.

(** The advertised tools, by name. *)
Definition tools (self : t) : list string :=
  [RunShellTool.name]
    ++ (if enable_researcher self then [ResearcherTool.name] else [])
    ++ [CoderTool.name]
    ++ (if enable_tester self then [TestGenerator.name] else [])
    ++ ["indicate_completion"].

Definition guidance_prefix : string := "Tool calls remaining:".

(** The condition of the list comprehension that prunes the transcript. *)
Definition is_guidance (m : Message) : bool :=
  match msg_role m, content m with
  | developer, Some text => String.prefix guidance_prefix text
  | _, _ => false
  end.

Definition guidance (remaining : Z) : Message :=
  text_message developer
    ("Tool calls remaining: " +:+ str_Z remaining
       +:+ ". Emit a tool call now; avoid free-form text.").

Definition _has_top_level_solve (l : Locals) (path : Path.t) : M State (bool * string) :=
  exists_ ← Path_exists path;
  if negb exists_ then
    mret (false, "Solver not found at " +:+ rel_path (workdir l) path +:+ "." +:+ nl +:+ nl
                 +:+ "The file does not exist yet. Use call_coder to create it first.")
  else fun s =>
    match exec_module (fs s) (location path) with
    | (LoadRaised exc, f) =>
        if is_ImportError (class_of exc) then
          (Ok (false, "Failed to import solver due to missing dependency: " +:+ str_of exc
                 +:+ nl +:+ nl
                 +:+ "The solver imports a module that cannot be found. Common issues:" +:+ nl
                 +:+ "- Importing from a file that doesn't exist (e.g., 'from solver import ...' in reference_impl.py)" +:+ nl
                 +:+ "- Missing package installation" +:+ nl
                 +:+ "- Circular import" +:+ nl +:+ nl
                 +:+ "Check that all files are self-contained and don't have circular dependencies."),
           set_fs f s)
        else if is_Exception (class_of exc) then
          (Ok (false, "Failed to import solver: " +:+ str_of exc +:+ nl +:+ nl
                 +:+ "There is a syntax error or runtime error in the solver code. Use call_coder to fix it."),
           set_fs f s)
        else (Raise exc, set_fs f s)
    | (Loaded solve_fn, f) =>
        match solve_fn with
        | Some true => (Ok (true, EmptyString), set_fs f s)
        | _ =>
            (Ok (false, "Solver must export a module-level callable solve(problem)." +:+ nl +:+ nl
                   +:+ "The solver file exists but doesn't have a callable 'solve' function at module level."
                   +:+ nl +:+ nl
                   +:+ "If you use a Solver class, add this line at the end: solve = Solver().solve"),
             set_fs f s)
        end
    end.


(** The correction sent when the model answers in plain text. *)
Definition tool_descriptions (self : t) : list string :=
  (if enable_researcher self
   then ["- call_researcher(query, libraries) - get library/API documentation"]
   else [])
    ++ ["- call_coder(approach, output_path) - generate/update the solver"]
    ++ (if enable_tester self
        then ["- call_testgen(solver_path, directions) - generate tests and run benchmarks"]
        else [])
    ++ ["- run_shell(cmd, action) - run shell commands for quick checks";
        "- indicate_completion() - mark task as complete"].

Definition quoted_tool : string :=
  String (ascii_of_nat 34) "tool" +:+ String (ascii_of_nat 34) EmptyString.

Definition error_prompt (self : t) (text : string) : string :=
  let stripped := strip text in
  let looks_like_tool_json := String.prefix "{" stripped && contains quoted_tool stripped in
  let error_prompt :=
    "ERROR: You must emit real tool calls using the available tools." +:+ nl +:+ nl
    +:+ "Available tools:" +:+ nl
    +:+ Py.join nl (tool_descriptions self)
    +:+ nl +:+ nl
    +:+ "Do NOT:" +:+ nl
    +:+ "- Paste JSON that looks like a tool call" +:+ nl
    +:+ "- Write code directly in your response" +:+ nl
    +:+ "- Use apply_patch, tee, or cat > to edit files (use call_coder"
    +:+ (if enable_tester self then " or call_testgen" else EmptyString)
    +:+ " instead)" +:+ nl +:+ nl
    +:+ "You must invoke the functions directly using the tool call mechanism." in
  if looks_like_tool_json then
    "ERROR: Plain JSON is not a valid tool call." +:+ nl +:+ nl +:+ "You wrote:" +:+ nl
    +:+ take_str 200 stripped +:+ nl +:+ nl +:+ error_prompt
  else error_prompt.

(** What handling one tool call leaves: the text for the tool message, or
    the path with which [run] returns. *)
Inductive handled :=
| Content (content : string)
| Return (target : Path.t).

(** The branch [elif name == "indicate_completion"]. *)
Definition indicate_completion (l : Locals) (tool_call : ToolCall)
  : M (Transcript.t * State) handled :=
  s ← lift get;
  let target := coder_solver_path s in
  '(ok, err_msg) ← lift (_has_top_level_solve l target);
  if (ok : bool) then
    _ ← Transcript.append
          (tool_message (call_id tool_call)
             ("Solver ready at " +:+ rel_path (workdir l) target +:+ ". Completing run."));
    mret (Return target)
  else
    mret (Content ("Cannot complete: " +:+ err_msg +:+ nl +:+ nl
                   +:+ "Fix the issue before calling indicate_completion again.")).

(** The chain [if name == ... elif ... else]. *)
Definition handle (self : t) (l : Locals) (step_num : Z) (tool_call : ToolCall)
  : M (Transcript.t * State) handled :=
  let name := function_name tool_call in
  if String.eqb name "write_file" then
    content ← lift (WriteFileTool.execute (write_file_tool l) tool_call step_num);
    mret (Content content)
  else if String.eqb name "run_shell" then
    content ← lift (RunShellTool.execute (run_shell_tool l) tool_call step_num);
    mret (Content content)
  else if String.eqb name "call_researcher" then
    match enable_researcher self, researcher_tool self l with
    | true, Some researcher =>
        content ← lift (ResearcherTool.execute researcher tool_call step_num);
        mret (Content content)
    | _, _ => mret (Content "Error: Researcher not available in this configuration")
    end
  else if String.eqb name "call_coder" then
    content ← lift (CoderTool.execute (coder_tool self l) tool_call step_num
                      (task self) (task_description l));
    mret (Content content)
  else if String.eqb name "call_testgen" then
    match enable_tester self, test_generator self l with
    | true, Some tester =>
        content ← lift (TestGenerator.execute tester tool_call step_num
                          (task self) (task_description l));
        mret (Content content)
    | _, _ => mret (Content "Error: Test generator not available in this configuration")
    end
  else if String.eqb name "indicate_completion" then
    indicate_completion l tool_call
  else mret (Content ("Unknown tool: " +:+ name)).

(** The body of [for tool_call in message.tool_calls]; [Break target] is
    [return target]. *)
Definition call_tool (self : t) (l : Locals) (step_num : Z) (tool_call : ToolCall)
  : M (Transcript.t * State) (control Path.t) :=
  h ← handle self l step_num tool_call;
  match h with
  | Return target => mret (Break target)
  | Content content =>
      _ ← Transcript.append (tool_message (call_id tool_call) content);
      mret Continue
  end.

(** The body of [for step_num in range(1, self.max_steps + 1)]. *)
Definition step (self : t) (l : Locals) (step_num : Z)
  : M (Transcript.t * State) (control Path.t) :=
  _ ← Transcript.rebind (List.filter (fun m => negb (is_guidance m)));
  let remaining := max_steps self - step_num + 1 in
  _ ← Transcript.append (guidance remaining);
  tr ← get_local;
  message ← lift (chat "coordinator" (Transcript.messages tr) (Some (tools self)));
  if negb (has_tool_calls message) then
    let text := str_or (reply_content message) "No content produced." in
    _ ← Transcript.append (text_message assistant text);
    _ ← Transcript.append (text_message user (error_prompt self text));
    mret Continue
  else
    _ ← Transcript.append (calls_message (calls_of message));
    returned ← for_ (calls_of message) (call_tool self l step_num);
    match returned with
    | Some target => mret (Break target)
    | None => mret Continue
    end.

(** The loop and what follows it. *)
Definition loop (self : t) (l : Locals) : M (Transcript.t * State) (option Path.t) :=
  returned ← for_ (range 1 (max_steps self + 1)) (step self l);
  match returned with
  | Some target => mret (Some target)
  | None =>
      s ← lift get;
      exists_ ← lift (Path_exists (coder_solver_path s));
      mret (if (exists_ : bool) then Some (coder_solver_path s) else None)
  end.

(** [run], from the construction of the tools on. *)
Definition run (self : t) (l : Locals) : M State (option Path.t) :=
  _ ← modify (set_coder_solver_path (solver_path l));
  _ ← modify (set_testgen_solver_path (solver_path l));
  _ ← modify (set_testgen_history []);
  with_local (Transcript.start [text_message developer (system_prompt self l)])
    (loop self l).

End MultiAgent.
End MultiAgent.

(** ** [agents/multi_agent_variants.py] *)

Definition MultiAgentFull (task : string) (max_steps : Z) : MultiAgent.t :=
  {| MultiAgent.task := task; MultiAgent.max_steps := max_steps;
     MultiAgent.enable_researcher := true; MultiAgent.enable_tester := true |}.

Definition MultiAgentNoResearcher (task : string) (max_steps : Z) : MultiAgent.t :=
  {| MultiAgent.task := task; MultiAgent.max_steps := max_steps;
     MultiAgent.enable_researcher := false; MultiAgent.enable_tester := true |}.

Definition MultiAgentNoTester (task : string) (max_steps : Z) : MultiAgent.t :=
  {| MultiAgent.task := task; MultiAgent.max_steps := max_steps;
     MultiAgent.enable_researcher := true; MultiAgent.enable_tester := false |}.

Definition MultiAgentCoderOnly (task : string) (max_steps : Z) : MultiAgent.t :=
  {| MultiAgent.task := task; MultiAgent.max_steps := max_steps;
     MultiAgent.enable_researcher := false; MultiAgent.enable_tester := false |}.

(** ** [agents/session.py] *)

Module Session.
Section Session.
Context {E : Env}.

Record t := { messages : list Message; tools : option (list string) }.

(** [Session(model, system_prompt, tools)] *)
Definition make (system_prompt : option string) (tools : option (list string)) : t :=
  {| messages := [ {| msg_role := developer; content := system_prompt;
                      tool_calls := None; tool_call_id := None |} ];
     tools := tools |}.

Definition add_messages (new : list Message) (self : t) : t :=
  {| messages := messages self ++ new; tools := tools self |}.

(** [get_response()]: the tools go into the request when the list is
    truthy.  [agent] is the label under which the caller logs the
    request. *)
Definition get_response (agent : string) (self : t) : M State AssistantMessage :=
  match tools self with
  | Some (first :: more) => chat agent (messages self) (Some (first :: more))
  | _ => chat agent (messages self) None
  end.

End Session.
End Session.

(** ** [agents/single_agent.py] *)

Module SingleAgent.
Section SingleAgent.
Context {E : Env}.

Record t := { task : string; max_steps : Z }.

(** What [run] has computed from its arguments when it reaches the
    session: the resolved working directory, the solver path
    [workdir / "solver.py"] and the system prompt. *)
Record Locals := {
  workdir : Path.t;
  solver_path : Path.t;
  system_prompt : string
}.

Definition write_file_tool (l : Locals) : WriteFileTool.t :=
  {| WriteFileTool.workdir := workdir l |}.

Definition run_shell_tool (l : Locals) : RunShellTool.t :=
  RunShellTool.make (workdir l).

(** The advertised tools, by name. *)
Definition tools : list string :=
  [WriteFileTool.name; RunShellTool.name; "indicate_completion"].

Definition must_use_tools : string :=
  "ERROR: You must use the available tools (run_shell, write_file, indicate_completion). Do not output text or JSON - use the tool calling interface. If you want to indicate completion, call the indicate_completion tool.".

Definition solver_missing (l : Locals) : string :=
  "ERROR: You set done=true but solver file does not exist at "
  +:+ Path.as_posix (solver_path l)
  +:+ ". You must create the solver.py file before setting done=true. Continue working.".

(** How [run] ends: [return] of a path or of [None], or
    [raise AgentError(msg)], which nothing in [run] catches. *)
Inductive ending :=
| Returned (path : option Path.t)
| AgentError (msg : string).

(** The body of [for tool_call in message.tool_calls]; [Break] is
    [return solver_path]. *)
Definition call_tool (l : Locals) (step_num : Z) (tool_call : ToolCall)
  : M (Session.t * State) (control ending) :=
  let name := function_name tool_call in
  if String.eqb name "write_file" then
    content ← lift (WriteFileTool.execute (write_file_tool l) tool_call step_num);
    _ ← modify_local (Session.add_messages [tool_message (call_id tool_call) content]);
    mret Continue
  else if String.eqb name "run_shell" then
    content ← lift (RunShellTool.execute (run_shell_tool l) tool_call step_num);
    _ ← modify_local (Session.add_messages [tool_message (call_id tool_call) content]);
    mret Continue
  else if String.eqb name "indicate_completion" then
    exists_ ← lift (Path_exists (solver_path l));
    if (exists_ : bool) then mret (Break (Returned (Some (solver_path l))))
    else
      _ ← modify_local (Session.add_messages [text_message user (solver_missing l)]);
      mret Continue
  else
    _ ← modify_local
          (Session.add_messages [tool_message (call_id tool_call) "Error: Unknown tool"]);
    mret Continue.

(** The body of [for step_num in range(1, self.max_steps + 1)]. *)
Definition step (self : t) (l : Locals) (step_num : Z)
  : M (Session.t * State) (control ending) :=
  session ← get_local;
  response ← try_except
      (message ← lift (Session.get_response "single_agent" session);
       mret (inr message))
      is_Exception
      (fun e => mret (inl ("Error getting response: " +:+ str_of e)));
  match response with
  | inl msg => mret (Break (AgentError msg))
  | inr message =>
      if negb (has_tool_calls message) then
        _ ← modify_local
              (Session.add_messages
                 [text_message assistant
                    (str_or (reply_content message) "No content produced.");
                  text_message user must_use_tools]);
        mret Continue
      else
        _ ← modify_local (Session.add_messages [calls_message (calls_of message)]);
        ended ← for_ (calls_of message) (call_tool l step_num);
        match ended with
        | Some e => mret (Break e)
        | None => mret Continue
        end
  end.

(** [run], from the creation of the session on. *)
Definition run (self : t) (l : Locals) : M State ending :=
  with_local (Session.make (Some (system_prompt l)) (Some tools))
    (ended ← for_ (range 1 (max_steps self + 1)) (step self l);
     match ended with
     | Some e => mret e
     | None =>
         exists_ ← lift (Path_exists (solver_path l));
         mret (Returned (if (exists_ : bool) then Some (solver_path l) else None))
     end).

End SingleAgent.
End SingleAgent.

(** ** Notions used in the statements *)

Section Notions.
Context {E : Env}.

(** [target] lies in [base]: [target.relative_to(base)] does not raise. *)
Definition inside (base target : Path.t) : bool :=
  match Path.relative_to target base with
  | Ok _ => true
  | Raise _ => false
  end.

(** The resolved path a [write_file] tool call asks to write, when its
    arguments are a JSON object whose ["path"] is a string. *)
Definition write_file_target (workdir : Path.t) (tool_call : ToolCall) : option Path.t :=
  match function_arguments tool_call with
  | Some raw =>
      match json_loads raw with
      | inr (JDict args) =>
          match dict_get "path" args with
          | Some (JStr path) =>
              let target := Path.of_string path in
              Some (Path.resolve cwd
                      (if Path.is_absolute target then target
                       else Path.joinpath workdir target))
          | _ => None
          end
      | _ => None
      end
  | None => None
  end.

(** The resolved path the [write_file] command of the shell interface is
    asked to write. *)
Definition shell_write_target (workdir : Path.t) (arg : string) : Path.t :=
  let target := Path.of_string arg in
  Path.resolve cwd
    (if Path.is_absolute target then target else Path.joinpath workdir target).

(** The requests an agent has made to the endpoint, oldest first. *)
Definition requests_of (agent : string) (s : State) : list Exchange :=
  List.filter (fun e => String.eqb (ex_agent e) agent) (exchanges s).

(** What [v.get] raises on a value that is no dict. *)
Definition no_get : exn := Exn AttributeError "object has no attribute 'get'".

(** The tool messages [ms] answer the calls [tcs]: one message per call,
    in the order of the calls, each with the id of its call. *)
Definition answers (tcs : list ToolCall) (ms : list Message) : Prop :=
  Forall2 (fun tc m => msg_role m = tool /\ tool_call_id m = Some (call_id tc)) tcs ms.

(** From [before] to [after], the transcript has gained the assistant turn
    with the calls [tcs] followed by the answers to [answered]. *)
Definition turn_recorded (tcs answered : list ToolCall) (before after : list Message) : Prop :=
  exists replies, after = before ++ calls_message tcs :: replies /\ answers answered replies.

End Notions.

(** The endpoint answered the request with tool calls. *)
Definition replied_with_calls (e : Exchange) : Prop :=
  exists reply, ex_response e = Ok reply /\ has_tool_calls reply = true.

(** The endpoint answered the request without tool calls, and [text] is
    the content of the answer, empty if there is none. *)
Definition replied_plain (e : Exchange) (text : string) : Prop :=
  exists reply,
    ex_response e = Ok reply /\ has_tool_calls reply = false
    /\ text = str_or (reply_content reply) EmptyString.

(** The registered handlers of an agent make no request in its name. *)
Definition handlers_keep_requests (self : ToolChatAgent.t) : Prop :=
  forall (tc : ToolCall) (handler : ToolChatAgent.Handler) (step_num : Z) (s : State),
    ToolChatAgent.tool_handlers self !! function_name tc = Some handler ->
    requests_of (ToolChatAgent.name self) (handler tc step_num s).2
    = requests_of (ToolChatAgent.name self) s.

(** How many guidance messages a transcript holds. *)
Definition guidance_count (ms : list Message) : nat :=
  length (List.filter MultiAgent.is_guidance ms).

(** Every value the coordinator's transcript has had holds at most one
    guidance message. *)
Definition at_most_one_guidance (tr : Transcript.t) : Prop :=
  Forall (fun ms => (guidance_count ms <= 1)%nat) (Transcript.values tr).

(** The request [e] of step [step_num] carries exactly one guidance
    message, the last of its transcript, which states the budget that
    remains at that step. *)
Definition guided (max_steps : Z) (e : Exchange) (step_num : Z) : Prop :=
  guidance_count (ex_messages e) = 1%nat
  /\ last (ex_messages e) = Some (MultiAgent.guidance (max_steps - step_num + 1)).

(** A [write_file] call may run: the location it resolves to, and the
    directory above it, are [safe]. *)
Definition may_write {E : Env} (safe : list string -> Prop) (workdir : Path.t)
  (tool_call : ToolCall) : Prop :=
  forall target,
    write_file_target workdir tool_call = Some target ->
    safe (location target) /\ safe (location (Path.parent target)).

(** A tool call spares the location [deliverable]: if it is a
    [write_file] call, the path it resolves to is neither that location nor
    below it. *)
Definition spares {E : Env} (deliverable : list string) (workdir : Path.t)
  (tool_call : ToolCall) : Prop :=
  function_name tool_call = "write_file" ->
  forall target,
    write_file_target workdir tool_call = Some target ->
    Path.is_prefix deliverable (Path.parts target) = false.

(** [c] keeps the invariant [I] of the state, whether it returns or
    raises; what it returns satisfies [Q] and what it raises satisfies
    [X]. *)
Definition keeps {S A} (I : S -> Prop) (Q : A -> Prop) (X : exn -> Prop) (c : M S A) : Prop :=
  forall s, I s ->
    I (c s).2 /\ match (c s).1 with
                 | Ok a => Q a
                 | Raise e => X e
                 end.

(** An exception that [except Exception] catches. *)
Definition caught (e : exn) : Prop := is_Exception (class_of e) = true.

(** ** A concrete environment

    The instance of [Env] on which the statements below are exercised.  Its
    JSON decoder reads the JSON grammar with escapes other than [\u]; the
    endpoint answers from a script. *)

Module Demo.

Definition dquote : ascii := ascii_of_nat 34.
Definition backslash : ascii := ascii_of_nat 92.

Definition is_json_space (c : ascii) : bool :=
  let n := nat_of_ascii c in
  (n =? 32)%nat || (n =? 9)%nat || (n =? 10)%nat || (n =? 13)%nat.

Fixpoint skip_ws (s : string) : string :=
  match s with
  | String c s' => if is_json_space c then skip_ws s' else s
  | EmptyString => EmptyString
  end.

Definition is_digit (c : ascii) : bool :=
  let n := nat_of_ascii c in (48 <=? n)%nat && (n <=? 57)%nat.

Fixpoint take_digits (s : string) : string * string :=
  match s with
  | String c s' =>
      if is_digit c then let '(d, r) := take_digits s' in (String c d, r)
      else (EmptyString, s)
  | EmptyString => (EmptyString, EmptyString)
  end.

Fixpoint Z_of_digits (acc : Z) (d : string) : Z :=
  match d with
  | String c d' => Z_of_digits (10 * acc + Z.of_nat (nat_of_ascii c - 48)) d'
  | EmptyString => acc
  end.

Fixpoint all_zero (d : string) : bool :=
  match d with
  | String c d' => Ascii.eqb c "0" && all_zero d'
  | EmptyString => true
  end.

Definition eat (kw s : string) : option string :=
  if String.prefix kw s
  then Some (String.substring (String.length kw) (String.length s - String.length kw) s)
  else None.

Definition unescape (c : ascii) : option ascii :=
  if Ascii.eqb c dquote then Some dquote
  else if Ascii.eqb c backslash then Some backslash
  else if Ascii.eqb c "/" then Some "/"%char
  else if Ascii.eqb c "n" then Some (ascii_of_nat 10)
  else if Ascii.eqb c "t" then Some (ascii_of_nat 9)
  else if Ascii.eqb c "r" then Some (ascii_of_nat 13)
  else if Ascii.eqb c "b" then Some (ascii_of_nat 8)
  else if Ascii.eqb c "f" then Some (ascii_of_nat 12)
  else None.

(** The characters of a string literal after its opening quote. *)
Fixpoint string_body (s : string) (acc : string) : option (string * string) :=
  match s with
  | EmptyString => None
  | String c s' =>
      if Ascii.eqb c dquote then Some (acc, s')
      else if Ascii.eqb c backslash then
        match s' with
        | String e s'' =>
            match unescape e with
            | Some a => string_body s'' (acc +:+ String a EmptyString)
            | None => None
            end
        | EmptyString => None
        end
      else if (nat_of_ascii c <? 32)%nat then None
      else string_body s' (acc +:+ String c EmptyString)
  end.

Definition number (s : string) : option (json * string) :=
  let '(neg, s1) := match eat "-" s with Some r => (true, r) | None => (false, s) end in
  let '(int, s2) := take_digits s1 in
  if String.eqb int EmptyString then None
  else if String.prefix "0" int && negb (String.eqb int "0") then None
  else
    let frac := match eat "." s2 with
                | Some r => let '(d, r') := take_digits r in
                            if String.eqb d EmptyString then None else Some (d, r')
                | None => Some (EmptyString, s2)
                end in
    match frac with
    | None => None
    | Some (fd, s3) =>
        let exp_tail := match eat "e" s3, eat "E" s3 with
                        | Some r, _ | None, Some r => Some r
                        | None, None => None
                        end in
        match exp_tail with
        | None =>
            if String.eqb fd EmptyString && negb (String.prefix "." s2)
            then Some (JInt (if neg then - Z_of_digits 0 int else Z_of_digits 0 int), s3)
            else Some (JFloat (negb (all_zero int && all_zero fd))
                         (String.substring 0 (String.length s - String.length s3) s), s3)
        | Some r =>
            let r1 := match eat "+" r, eat "-" r with
                      | Some t, _ | None, Some t => t
                      | None, None => r
                      end in
            let '(ed, s4) := take_digits r1 in
            if String.eqb ed EmptyString then None
            else Some (JFloat (negb (all_zero int && all_zero fd))
                         (String.substring 0 (String.length s - String.length s4) s), s4)
        end
    end.

Fixpoint value (fuel : nat) (s : string) : option (json * string) :=
  match fuel with
  | O => None
  | S fuel =>
      let s := skip_ws s in
      match eat "null" s, eat "true" s, eat "false" s with
      | Some r, _, _ => Some (JNull, r)
      | _, Some r, _ => Some (JBool true, r)
      | _, _, Some r => Some (JBool false, r)
      | None, None, None =>
          match s with
          | EmptyString => None
          | String c r =>
              if Ascii.eqb c dquote then
                match string_body r EmptyString with
                | Some (text, r') => Some (JStr text, r')
                | None => None
                end
              else if Ascii.eqb c "[" then
                match eat "]" (skip_ws r) with
                | Some r' => Some (JList [], r')
                | None => items fuel r []
                end
              else if Ascii.eqb c "{" then
                match eat "}" (skip_ws r) with
                | Some r' => Some (JDict [], r')
                | None => members fuel r []
                end
              else number s
          end
      end
  end
with items (fuel : nat) (s : string) (acc : list json) : option (json * string) :=
  match fuel with
  | O => None
  | S fuel =>
      match value fuel s with
      | Some (v, r) =>
          match eat "," (skip_ws r), eat "]" (skip_ws r) with
          | Some r', _ => items fuel r' (acc ++ [v])
          | None, Some r' => Some (JList (acc ++ [v]), r')
          | None, None => None
          end
      | None => None
      end
  end
with members (fuel : nat) (s : string) (acc : list (string * json)) : option (json * string) :=
  match fuel with
  | O => None
  | S fuel =>
      match skip_ws s with
      | String c r =>
          if Ascii.eqb c dquote then
            match string_body r EmptyString with
            | Some (key, r1) =>
                match eat ":" (skip_ws r1) with
                | Some r2 =>
                    match value fuel r2 with
                    | Some (v, r3) =>
                        match eat "," (skip_ws r3), eat "}" (skip_ws r3) with
                        | Some r', _ => members fuel r' (acc ++ [(key, v)])
                        | None, Some r' => Some (JDict (acc ++ [(key, v)]), r')
                        | None, None => None
                        end
                    | None => None
                    end
                | None => None
                end
            | None => None
            end
          else None
      | EmptyString => None
      end
  end.

Definition decode (s : string) : string + json :=
  match value (2 * String.length s + 2) s with
  | Some (v, r) =>
      if String.eqb (skip_ws r) EmptyString then inr v
      else inl "Extra data"
  | None => inl "Expecting value"
  end.

(** The endpoint answers its n-th request with the n-th reply of a
    script, and with a closing plain-text message once the script is over;
    a script entry [inl msg] is a transport fault. *)
Definition plain (text : string) : AssistantMessage :=
  {| reply_content := Some text; reply_tool_calls := None |}.

Definition calling (tcs : list ToolCall) : AssistantMessage :=
  {| reply_content := None; reply_tool_calls := Some tcs |}.

Definition scripted (script : list (string + AssistantMessage))
  (earlier : list Exchange) (agent : string) (messages : list Message)
  (tools : option (list string)) : string + AssistantMessage :=
  match script !! length earlier with
  | Some reply => reply
  | None => inr (plain "done")
  end.

(** Loading a file: the text decides what happens. *)
Definition load (fs : FS.t) (l : list string) : load_outcome * FS.t :=
  match fs !! l with
  | Some (FS.File text) =>
      if contains "import missing" text
      then (LoadRaised (Exn ImportError "No module named 'missing'"), fs)
      else if contains "sys.exit" text
      then (LoadRaised (Exn SystemExit "0"), fs)
      else if contains "1/0" text
      then (LoadRaised (Exn Exception "division by zero"), fs)
      else if contains "def solve" text || contains "solve = " text
      then (Loaded (Some true), fs)
      else if contains "solve" text then (Loaded (Some false), fs)
      else (Loaded None, fs)
  | _ => (LoadRaised (Exn OSError "[Errno 21] Is a directory"), fs)
  end.

(** A shell in which every command prints nothing and succeeds, except
    [sleep], which runs into the timeout. *)
Definition shell (workdir : Path.t) (cmd : string) (fs : FS.t)
  : proc_outcome * FS.t :=
  if String.prefix "sleep" cmd then (TimedOut, fs)
  else (Completed EmptyString 0, fs).

Definition decode_empty_object : decode "{}" = inr (JDict []) := eq_refl.

Definition env (script : list (string + AssistantMessage)) : Env :=
  {| json_loads := decode;
     json_loads_empty_object := decode_empty_object;
     repr := fun _ => "<object>";
     cwd := ["work"];
     os_error := fun l => if Path.is_prefix ["proc"] l
                          then Some "[Errno 13] Permission denied" else None;
     subprocess_run := shell;
     chat_completions_create := scripted script;
     exec_module := load;
     mcp_connect := None;
     mcp_list_tools := inr ["resolve-library-id"; "get-library-docs"];
     mcp_call_tool := fun _ _ _ => inr [Some "numpy.linalg.solve(a, b)"; None];
     format_prompt := fun template _ => template |}.

(** A run directory [/work] holding a solver in [/work/results/t]. *)
Definition workdir : Path.t := Path.of_string "/work".

Definition solver : Path.t := Path.of_string "/work/results/t/solver.py".

Definition files (solver_text : string) : FS.t :=
  <[["work"; "results"; "t"; "solver.py"] := FS.File solver_text]>
    (<[["work"; "results"; "t"] := FS.Dir]>
       (<[["work"; "results"] := FS.Dir]> {[ ["work"] := FS.Dir ]})).

Definition empty_dir : FS.t :=
  <[["work"; "results"; "t"] := FS.Dir]>
    (<[["work"; "results"] := FS.Dir]> {[ ["work"] := FS.Dir ]}).

Definition state (f : FS.t) : State :=
  {| fs := f; exchanges := []; mcp_calls := [];
     coder_solver_path := solver; testgen_solver_path := solver;
     testgen_history := [] |}.

Definition call (id name : string) (arguments : option string) : ToolCall :=
  {| call_id := id; function_name := name; function_arguments := arguments |}.

(** The configuration of a run with every role enabled, three steps. *)
Definition multi : MultiAgent.t :=
  {| MultiAgent.task := "t"; MultiAgent.max_steps := 3;
     MultiAgent.enable_researcher := true; MultiAgent.enable_tester := true |}.

Definition locals : MultiAgent.Locals :=
  {| MultiAgent.workdir := workdir;
     MultiAgent.task_description := "solve linear systems";
     MultiAgent.packages := ["numpy"];
     MultiAgent.python_cmd := "./venv/bin/python";
     MultiAgent.reference_text := EmptyString;
     MultiAgent.validation_text := EmptyString;
     MultiAgent.solver_path := solver |}.

(** A JSON object written out from its members, all of them strings. *)
Definition quote (s : string) : string :=
  String dquote s +:+ String dquote EmptyString.

Definition object (members : list (string * string)) : string :=
  "{" +:+ Py.join ", " (map (fun m => quote (fst m) +:+ ": " +:+ quote (snd m)) members)
      +:+ "}".

(** The tools of that run. *)
Definition writer : WriteFileTool.t := MultiAgent.write_file_tool locals.

Definition coder : CoderTool.t := MultiAgent.coder_tool (E := env []) multi locals.

Definition researcher : ResearcherTool.t :=
  {| ResearcherTool.task_description := "solve linear systems";
     ResearcherTool.max_steps := 2 |}.

Definition tester : TestGenerator.t :=
  {| TestGenerator.workdir := workdir;
     TestGenerator.python_cmd := "./venv/bin/python";
     TestGenerator.reference_text := EmptyString;
     TestGenerator.validation_text := EmptyString;
     TestGenerator.write_file_tool := writer;
     TestGenerator.run_shell_tool := MultiAgent.run_shell_tool (E := env []) locals;
     TestGenerator.max_steps := 10;
     TestGenerator.num_test_problems := 3 |}.

(** A turn of the test generator with two calls, and a turn of the
    coordinator that asks for completion before another call. *)
Definition harness_turn : list ToolCall :=
  [call "call_1" "write_file"
     (Some (object [("path", "harness.py"); ("content", "import solver");
                    ("action", "write the harness")]));
   call "call_2" "format_code" None].

Definition closing_turn : list ToolCall :=
  [call "call_1" "indicate_completion" None;
   call "call_2" "run_shell"
     (Some (object [("cmd", "ls results"); ("action", "list the results")]))].

Definition ready_solver : FS.t := files "def solve(problem): return problem".

End Demo.

(** ** Further notions *)

(** A component as [Path(...)] keeps them: not empty, not [.], and
    without a slash. *)
Definition is_component (c : string) : bool :=
  Path.keep_part c && negb (contains "/" c).

(** Every component of the path is one. *)
Definition clean (p : Path.t) : bool := forallb is_component (Path.parts p).

(** Every character of [s] satisfies [p]. *)
Fixpoint all_chars (p : ascii -> bool) (s : string) : bool :=
  match s with
  | EmptyString => true
  | String c s' => p c && all_chars p s'
  end.

(** A character that keeps a text on one line, with plain spaces as its
    only blanks. *)
Definition plain_char (c : ascii) : bool := negb (is_space c) || Ascii.eqb c " ".

Section FurtherNotions.
Context {E : Env}.

(** The text a [write_file] tool call asks to write, when its arguments
    are a JSON object whose ["content"] is a string. *)
Definition write_file_content (tool_call : ToolCall) : option string :=
  match function_arguments tool_call with
  | Some raw =>
      match json_loads raw with
      | inr (JDict args) =>
          match dict_get "content" args with
          | Some (JStr text) => Some text
          | _ => None
          end
      | _ => None
      end
  | None => None
  end.

(** The completion check has just passed on [target], the coder's solver
    path, and left the world [s']. *)
Definition completion_passed (l : MultiAgent.Locals) (target : Path.t) (s' : State) : Prop :=
  coder_solver_path s' = target
  /\ exists s0 msg, MultiAgent._has_top_level_solve l target s0 = (Ok (true, msg), s').

End FurtherNotions.

(** From [s] to [s'] requests were only added, each of them made by
    [agent] or by [other]. *)
Definition gained (agent other : string) (s s' : State) : Prop :=
  exists new,
    exchanges s' = exchanges s ++ new
    /\ Forall (fun e => ex_agent e = agent \/ ex_agent e = other) new.

(** A request made in the name of the coder or of the test generator, the
    agents whose loops run inside a handler of the coordinator. *)
Definition nested_request (e : Exchange) : Prop :=
  ex_agent e = "coder" \/ ex_agent e = "test_generator".

(** Since the requests were [before], requests were only added, none of
    them nested. *)
Definition quiet_since (before : list Exchange) (x : State) : Prop :=
  exists new,
    exchanges x = before ++ new /\ Forall (fun e => ~ nested_request e) new.

(** [c] only adds requests, and a nested request that fails makes [c]
    raise the fault; [world] reads the world off the state of [c]. *)
Definition raises_nested_faults {S A} (world : S -> State) (c : M S A) : Prop :=
  forall s,
    exists new,
      exchanges (world (c s).2) = exchanges (world s) ++ new
      /\ forall e exc,
           e ∈ new -> nested_request e -> ex_response e = Raise exc -> (c s).1 = Raise exc.

(** The session still advertises the agent's tools and opens with its
    system prompt. *)
Definition session_kept (l : SingleAgent.Locals) (session : Session.t) : Prop :=
  Session.tools session = Some SingleAgent.tools
  /\ exists rest,
       Session.messages session
       = text_message developer (SingleAgent.system_prompt l) :: rest.

(** A request of the single agent: made in its name, with its three tools
    advertised and its system prompt as the first message. *)
Definition single_agent_request (l : SingleAgent.Locals) (e : Exchange) : Prop :=
  ex_agent e = "single_agent"
  /\ ex_tools e = Some SingleAgent.tools
  /\ exists rest,
       ex_messages e = text_message developer (SingleAgent.system_prompt l) :: rest.

(** The messages [ms] are what the single agent appends for the calls
    [tcs], one per call and in their order: a tool message with the id of
    the call, but for [indicate_completion] the user message that says
    that the solver is missing. *)
Definition single_answers (l : SingleAgent.Locals) (tcs : list ToolCall)
  (ms : list Message) : Prop :=
  Forall2 (fun tc m =>
             if String.eqb (function_name tc) "indicate_completion"
             then m = text_message user (SingleAgent.solver_missing l)
             else msg_role m = tool /\ tool_call_id m = Some (call_id tc))
    tcs ms.

Section SingleAgentNotions.
Context {E : Env}.

(** One of the two tools of the single agent raises [e] on the call
    [tool_call], made in the world [s], and leaves the world [s']. *)
Definition single_tool_raises (l : SingleAgent.Locals) (step_num : Z)
  (tool_call : ToolCall) (s : State) (e : exn) (s' : State) : Prop :=
  (function_name tool_call = "write_file"
   /\ WriteFileTool.execute (SingleAgent.write_file_tool l) tool_call step_num s
      = (Raise e, s'))
  \/ (function_name tool_call = "run_shell"
      /\ RunShellTool.execute (SingleAgent.run_shell_tool l) tool_call step_num s
         = (Raise e, s')).

(** Every call to [indicate_completion] among [tcs], dispatched in turn
    from [start], was reached and found no file at the solver path. *)
Definition completion_found_nothing (l : SingleAgent.Locals) (step_num : Z)
  (start : Session.t * State) (tcs : list ToolCall) : Prop :=
  forall n tc,
    tcs !! n = Some tc ->
    function_name tc = "indicate_completion" ->
    exists st,
      for_ (take n tcs) (SingleAgent.call_tool l step_num) start = (Ok None, st)
      /\ FS.exists_ (fs st.2) (location (SingleAgent.solver_path l)) = false.

End SingleAgentNotions.

(** ** More of the concrete environment *)

Module Fixtures.

(** Commands without quotes or escapes are split at blanks. *)
Definition words : Shlex := {| shlex_split := fun s => inr (Py.split s) |}.

Definition single : SingleAgent.t :=
  {| SingleAgent.task := "t"; SingleAgent.max_steps := 2 |}.

Definition single_locals : SingleAgent.Locals :=
  {| SingleAgent.workdir := Demo.workdir;
     SingleAgent.solver_path := Path.joinpath Demo.workdir (Path.of_string "solver.py");
     SingleAgent.system_prompt := "write a solver" |}.

End Fixtures.

(** * Properties *)

(** ** Facts about strings *)

Lemma prefix_nil (s : string) : String.prefix EmptyString s = true.
Proof. by destruct s. Qed.

Lemma append_cons (c : ascii) (p s : string) : String c p +:+ s = String c (p +:+ s).
Proof. reflexivity. Qed.

Lemma append_nil (s : string) : EmptyString +:+ s = s.
Proof. reflexivity. Qed.

Lemma prefix_app (p s : string) : String.prefix p (p +:+ s) = true.
Proof.
  induction p as [|c p IH].
  - apply prefix_nil.
  - rewrite append_cons. cbn. destruct (ascii_dec c c); [exact IH | congruence].
Qed.

Lemma app_assoc_str (a b c : string) : (a +:+ b) +:+ c = a +:+ (b +:+ c).
Proof.
  induction a as [|x a IH]; [done|]. rewrite !append_cons. by rewrite IH.
Qed.


Lemma prefix_app_l (p a b : string) :
  String.prefix p a = true -> String.prefix p (a +:+ b) = true.
Proof.
  revert a. induction p as [|c p IH]; intros a Hp.
  - apply prefix_nil.
  - destruct a as [|x a]; [discriminate|]. rewrite append_cons. cbn in *.
    destruct (ascii_dec c x); [by apply IH | discriminate].
Qed.

Lemma contains_app_l (p a b : string) :
  contains p a = true -> contains p (a +:+ b) = true.
Proof.
  induction a as [|x a IH]; intros Hp.
  - cbn in Hp. rewrite orb_false_r in Hp. destruct p; [|discriminate].
    rewrite append_nil. destruct b; reflexivity.
  - change (String.prefix p (String x a) || contains p a = true) in Hp.
    apply orb_true_iff in Hp as [Hp|Hp].
    + rewrite append_cons.
      change (String.prefix p (String x (a +:+ b)) || contains p (a +:+ b) = true).
      rewrite <- append_cons. by rewrite (prefix_app_l _ _ _ Hp).
    + rewrite append_cons.
      change (String.prefix p (String x (a +:+ b)) || contains p (a +:+ b) = true).
      rewrite (IH Hp). apply orb_true_r.
Qed.

Lemma str_or_nonempty (o : option string) (d : string) :
  nonempty d = true -> nonempty (str_or o d) = true.
Proof. intros Hd. destruct o as [t|]; [|done]. cbn. by destruct (nonempty t) eqn:Ht. Qed.

(** ** Running a computation step by step *)

Section MonadFacts.
Context {S A B : Type}.

Lemma bind_ok (c : M S A) (f : A -> M S B) s a s1 :
  c s = (Ok a, s1) -> (c ≫= f) s = f a s1.
Proof. intros Hc. unfold mbind, M_bind. by rewrite Hc. Qed.

Lemma bind_raise (c : M S A) (f : A -> M S B) s e s1 :
  c s = (Raise e, s1) -> (c ≫= f) s = (Raise e, s1).
Proof. intros Hc. unfold mbind, M_bind. by rewrite Hc. Qed.

Lemma bind_inv_ok (c : M S A) (f : A -> M S B) s b s2 :
  (c ≫= f) s = (Ok b, s2) -> exists a s1, c s = (Ok a, s1) /\ f a s1 = (Ok b, s2).
Proof.
  unfold mbind, M_bind. destruct (c s) as [[a|e] s1]; intros Hf; [eauto | discriminate].
Qed.

End MonadFacts.

(** ** Invariants of computations *)

Section Keeps.
Context {S : Type}.
Implicit Types (I : S -> Prop) (X : exn -> Prop).

Lemma keeps_weaken {A} I (Q Q' : A -> Prop) X X' (c : M S A) :
  keeps I Q X c -> (forall a, Q a -> Q' a) -> (forall e, X e -> X' e) -> keeps I Q' X' c.
Proof.
  intros Hc HQ HX s Hs. destruct (Hc s Hs) as [HI Hr]. split; [done|].
  destruct (c s).1; auto.
Qed.

Lemma keeps_ret {A} I (Q : A -> Prop) X (a : A) : Q a -> keeps I Q X (mret a).
Proof. intros Ha s Hs. by split. Qed.

Lemma keeps_raise {A} I (Q : A -> Prop) X (e : exn) : X e -> keeps I Q X (raise e).
Proof. intros He s Hs. by split. Qed.

Lemma keeps_of_result {A} I (Q : A -> Prop) X (r : result A) :
  match r with Ok a => Q a | Raise e => X e end -> keeps I Q X (of_result r).
Proof. intros Hr s Hs. by split. Qed.

Lemma keeps_bind {A B} I (Q1 : A -> Prop) (Q : B -> Prop) X (c : M S A) (f : A -> M S B) :
  keeps I Q1 X c -> (forall a, Q1 a -> keeps I Q X (f a)) -> keeps I Q X (c ≫= f).
Proof.
  intros Hc Hf s Hs. destruct (Hc s Hs) as [HI Hr].
  unfold mbind, M_bind. destruct (c s) as [[a|e] s1]; cbn [fst snd] in *.
  - by apply Hf.
  - by split.
Qed.

Lemma keeps_for {A R} I X (xs : list A) (body : A -> M S (control R)) :
  (forall x, x ∈ xs -> keeps I (fun _ => True) X (body x)) ->
  keeps I (fun _ => True) X (for_ xs body).
Proof.
  induction xs as [|x xs IH]; intros Hbody; cbn [for_].
  - by apply keeps_ret.
  - eapply keeps_bind; [apply Hbody; by left|].
    intros [|r] _.
    + apply IH. intros y Hy. apply Hbody. by right.
    + by apply keeps_ret.
Qed.

Lemma keeps_try {A} I (Q : A -> Prop) X X1 (c : M S A) classes (h : exn -> M S A) :
  keeps I Q X1 c ->
  (forall e, X1 e -> classes (class_of e) = true -> keeps I Q X (h e)) ->
  (forall e, X1 e -> classes (class_of e) = false -> X e) ->
  keeps I Q X (try_except c classes h).
Proof.
  intros Hc Hh Hpass s Hs. destruct (Hc s Hs) as [HI Hr].
  unfold try_except. destruct (c s) as [[a|e] s1]; cbn [fst snd] in *; [done|].
  destruct (classes (class_of e)) eqn:Hcl.
  - by apply Hh.
  - split; [done|]. by apply Hpass.
Qed.

Lemma keeps_get I X : keeps I (fun _ : S => True) X get.
Proof. intros s Hs. by split. Qed.

Lemma keeps_modify I X (f : S -> S) :
  (forall s, I s -> I (f s)) -> keeps I (fun _ : unit => True) X (modify f).
Proof. intros Hf s Hs. split; [by apply Hf | done]. Qed.

Lemma keeps_and {A} I1 I2 (Q : A -> Prop) X (c : M S A) :
  keeps I1 Q X c -> keeps I2 (fun _ => True) (fun _ => True) c ->
  keeps (fun s => I1 s /\ I2 s) Q X c.
Proof.
  intros H1 H2 s [Hs1 Hs2]. destruct (H1 s Hs1) as [? ?], (H2 s Hs2) as [? _]. by split.
Qed.

End Keeps.

Section KeepsLocal.
Context {L S : Type}.

Lemma keeps_lift {A} (I : L * S -> Prop) (Q : A -> Prop) X (c : M S A) :
  (forall l, keeps (fun s => I (l, s)) Q X c) -> keeps I Q X (lift c).
Proof.
  intros Hc [l s] Hs. unfold lift. cbn [fst snd].
  destruct (Hc l s Hs) as [HI Hr]. by destruct (c s) as [r s1].
Qed.

Lemma keeps_lift_local {A} (P : L -> Prop) (c : M S A) :
  keeps (fun ls : L * S => P ls.1) (fun _ => True) (fun _ => True) (lift c).
Proof.
  intros [l s] Hs. unfold lift. cbn [fst snd] in *.
  destruct (c s) as [[a|e] s1]; by split.
Qed.

Lemma keeps_get_local (I : L * S -> Prop) X : keeps I (fun _ : L => True) X get_local.
Proof. intros s Hs. by split. Qed.

Lemma keeps_modify_local (I : L * S -> Prop) X (f : L -> L) :
  (forall l s, I (l, s) -> I (f l, s)) -> keeps I (fun _ : unit => True) X (modify_local f).
Proof. intros Hf [l s] Hs. split; [by apply Hf | done]. Qed.

Lemma keeps_with_local {A} (I : S -> Prop) (Q : A -> Prop) X (init : L) (c : M (L * S) A) :
  keeps (fun ls => I ls.2) Q X c -> keeps I Q X (with_local init c).
Proof.
  intros Hc s Hs. unfold with_local.
  destruct (Hc (init, s) Hs) as [HI Hr]. by destruct (c (init, s)) as [r [l s1]].
Qed.

Lemma keeps_with_object {A} (I : S -> Prop) (Q : A -> Prop) X
  (read : S -> L) (write : L -> S -> S) (c : M (L * S) A) :
  (forall l s, I s -> I (write l s)) ->
  keeps (fun ls => I ls.2) Q X c -> keeps I Q X (with_object read write c).
Proof.
  intros Hw Hc s Hs. unfold with_object.
  destruct (Hc (read s, s) Hs) as [HI Hr].
  destruct (c (read s, s)) as [r [l s1]]. cbn [fst snd] in *. split; [by apply Hw | done].
Qed.

End KeepsLocal.

(** ** C6: the verdicts of the completion check *)

Section CompletionGate.
Context {E : Env}.
Import MultiAgent.

Lemma has_top_level_solve_absent (l : Locals) (path : Path.t) (s : State) :
  FS.exists_ (fs s) (location path) = false ->
  exists msg,
    _has_top_level_solve l path s = (Ok (false, msg), s)
    /\ String.prefix "Solver not found at " msg = true.
Proof.
  intros Hex. unfold _has_top_level_solve.
  rewrite (bind_ok _ _ s false s) by (unfold Path_exists; by rewrite Hex).
  cbn [negb]. eexists. split; [reflexivity | apply prefix_app].
Qed.



End CompletionGate.

(** ** C1: no completion without the deliverable *)

Section CompletionRequired.
Context {E : Env}.
Import MultiAgent.

Lemma handle_indicate_completion (self : t) (l : Locals) (step_num : Z)
  (tool_call : ToolCall) :
  function_name tool_call = "indicate_completion" ->
  handle self l step_num tool_call = indicate_completion l tool_call.
Proof. intros Hname. unfold handle. by rewrite Hname. Qed.

Lemma indicate_completion_absent (l : Locals) (tool_call : ToolCall)
  (tr : Transcript.t) (s : State) :
  FS.exists_ (fs s) (location (coder_solver_path s)) = false ->
  exists diagnostic,
    String.prefix "Cannot complete: " diagnostic = true
    /\ indicate_completion l tool_call (tr, s) = (Ok (Content diagnostic), (tr, s)).
Proof.
  intros Hex.
  destruct (has_top_level_solve_absent l _ s Hex) as (msg & Hrun & _).
  unfold indicate_completion.
  rewrite (bind_ok _ _ (tr, s) s (tr, s)) by reflexivity.
  rewrite (bind_ok _ _ (tr, s) (false, msg) (tr, s))
    by (unfold lift; cbn [snd fst]; by rewrite Hrun).
  eexists. split; [|reflexivity]. apply prefix_app.
Qed.

(** C1. Whatever the configuration and the transcript so far, when the
    file at the coordinator's current solver path does not exist, the
    handling of an [indicate_completion] call does not end the run: it
    appends a tool message whose text starts with "Cannot complete: ",
    leaves the world as it is, and the loop over the tool calls of the
    turn goes on with the next call. *)
Theorem indicate_completion_needs_deliverable (self : t) (l : Locals) (step_num : Z)
  (tool_call : ToolCall) (tr : Transcript.t) (s : State) :
  function_name tool_call = "indicate_completion" ->
  FS.exists_ (fs s) (location (coder_solver_path s)) = false ->
  exists diagnostic,
    let tr' := Transcript.set_messages
                 (Transcript.messages tr ++ [tool_message (call_id tool_call) diagnostic]) tr in
    String.prefix "Cannot complete: " diagnostic = true
    /\ call_tool self l step_num tool_call (tr, s) = (Ok Continue, (tr', s))
    /\ forall rest,
         for_ (tool_call :: rest) (call_tool self l step_num) (tr, s)
         = for_ rest (call_tool self l step_num) (tr', s).
Proof.
  intros Hname Hex.
  destruct (indicate_completion_absent l tool_call tr s Hex) as (diagnostic & Hpre & Hrun).
  exists diagnostic. cbn zeta.
  assert (Hcall : call_tool self l step_num tool_call (tr, s)
                  = (Ok Continue,
                     (Transcript.set_messages
                        (Transcript.messages tr ++ [tool_message (call_id tool_call) diagnostic])
                        tr, s))).
  { unfold call_tool. rewrite (handle_indicate_completion _ _ _ _ Hname).
    by rewrite (bind_ok _ _ _ _ _ Hrun). }
  split; [exact Hpre|]. split; [exact Hcall|].
  intros rest. cbn [for_]. by rewrite (bind_ok _ _ _ _ _ Hcall).
Qed.

End CompletionRequired.



(** A call of [indicate_completion] in a run directory without solver. *)
Lemma indicate_completion_needs_deliverable_witness :
  exists diagnostic,
    String.prefix "Cannot complete: " diagnostic = true
    /\ MultiAgent.call_tool (E := Demo.env []) Demo.multi Demo.locals 1
         (Demo.call "call_1" "indicate_completion" None)
         (Transcript.start [], Demo.state Demo.empty_dir)
       = (Ok Continue,
          (Transcript.set_messages [tool_message "call_1" diagnostic] (Transcript.start []),
           Demo.state Demo.empty_dir)).
Proof.
  destruct (indicate_completion_needs_deliverable (E := Demo.env []) Demo.multi Demo.locals 1
              (Demo.call "call_1" "indicate_completion" None)
              (Transcript.start []) (Demo.state Demo.empty_dir)
              eq_refl eq_refl) as (diagnostic & Hpre & Hcall & _).
  exists diagnostic. split; [exact Hpre | exact Hcall].
Defined.

(** ** C10: writes stay inside the working directory *)

Section Containment.
Context {E : Env}.

Lemma write_outside (self : WriteFileTool.t) (target : Path.t) (content_arg : json)
  (s : State) :
  inside (WriteFileTool.workdir self) (Path.resolve cwd target) = false ->
  exists msg,
    try_except (WriteFileTool.write self target content_arg) is_Exception
      (fun exc => mret ("Error writing file: " +:+ str_of exc)) s
    = (Ok ("Error writing file: " +:+ msg), s).
Proof.
  unfold inside, try_except, WriteFileTool.write, of_result. intros Hout.
  unfold mbind, M_bind.
  destruct (Path.relative_to _ _) as [rel|exc] eqn:Hrel; [discriminate|].
  assert (Hval : class_of exc = ValueError).
  { unfold Path.relative_to in Hrel. by case_match; simplify_eq. }
  rewrite Hval. cbn. eauto.
Qed.

Lemma write_file_execute_cases (self : WriteFileTool.t) (tool_call : ToolCall)
  (step_num : Z) (s : State) :
  (write_file_target (WriteFileTool.workdir self) tool_call = None
   /\ exists e, WriteFileTool.execute self tool_call step_num s = (Raise e, s))
  \/ (exists msg, WriteFileTool.execute self tool_call step_num s = (Ok msg, s)
        /\ String.prefix "Error" msg = true)
  \/ (exists target, write_file_target (WriteFileTool.workdir self) tool_call = Some target
        /\ inside (WriteFileTool.workdir self) target = true).
Proof.
  unfold WriteFileTool.execute, write_file_target.
  destruct (function_arguments tool_call) as [raw|]; [|left; split; [done | by eexists]].
  destruct (json_loads raw) as [exc|args].
  { right; left. eexists. split; [reflexivity | by apply prefix_app_l]. }
  destruct args as [| | | | |?|args];
    try (right; left; eexists; split; [reflexivity | reflexivity]).
  destruct (given (dict_get "path" args)) eqn:Hpath; cbn [negb];
    [|right; left; eexists; split; [reflexivity | reflexivity]].
  destruct (given (dict_get "content" args)) eqn:Hcontent; cbn [negb];
    [|right; left; eexists; split; [reflexivity | reflexivity]].
  destruct (given (dict_get "action" args)) eqn:Haction; cbn [negb];
    [|right; left; eexists; split; [reflexivity | reflexivity]].
  destruct (dict_get "path" args) as [[| | | |path| |]|];
    try (left; split; [done | by eexists]).
  destruct (dict_get "content" args) as [content_arg|]; [|discriminate].
  set (target := if Path.is_absolute (Path.of_string path) then _ else _).
  destruct (inside (WriteFileTool.workdir self) (Path.resolve cwd target)) eqn:Hin.
  - right; right. eauto.
  - right; left. destruct (write_outside self target content_arg s Hin) as [msg ->].
    eexists. split; [reflexivity | by apply prefix_app_l].
Qed.

Lemma handle_write_file_cases (shell : ShellInterface.t) (arg : string)
  (content : option string) (s : State) :
  (exists msg, ShellInterface._handle_write_file shell arg content s = (Ok (msg, 1), s))
  \/ inside (ShellInterface.workdir shell)
       (shell_write_target (ShellInterface.workdir shell) arg) = true.
Proof.
  unfold ShellInterface._handle_write_file, shell_write_target, inside.
  destruct (nonempty arg); cbn [negb]; [|left; by eexists].
  destruct content as [text|]; [|left; by eexists].
  destruct (Path.relative_to _ _); [by right | left; by eexists].
Qed.

(** C10. A [write_file] tool call whose resolved target lies outside the
    working directory changes nothing in the world - no file written, no
    directory created - and is answered with an error text; whenever
    [WriteFileTool.execute] does change the file system, the call's
    resolved target lies inside the working directory.  The [write_file]
    command of [ShellInterface] is contained in the same way. *)
Theorem write_file_contained :
  (forall (self : WriteFileTool.t) (tool_call : ToolCall) (step_num : Z) (s : State),
     let out := WriteFileTool.execute self tool_call step_num s in
     (forall target,
        write_file_target (WriteFileTool.workdir self) tool_call = Some target ->
        inside (WriteFileTool.workdir self) target = false ->
        out.2 = s /\ exists msg, out.1 = Ok msg /\ String.prefix "Error" msg = true)
     /\ (fs out.2 <> fs s ->
         exists target,
           write_file_target (WriteFileTool.workdir self) tool_call = Some target
           /\ inside (WriteFileTool.workdir self) target = true))
  /\ (forall (shell : ShellInterface.t) (arg : string) (content : option string) (s : State),
        let out := ShellInterface._handle_write_file shell arg content s in
        let target := shell_write_target (ShellInterface.workdir shell) arg in
        (inside (ShellInterface.workdir shell) target = false ->
         out.2 = s /\ exists msg, out.1 = Ok (msg, 1))
        /\ (fs out.2 <> fs s -> inside (ShellInterface.workdir shell) target = true)).
Proof.
  split.
  - intros self tool_call step_num s. cbn zeta.
    destruct (write_file_execute_cases self tool_call step_num s)
      as [(Hnone & e & Hrun)|[(msg & Hrun & Hmsg)|(target & Htarget & Hin)]].
    + rewrite Hrun. split; [congruence | by intros []].
    + rewrite Hrun. split; [eauto | by intros []].
    + split; [|eauto]. intros target' Htarget' Hout. congruence.
  - intros shell arg content s. cbn zeta.
    destruct (handle_write_file_cases shell arg content s) as [[msg Hrun]|Hin].
    + rewrite Hrun. split; [eauto | by intros []].
    + split; [congruence | done].
Qed.

End Containment.

(** A write aimed above the run directory, and one aimed inside it. *)
Lemma write_file_contained_witness :
  let tool := Demo.writer in
  let escaping := Demo.call "call_1" "write_file"
      (Some (Demo.object [("path", "../etc/passwd"); ("content", "x"); ("action", "probe")])) in
  let harness := Demo.call "call_2" "write_file"
      (Some (Demo.object [("path", "harness.py"); ("content", "x"); ("action", "tests")])) in
  let s := Demo.state Demo.empty_dir in
  ((WriteFileTool.execute (E := Demo.env []) tool escaping 1 s).2 = s
   /\ exists msg, (WriteFileTool.execute (E := Demo.env []) tool escaping 1 s).1 = Ok msg
        /\ String.prefix "Error" msg = true)
  /\ (exists target,
        write_file_target (E := Demo.env []) Demo.workdir harness = Some target
        /\ inside Demo.workdir target = true).
Proof.
  cbn zeta. split.
  - destruct (proj1 (write_file_contained (E := Demo.env []))
                Demo.writer
                (Demo.call "call_1" "write_file"
                   (Some (Demo.object [("path", "../etc/passwd"); ("content", "x");
                                        ("action", "probe")])))
                1 (Demo.state Demo.empty_dir)) as [Houtside _].
    apply (Houtside (Path.of_string "/etc/passwd")); vm_compute; reflexivity.
  - destruct (proj1 (write_file_contained (E := Demo.env []))
                Demo.writer
                (Demo.call "call_2" "write_file"
                   (Some (Demo.object [("path", "harness.py"); ("content", "x");
                                        ("action", "tests")])))
                1 (Demo.state Demo.empty_dir)) as [_ Hchanged].
    apply Hchanged. intros Heq.
    apply (f_equal (fun m : FS.t => (m !! ["work"; "harness.py"] : option FS.node))) in Heq.
    vm_compute in Heq. discriminate.
Defined.

(** ** C5 and C9: argument text that is valid JSON but no object *)

Section MalformedArguments.
Context {E : Env}.

Lemma as_dict_fails (v : json) :
  (forall d, v <> JDict d) -> as_dict v = Raise no_get.
Proof. intros Hv. destruct v; try reflexivity. by destruct (Hv d). Qed.

(** Text that does not decode at all is reported by [call_coder] as the
    claim says. *)
Lemma coder_invalid_json (self : CoderTool.t) (tool_call : ToolCall) (step_num : Z)
  (task_name task_description : string) (s : State) (raw exc : string) :
  function_arguments tool_call = Some raw ->
  nonempty raw = true ->
  json_loads raw = inl exc ->
  exists msg,
    CoderTool.execute self tool_call step_num task_name task_description s = (Ok msg, s)
    /\ contains "Invalid JSON" msg = true.
Proof.
  intros Hargs Hraw Hload. unfold CoderTool.execute. rewrite Hargs.
  assert (Hor : str_or (Some raw) "{}" = raw) by (unfold str_or; by rewrite Hraw).
  rewrite Hor, Hload. eexists. split; [reflexivity|]. by apply contains_app_l.
Qed.

(** C5, as the code behaves.  Argument text that decodes to a JSON value
    other than an object makes [CoderTool.execute] and
    [TestGenerator.execute] raise [AttributeError], and likewise
    [ResearcherTool.execute] when the value is truthy; absent argument
    text makes [WriteFileTool.execute] and [RunShellTool.execute] raise
    [TypeError].  None of the five returns a diagnostic there. *)
Theorem malformed_arguments_raise (tool_call : ToolCall) (step_num : Z) (s : State) :
  (forall raw v,
     function_arguments tool_call = Some raw ->
     nonempty raw = true ->
     json_loads raw = inr v ->
     (forall d, v <> JDict d) ->
     (forall self task_name task_description,
        CoderTool.execute self tool_call step_num task_name task_description s
        = (Raise no_get, s))
     /\ (forall self task_name task_description,
           TestGenerator.execute self tool_call step_num task_name task_description s
           = (Raise no_get, s))
     /\ (truthy v = true ->
         forall self, ResearcherTool.execute self tool_call step_num s = (Raise no_get, s)))
  /\ (function_arguments tool_call = None ->
      (forall self, WriteFileTool.execute self tool_call step_num s = (Raise json_loads_None, s))
      /\ (forall self, RunShellTool.execute self tool_call step_num s = (Raise json_loads_None, s))).
Proof.
  split.
  - intros raw v Hargs Hraw Hload Hv.
    assert (Hor : str_or (Some raw) "{}" = raw) by (unfold str_or; by rewrite Hraw).
    split; [|split].
    + intros. unfold CoderTool.execute. rewrite Hargs, Hor, Hload.
      apply bind_raise. unfold of_result. by rewrite (as_dict_fails v Hv).
    + intros. unfold TestGenerator.execute. rewrite Hargs, Hor, Hload.
      apply bind_raise. unfold of_result. by rewrite (as_dict_fails v Hv).
    + intros Htruthy self. unfold ResearcherTool.execute, ResearcherTool._safe_json_load.
      rewrite Hargs.
      assert (Hor' : str_or (Some raw) EmptyString = raw) by (unfold str_or; by rewrite Hraw).
      rewrite Hor', Hor, Hload, Htruthy. cbn [negb].
      apply bind_raise. unfold of_result. by rewrite (as_dict_fails v Hv).
  - intros Hargs. split; intros self.
    + unfold WriteFileTool.execute. by rewrite Hargs.
    + unfold RunShellTool.execute. by rewrite Hargs.
Qed.

(** C9, as the code behaves.  [ResearcherTool.execute] raises
    [AttributeError] instead of returning a text when the argument text
    decodes to a truthy JSON value that is no object. *)
Theorem researcher_execute_raises (self : ResearcherTool.t) (tool_call : ToolCall)
  (step_num : Z) (s : State) (raw : string) (v : json) :
  function_arguments tool_call = Some raw ->
  nonempty raw = true ->
  json_loads raw = inr v ->
  (forall d, v <> JDict d) ->
  truthy v = true ->
  ResearcherTool.execute self tool_call step_num s = (Raise no_get, s)
  /\ ~ exists text, (ResearcherTool.execute self tool_call step_num s).1 = Ok text.
Proof.
  intros Hargs Hraw Hload Hv Htruthy.
  assert (Hrun : ResearcherTool.execute self tool_call step_num s = (Raise no_get, s)).
  { unfold ResearcherTool.execute, ResearcherTool._safe_json_load. rewrite Hargs.
    assert (Hor : str_or (Some raw) "{}" = raw) by (unfold str_or; by rewrite Hraw).
    assert (Hor' : str_or (Some raw) EmptyString = raw) by (unfold str_or; by rewrite Hraw).
    rewrite Hor', Hor, Hload, Htruthy. cbn [negb].
    apply bind_raise. unfold of_result. by rewrite (as_dict_fails v Hv). }
  split; [exact Hrun|]. rewrite Hrun. by intros [text Htext].
Qed.

End MalformedArguments.

(** A coder call and a file write with the argument texts in question. *)
Lemma malformed_arguments_raise_witness :
  let s := Demo.state Demo.empty_dir in
  CoderTool.execute (E := Demo.env []) Demo.coder
    (Demo.call "call_1" "call_coder" (Some "[1]")) 1 "t" "d" s = (Raise no_get, s)
  /\ WriteFileTool.execute (E := Demo.env []) Demo.writer
       (Demo.call "call_2" "write_file" None) 1 s = (Raise json_loads_None, s).
Proof.
  cbn zeta. split.
  - destruct (malformed_arguments_raise (E := Demo.env [])
                (Demo.call "call_1" "call_coder" (Some "[1]")) 1
                (Demo.state Demo.empty_dir)) as [Hvalue _].
    destruct (Hvalue "[1]" (JList [JInt 1]) eq_refl eq_refl eq_refl
                ltac:(discriminate)) as (Hcoder & _).
    apply Hcoder.
  - destruct (malformed_arguments_raise (E := Demo.env [])
                (Demo.call "call_2" "write_file" None) 1
                (Demo.state Demo.empty_dir)) as [_ Hnone].
    destruct (Hnone eq_refl) as [Hwrite _]. apply Hwrite.
Defined.

(** A researcher call whose argument text is a JSON array. *)
Lemma researcher_execute_raises_witness :
  let s := Demo.state Demo.empty_dir in
  ResearcherTool.execute (E := Demo.env []) Demo.researcher
    (Demo.call "call_1" "call_researcher" (Some "[1]")) 1 s = (Raise no_get, s).
Proof.
  cbn zeta.
  apply (researcher_execute_raises (E := Demo.env []) Demo.researcher
           (Demo.call "call_1" "call_researcher" (Some "[1]")) 1
           (Demo.state Demo.empty_dir) "[1]" (JList [JInt 1]));
    [reflexivity | reflexivity | reflexivity | discriminate | reflexivity].
Defined.

(** ** The dispatch of tool calls *)

Ltac unfold_monad :=
  unfold mbind, M_bind, mret, M_ret, lift, append, Transcript.append, Transcript.rebind,
    modify_local, get_local, of_result, raise, get, modify in *;
  cbn [fst snd] in *.

Section ToolChatDispatch.
Context {E : Env}.
Import ToolChatAgent.

Lemma call_tool_registered (self : t) (step_num : Z) (tc : ToolCall) (handler : Handler)
  (msgs : list Message) (s : State) :
  tool_handlers self !! function_name tc = Some handler ->
  call_tool self step_num tc (msgs, s) =
    match handler tc step_num s with
    | (Ok text, s1) => (Ok Continue, (msgs ++ [tool_message (call_id tc) text], s1))
    | (Raise e, s1) => (Raise e, (msgs, s1))
    end.
Proof.
  intros Hh. unfold call_tool. rewrite Hh. unfold_monad.
  by destruct (handler tc step_num s) as [[text|e] s1].
Qed.

Lemma call_tool_unknown (self : t) (step_num : Z) (tc : ToolCall)
  (msgs : list Message) (s : State) :
  tool_handlers self !! function_name tc = None ->
  call_tool self step_num tc (msgs, s) =
    (Ok Continue,
     (msgs ++ [tool_message (call_id tc) ("Unknown tool: " +:+ function_name tc)], s)).
Proof. intros Hh. unfold call_tool. by rewrite Hh. Qed.

Lemma call_tool_appends (self : t) (step_num : Z) (tc : ToolCall)
  (msgs : list Message) (s : State) c msgs' s' :
  call_tool self step_num tc (msgs, s) = (Ok c, (msgs', s')) ->
  c = Continue /\ exists text, msgs' = msgs ++ [tool_message (call_id tc) text].
Proof.
  destruct (tool_handlers self !! function_name tc) as [handler|] eqn:Hh.
  - rewrite (call_tool_registered _ _ _ _ _ _ Hh).
    destruct (handler tc step_num s) as [[text|e] s1]; intros [= <- <- <-]. eauto.
  - rewrite (call_tool_unknown _ _ _ _ _ Hh). intros [= <- <- <-]. eauto.
Qed.

Lemma calls_answered (self : t) (step_num : Z) (tcs : list ToolCall) :
  forall msgs s r msgs' s',
    for_ tcs (call_tool self step_num) (msgs, s) = (Ok r, (msgs', s')) ->
    r = None /\ exists replies, msgs' = msgs ++ replies /\ answers tcs replies.
Proof.
  induction tcs as [|tc tcs IH]; intros msgs s r msgs' s'.
  - intros [= <- <- <-]. split; [done|]. exists []. rewrite app_nil_r. split; [done | constructor].
  - cbn [for_]. intros Hrun.
    apply bind_inv_ok in Hrun as (c & [msgs1 s1] & Hcall & Hrest).
    apply call_tool_appends in Hcall as (-> & text & ->).
    apply IH in Hrest as (-> & replies & -> & Hans).
    split; [done|]. exists (tool_message (call_id tc) text :: replies).
    rewrite <- app_assoc. split; [done|]. by constructor.
Qed.

End ToolChatDispatch.

Section CoordinatorDispatch.
Context {E : Env}.
Import MultiAgent.

Lemma lifted_content (c : M State string) (tr : Transcript.t) (s : State) h tr1 s1 :
  (content ← lift c; mret (Content content)) (tr, s) = (Ok h, (tr1, s1)) ->
  (exists content, h = Content content) /\ tr1 = tr.
Proof.
  unfold_monad. destruct (c s) as [[text|e] s2]; intros [= <- <- <-]. eauto.
Qed.

Lemma indicate_completion_inv (l : Locals) (tc : ToolCall) (tr : Transcript.t) (s : State)
  h tr1 s1 :
  indicate_completion l tc (tr, s) = (Ok h, (tr1, s1)) ->
  ((exists content, h = Content content) /\ tr1 = tr)
  \/ (exists target text,
        h = Return target
        /\ tr1 = Transcript.set_messages
                   (Transcript.messages tr ++ [tool_message (call_id tc) text]) tr).
Proof.
  unfold indicate_completion. unfold_monad.
  destruct (_has_top_level_solve l (coder_solver_path s) s) as [[[[|] err_msg]|e] s2];
    intros [= <- <- <-]; eauto.
Qed.

Lemma handle_inv (self : t) (l : Locals) (step_num : Z) (tc : ToolCall)
  (tr : Transcript.t) (s : State) h tr1 s1 :
  handle self l step_num tc (tr, s) = (Ok h, (tr1, s1)) ->
  ((exists content, h = Content content) /\ tr1 = tr)
  \/ (function_name tc = "indicate_completion"
      /\ exists target text,
           h = Return target
           /\ tr1 = Transcript.set_messages
                      (Transcript.messages tr ++ [tool_message (call_id tc) text]) tr).
Proof.
  unfold handle.
  repeat (match goal with
          | |- context [String.eqb ?a ?b] => destruct (String.eqb_spec a b)
          end);
    try (intros Hrun; left; by apply lifted_content in Hrun).
  - destruct (enable_researcher self), (researcher_tool self l);
      try (intros Hrun; left; by apply lifted_content in Hrun);
      intros [= <- <- <-]; left; eauto.
  - destruct (enable_tester self), (test_generator self l);
      try (intros Hrun; left; by apply lifted_content in Hrun);
      intros [= <- <- <-]; left; eauto.
  - intros Hrun. apply indicate_completion_inv in Hrun as [?|?]; [by left | by right].
  - intros [= <- <- <-]. left; eauto.
Qed.

Lemma coordinator_call_tool_inv (self : t) (l : Locals) (step_num : Z) (tc : ToolCall)
  (tr : Transcript.t) (s : State) c tr1 s1 :
  call_tool self l step_num tc (tr, s) = (Ok c, (tr1, s1)) ->
  (exists text,
     Transcript.messages tr1 = Transcript.messages tr ++ [tool_message (call_id tc) text])
  /\ (c = Continue \/ function_name tc = "indicate_completion").
Proof.
  unfold call_tool. intros Hrun.
  apply bind_inv_ok in Hrun as (h & [tr2 s2] & Hh & Hrest).
  apply handle_inv in Hh as [[[content ->] ->]|(Hname & target & text & -> & ->)].
  - revert Hrest. unfold_monad. intros [= <- <- <-]. cbn. eauto.
  - revert Hrest. unfold_monad. intros [= <- <- <-]. cbn. eauto.
Qed.

Lemma coordinator_calls_answered (self : t) (l : Locals) (step_num : Z)
  (tcs : list ToolCall) :
  forall tr s r tr' s',
    for_ tcs (call_tool self l step_num) (tr, s) = (Ok r, (tr', s')) ->
    exists replies,
      Transcript.messages tr' = Transcript.messages tr ++ replies
      /\ match r with
         | None => answers tcs replies
         | Some _ =>
             exists k tc,
               tcs !! k = Some tc
               /\ function_name tc = "indicate_completion"
               /\ answers (take (S k) tcs) replies
         end.
Proof.
  induction tcs as [|tc tcs IH]; intros tr s r tr' s'.
  - intros [= <- <- <-]. exists []. rewrite app_nil_r. split; [done | constructor].
  - cbn [for_]. intros Hrun.
    apply bind_inv_ok in Hrun as (c & [tr1 s1] & Hcall & Hrest).
    pose proof (coordinator_call_tool_inv _ _ _ _ _ _ _ _ _ Hcall) as ([text Hmsgs] & Hc).
    destruct c as [|target].
    + apply IH in Hrest as (replies & Hmsgs' & Hr).
      exists (tool_message (call_id tc) text :: replies).
      rewrite Hmsgs', Hmsgs, <- app_assoc. split; [done|].
      destruct r as [target|].
      * destruct Hr as (k & tc' & Hk & Hname & Hans).
        exists (S k), tc'. split; [done|]. split; [done|].
        change (take (S (S k)) (tc :: tcs)) with (tc :: take (S k) tcs). by constructor.
      * by constructor.
    + destruct Hc as [|Hname]; [done|].
      revert Hrest. unfold_monad. intros [= <- <- <-].
      exists [tool_message (call_id tc) text]. split; [done|].
      exists 0%nat, tc. split; [done|]. split; [done|].
      cbn. rewrite take_0. constructor; [done | constructor].
Qed.

End CoordinatorDispatch.

(** What the conversions of decoded values raise is caught by
    [except Exception]. *)
Lemma as_dict_result (v : json) :
  match as_dict v with Ok _ => True | Raise e => caught e end.
Proof. by destruct v. Qed.

Lemma method_strip_result (v : json) :
  match method_strip v with Ok _ => True | Raise e => caught e end.
Proof. by destruct v. Qed.

Lemma str_join_result (sep : string) (v : json) :
  match str_join sep v with Ok _ => True | Raise e => caught e end.
Proof. destruct v; try done. cbn. by destruct (forallb _ _). Qed.

Lemma of_json_result (v : json) :
  match Path.of_json v with Ok _ => True | Raise e => caught e end.
Proof. by destruct v. Qed.

(** One step of a proof that a computation keeps an invariant. *)
Ltac keeps_step :=
  lazymatch goal with
  | |- keeps _ ?post _ (mret _) =>
      tryif is_evar post then apply keeps_ret with (Q := fun _ => True); exact Logic.I
      else (apply keeps_ret; try done)
  | |- keeps _ _ _ (raise _) => apply keeps_raise; try done
  | |- keeps _ _ _ (_ ≫= _) => eapply keeps_bind; [|intros ? ?]
  | |- keeps _ _ _ (match ?x with _ => _ end) => destruct x eqn:?
  end.

(** ** What the tools keep invariant

    The lemmas of this section are stated once for an invariant [Inv] of the
    world and used below for several: the requests an agent has made, the
    node at a location of the file system, and the class of the exceptions
    that escape.  The invariant is told which agents may add exchanges
    ([allowed]), how the file system may change ([fs_rel]), at which
    locations directories and files may be created ([safe]) and which tool
    calls the endpoint issues ([call_ok]). *)

Section ToolInvariants.
Context {E : Env}.
Variable Inv : State -> Prop.
Variable allowed : string -> Prop.
Variable fs_rel : FS.t -> FS.t -> Prop.
Variable safe : list string -> Prop.
Variable call_ok : ToolCall -> Prop.

Hypothesis I_fs : forall s f, Inv s -> fs_rel (fs s) f -> Inv (set_fs f s).
Hypothesis I_exchange : forall s e, Inv s -> allowed (ex_agent e) -> Inv (add_exchange e s).
Hypothesis I_mcp : forall s c, Inv s -> Inv (add_mcp_call c s).
Hypothesis I_coder_path : forall s p, Inv s -> Inv (set_coder_solver_path p s).
Hypothesis I_testgen_path : forall s p, Inv s -> Inv (set_testgen_solver_path p s).
Hypothesis I_testgen_history : forall s h, Inv s -> Inv (set_testgen_history h s).
Hypothesis shell_rel : forall wd cmd f, fs_rel f (subprocess_run wd cmd f).2.
Hypothesis mkdir_rel :
  forall f l f', safe l -> FSOps.mkdir os_error f l = Ok f' -> fs_rel f f'.
Hypothesis write_rel :
  forall f l text f', safe l -> FSOps.write_text os_error f l text = Ok f' -> fs_rel f f'.
Hypothesis endpoint_ok :
  forall earlier agent messages tools reply,
    chat_completions_create earlier agent messages tools = inr reply ->
    Forall call_ok (calls_of reply).

Lemma mkdir_raises_OSError f l e : FSOps.mkdir os_error f l = Raise e -> caught e.
Proof.
  unfold FSOps.mkdir. repeat case_match; intros [= <-]; reflexivity.
Qed.

Lemma write_text_raises_OSError f l text e :
  FSOps.write_text os_error f l text = Raise e -> caught e.
Proof.
  unfold FSOps.write_text. repeat case_match; intros [= <-]; reflexivity.
Qed.

Lemma keeps_Path_exists X (p : Path.t) : keeps Inv (fun _ => True) X (Path_exists p).
Proof. intros s Hs. by split. Qed.

Lemma keeps_Path_mkdir (p : Path.t) :
  safe (location p) -> keeps Inv (fun _ => True) caught (Path_mkdir p).
Proof.
  intros Hsafe s Hs. unfold Path_mkdir.
  destruct (FSOps.mkdir os_error (fs s) (location p)) as [f|e] eqn:Hmk; cbn [fst snd].
  - split; [|done]. apply I_fs; [done|]. by eapply mkdir_rel.
  - split; [done|]. by eapply mkdir_raises_OSError.
Qed.

Lemma keeps_Path_write_text (p : Path.t) (text : string) :
  safe (location p) -> keeps Inv (fun _ => True) caught (Path_write_text p text).
Proof.
  intros Hsafe s Hs. unfold Path_write_text.
  destruct (FSOps.write_text os_error (fs s) (location p) text) as [f|e] eqn:Hw; cbn [fst snd].
  - split; [|done]. apply I_fs; [done|]. by eapply write_rel.
  - split; [done|]. by eapply write_text_raises_OSError.
Qed.

Lemma keeps_chat (agent : string) (messages : list Message) (tools : option (list string)) :
  allowed agent ->
  keeps Inv (fun reply => Forall call_ok (calls_of reply)) caught (chat agent messages tools).
Proof.
  intros Hagent s Hs. unfold chat. cbn [fst snd]. split.
  - by apply I_exchange.
  - destruct (chat_completions_create _ _ _ _) as [msg|reply] eqn:Hreply; [done|].
    by eapply endpoint_ok.
Qed.

Lemma keeps_run_command X (shell : ShellInterface.t) (cmd : string) :
  keeps Inv (fun _ => True) X (ShellInterface.run_command shell cmd).
Proof.
  intros s Hs. unfold ShellInterface.run_command.
  destruct (negb _); [by split|].
  pose proof (shell_rel (ShellInterface.workdir shell) cmd (fs s)) as Hrel.
  destruct (subprocess_run _ _ _) as [[out rc| |msg] f]; cbn [fst snd] in *;
    (split; [by apply I_fs | done]).
Qed.

Lemma keeps_call_mcp (tool : string) (tool_args : json) :
  keeps Inv (fun _ => True) caught (ResearcherTool.call_mcp tool tool_args).
Proof.
  intros s Hs. unfold ResearcherTool.call_mcp. cbn [fst snd]. split; [by apply I_mcp|].
  by destruct (mcp_call_tool _ _ _).
Qed.

Lemma relative_to_result (p base : Path.t) :
  match Path.relative_to p base with
  | Ok _ => True
  | Raise e => caught e
  end.
Proof. unfold Path.relative_to. by destruct (_ && _). Qed.

Lemma keeps_write (self : WriteFileTool.t) (target : Path.t) (content_arg : json) :
  safe (location (Path.resolve cwd target)) ->
  safe (location (Path.parent (Path.resolve cwd target))) ->
  keeps Inv (fun _ => True) caught (WriteFileTool.write self target content_arg).
Proof.
  intros Htarget Hparent. unfold WriteFileTool.write.
  keeps_step; [apply keeps_of_result, relative_to_result|].
  keeps_step; [by apply keeps_Path_mkdir|].
  destruct content_arg; try (by keeps_step).
  keeps_step; [by apply keeps_Path_write_text|].
  keeps_step; [apply keeps_of_result, relative_to_result|]. keeps_step.
Qed.

Lemma keeps_write_file (self : WriteFileTool.t) (tc : ToolCall) (step_num : Z) :
  may_write safe (WriteFileTool.workdir self) tc ->
  keeps Inv (fun _ => True) caught (WriteFileTool.execute self tc step_num).
Proof.
  unfold may_write, write_file_target, WriteFileTool.execute.
  destruct (function_arguments tc) as [raw|]; [|intros _; by keeps_step].
  destruct (json_loads raw) as [exc|[| | | | |?|args]]; try (intros _; by keeps_step).
  intros Hsafe.
  destruct (negb (given (dict_get "path" args))); [by keeps_step|].
  destruct (negb (given (dict_get "content" args))); [by keeps_step|].
  destruct (negb (given (dict_get "action" args))); [by keeps_step|].
  destruct (dict_get "path" args) as [[| | | |path| |]|]; try by keeps_step.
  destruct (dict_get "content" args) as [content_arg|]; [|by keeps_step].
  destruct (Hsafe _ eq_refl) as [Htarget Hparent].
  eapply keeps_try with (X1 := caught).
  - by apply keeps_write.
  - intros e _ _. by keeps_step.
  - intros e He Hno. unfold caught in He. congruence.
Qed.

Lemma keeps_run_shell (self : RunShellTool.t) (tc : ToolCall) (step_num : Z) :
  keeps Inv (fun _ => True) caught (RunShellTool.execute self tc step_num).
Proof.
  unfold RunShellTool.execute.
  destruct (function_arguments tc) as [raw|]; [|by keeps_step].
  destruct (json_loads raw) as [exc|[| | | | |?|args]]; try by keeps_step.
  destruct (negb (given (dict_get "cmd" args))); [by keeps_step|].
  destruct (negb (given (dict_get "action" args))); [by keeps_step|].
  destruct (dict_get "cmd" args) as [[| | | |cmd| |]|]; try by keeps_step.
  keeps_step; [apply keeps_run_command|].
  destruct a as [output return_code]. by keeps_step.
Qed.

(** *** The bounded tool loop *)

Lemma keeps_append {S'} (J : list Message * S' -> Prop) X (m : Message) :
  (forall ms s, J (ms, s) -> J (ms ++ [m], s)) ->
  keeps J (fun _ => True) X (append m).
Proof. intros HJ. unfold append. by apply keeps_modify_local. Qed.

Lemma keeps_lift_world {L A} (Q : A -> Prop) X (c : M State A) :
  keeps Inv Q X c -> keeps (fun ls : L * State => Inv ls.2) Q X (lift c).
Proof. intros Hc. apply keeps_lift. intros l. exact Hc. Qed.

Lemma keeps_tool_chat_call_tool (self : ToolChatAgent.t) (step_num : Z) (tc : ToolCall) :
  (forall handler,
     ToolChatAgent.tool_handlers self !! function_name tc = Some handler ->
     keeps Inv (fun _ => True) caught (handler tc step_num)) ->
  keeps (fun ls => Inv ls.2) (fun _ => True) caught (ToolChatAgent.call_tool self step_num tc).
Proof.
  intros Hh. unfold ToolChatAgent.call_tool.
  keeps_step.
  - destruct (ToolChatAgent.tool_handlers self !! function_name tc) as [handler|].
    + apply keeps_lift_world. by apply Hh.
    + by keeps_step.
  - keeps_step; [by apply keeps_append|]. by keeps_step.
Qed.

Lemma keeps_tool_chat_step (self : ToolChatAgent.t) (step_num inner_step : Z) :
  allowed (ToolChatAgent.name self) ->
  (forall tc handler,
     call_ok tc ->
     ToolChatAgent.tool_handlers self !! function_name tc = Some handler ->
     keeps Inv (fun _ => True) caught (handler tc step_num)) ->
  keeps (fun ls => Inv ls.2) (fun _ => True) caught
    (ToolChatAgent.step self step_num inner_step).
Proof.
  intros Hname Hh. unfold ToolChatAgent.step.
  keeps_step; [apply keeps_get_local|].
  keeps_step; [apply keeps_lift_world; by apply keeps_chat|].
  destruct (has_tool_calls _).
  - keeps_step; [by apply keeps_append|].
    keeps_step; [|by keeps_step].
    apply keeps_for. intros tc Htc. apply keeps_tool_chat_call_tool.
    intros handler. apply Hh. cbn beta in *.
    match goal with Hcalls : Forall call_ok _ |- _ =>
      rewrite Forall_forall in Hcalls; by apply Hcalls end.
  - keeps_step; [by apply keeps_append|]. by keeps_step.
Qed.

Lemma keeps_tool_chat_run_on (self : ToolChatAgent.t) (system_prompt : string)
  (step_num : Z) :
  allowed (ToolChatAgent.name self) ->
  (forall tc handler,
     call_ok tc ->
     ToolChatAgent.tool_handlers self !! function_name tc = Some handler ->
     keeps Inv (fun _ => True) caught (handler tc step_num)) ->
  keeps (fun ls => Inv ls.2) (fun _ => True) caught
    (ToolChatAgent.run_on self system_prompt step_num).
Proof.
  intros Hname Hh. unfold ToolChatAgent.run_on.
  keeps_step; [by apply keeps_append|].
  keeps_step; [|by keeps_step].
  apply keeps_for. intros inner_step _. by apply keeps_tool_chat_step.
Qed.

(** *** The researcher *)

Lemma keeps_researcher_call_tool (tc : ToolCall) :
  keeps (fun ls => Inv ls.2) (fun _ => True) caught (ResearcherTool.call_tool tc).
Proof.
  unfold ResearcherTool.call_tool.
  keeps_step.
  - eapply keeps_try with (X1 := caught).
    + keeps_step; [apply keeps_lift_world, keeps_call_mcp|]. by keeps_step.
    + intros e _ _. by keeps_step.
    + intros e He Hno. unfold caught in He. congruence.
  - keeps_step; [by apply keeps_append|]. by keeps_step.
Qed.

Lemma keeps_researcher_step (openai_tools : list string) (inner_step : Z) :
  allowed "researcher" ->
  keeps (fun ls => Inv ls.2) (fun _ => True) caught
    (ResearcherTool.step openai_tools inner_step).
Proof.
  intros Hname. unfold ResearcherTool.step.
  keeps_step; [apply keeps_get_local|].
  keeps_step; [apply keeps_lift_world; by apply keeps_chat|].
  destruct (negb (has_tool_calls _)).
  - keeps_step; [by apply keeps_append|]. by keeps_step.
  - keeps_step; [by apply keeps_append|].
    keeps_step; [|by keeps_step].
    apply keeps_for. intros tc _. apply keeps_researcher_call_tool.
Qed.

Lemma keeps_researcher_finish (final_text : string) :
  allowed "researcher" ->
  keeps (fun ls => Inv ls.2) (fun text => nonempty text = true) caught
    (ResearcherTool.finish final_text).
Proof.
  intros Hname. unfold ResearcherTool.finish.
  keeps_step.
  - destruct (negb (nonempty final_text)).
    + keeps_step; [by apply keeps_append|].
      keeps_step; [apply keeps_get_local|].
      keeps_step; [apply keeps_lift_world; by apply keeps_chat|].
      apply keeps_ret with (Q := fun _ => True). done.
    + by apply keeps_ret.
  - apply keeps_ret. by apply str_or_nonempty.
Qed.

Lemma keeps_run_researcher (self : ResearcherTool.t) (prompt : string) (step_num : Z) :
  allowed "researcher" ->
  keeps Inv (fun text => nonempty text = true) caught
    (ResearcherTool._run_researcher self prompt step_num).
Proof.
  intros Hname. unfold ResearcherTool._run_researcher.
  apply keeps_with_local.
  destruct mcp_connect as [msg|]; [by keeps_step|].
  destruct mcp_list_tools as [exc|openai_tools]; [by keeps_step|].
  keeps_step.
  - apply keeps_for. intros inner_step _. by apply keeps_researcher_step.
  - by apply keeps_researcher_finish.
Qed.

Lemma keeps_researcher_execute (self : ResearcherTool.t) (tc : ToolCall) (step_num : Z) :
  allowed "researcher" ->
  keeps Inv (fun text => nonempty text = true) caught
    (ResearcherTool.execute self tc step_num).
Proof.
  intros Hname. unfold ResearcherTool.execute.
  destruct (negb (truthy _)); [by keeps_step|].
  keeps_step.
  { apply keeps_of_result with (Q := fun _ => True). apply as_dict_result. }
  keeps_step.
  { apply keeps_of_result with (Q := fun _ => True). apply method_strip_result. }
  destruct (negb (nonempty _)) eqn:Hquery; [by keeps_step|].
  keeps_step.
  { destruct (given (dict_get "libraries" _)).
    - apply keeps_of_result with (Q := fun _ => True). apply str_join_result.
    - by apply keeps_ret. }
  eapply keeps_try with (X1 := caught).
  - by apply keeps_run_researcher.
  - intros e _ _. by keeps_step.
  - intros e He Hno. unfold caught in He. congruence.
Qed.

(** *** The coder and the test generator *)

Lemma may_write_anywhere (workdir : Path.t) (tc : ToolCall) :
  (forall l, safe l) -> may_write safe workdir tc.
Proof. intros Hsafe target _. by split. Qed.

Lemma coder_handlers (self : CoderTool.t) (name : string) handler :
  ToolChatAgent.tool_handlers (CoderTool.agent self) !! name = Some handler ->
  handler = CoderTool.write_file self \/ handler = CoderTool.run_shell self
  \/ handler = CoderTool.call_researcher self.
Proof.
  unfold CoderTool.agent.
  destruct (CoderTool.researcher_tool self); cbn [ToolChatAgent.tool_handlers];
    rewrite ?lookup_insert_Some, lookup_singleton_Some; intuition auto.
Qed.

Lemma coder_agent_name (self : CoderTool.t) :
  ToolChatAgent.name (CoderTool.agent self) = "coder".
Proof. unfold CoderTool.agent. by destruct (CoderTool.researcher_tool self). Qed.

Lemma keeps_coder_execute (self : CoderTool.t) (tc : ToolCall) (step_num : Z)
  (task_name task_description : string) :
  (forall l, safe l) -> allowed "coder" -> allowed "researcher" ->
  keeps Inv (fun _ => True) caught
    (CoderTool.execute self tc step_num task_name task_description).
Proof.
  intros Hsafe Hcoder Hresearcher. unfold CoderTool.execute.
  destruct (json_loads _) as [exc|args]; [by keeps_step|].
  keeps_step; [apply keeps_of_result with (Q := fun _ => True), as_dict_result|].
  keeps_step; [apply keeps_of_result with (Q := fun _ => True), method_strip_result|].
  destruct (negb (nonempty _)); [by keeps_step|].
  keeps_step; [apply keeps_get|].
  keeps_step.
  { destruct (given _); [|by keeps_step].
    apply keeps_of_result with (Q := fun _ => True), of_json_result. }
  keeps_step; [by apply keeps_Path_mkdir|].
  keeps_step; [apply keeps_modify; intros; by apply I_coder_path|].
  keeps_step.
  { unfold ToolChatAgent.run. apply keeps_with_local.
    apply keeps_tool_chat_run_on with (self := CoderTool.agent self).
    - rewrite coder_agent_name. exact Hcoder.
    - intros tc' handler _ Hh.
      apply coder_handlers in Hh as [-> | [-> | ->]].
      + apply keeps_write_file. by apply may_write_anywhere.
      + apply keeps_run_shell.
      + unfold CoderTool.call_researcher.
        destruct (CoderTool.researcher_tool self); [|by keeps_step].
        eapply keeps_weaken; [by apply keeps_researcher_execute | done | done]. }
  keeps_step; [apply keeps_Path_exists|]. by keeps_step.
Qed.

Lemma testgen_handlers (self : TestGenerator.t) (name : string) handler :
  ToolChatAgent.tool_handlers (TestGenerator.agent self) !! name = Some handler ->
  (name = "write_file" /\ handler = TestGenerator.write_file self)
  \/ handler = TestGenerator.run_shell self.
Proof.
  unfold TestGenerator.agent. cbn [ToolChatAgent.tool_handlers].
  rewrite lookup_insert_Some, lookup_singleton_Some. intuition auto.
Qed.

Lemma keeps_testgen_run_on (self : TestGenerator.t) (prompt : string) (step_num : Z) :
  allowed "test_generator" ->
  (forall tc, call_ok tc -> function_name tc = "write_file" ->
     may_write safe (WriteFileTool.workdir (TestGenerator.write_file_tool self)) tc) ->
  keeps (fun ls => Inv ls.2) (fun _ => True) caught
    (ToolChatAgent.run_on (TestGenerator.agent self) prompt step_num).
Proof.
  intros Hname Hwrite. apply keeps_tool_chat_run_on; [done|].
  intros tc handler Hok Hh. apply testgen_handlers in Hh as [[Hn ->] | ->].
  - apply keeps_write_file. by apply Hwrite.
  - apply keeps_run_shell.
Qed.

Lemma keeps_testgen_execute (self : TestGenerator.t) (tc : ToolCall) (step_num : Z)
  (task_name task_description : string) :
  allowed "test_generator" ->
  (forall tc, call_ok tc -> function_name tc = "write_file" ->
     may_write safe (WriteFileTool.workdir (TestGenerator.write_file_tool self)) tc) ->
  keeps Inv (fun _ => True) caught
    (TestGenerator.execute self tc step_num task_name task_description).
Proof.
  intros Hname Hwrite. unfold TestGenerator.execute.
  destruct (json_loads _) as [exc|parsed]; [by keeps_step|].
  keeps_step; [apply keeps_of_result with (Q := fun _ => True), as_dict_result|].
  keeps_step.
  { destruct (given _); [|by keeps_step].
    apply keeps_of_result with (Q := fun _ => True), method_strip_result. }
  destruct (dict_get "solver_path" _) as [[| | | |solver_path_arg| |]|]; try by keeps_step.
  destruct (negb (nonempty _)); [by keeps_step|].
  keeps_step; [apply keeps_modify; intros; by apply I_testgen_path|].
  keeps_step; [|by keeps_step].
  apply keeps_with_object; [intros; by apply I_testgen_history|].
  by apply keeps_testgen_run_on.
Qed.

(** *** The coordinator's handling of tool calls *)

Hypothesis load_rel : forall f l, fs_rel f (exec_module f l).2.

Lemma keeps_has_top_level_solve (l : MultiAgent.Locals) (path : Path.t) :
  keeps Inv (fun _ => True) (fun _ => True) (MultiAgent._has_top_level_solve l path).
Proof.
  unfold MultiAgent._has_top_level_solve.
  keeps_step; [apply keeps_Path_exists|].
  destruct (negb _); [by keeps_step|].
  intros s Hs. pose proof (load_rel (fs s) (location path)) as Hrel.
  destruct (exec_module (fs s) (location path)) as [out f]. cbn [snd] in Hrel.
  assert (Inv (set_fs f s)) by by apply I_fs.
  destruct out as [exc|[[|]|]]; [|by split..].
  destruct (is_ImportError _); [by split|]. by destruct (is_Exception _).
Qed.

Lemma keeps_transcript_append {S'} (J : Transcript.t * S' -> Prop) X (m : Message) :
  (forall tr s, J (tr, s) ->
     J (Transcript.set_messages (Transcript.messages tr ++ [m]) tr, s)) ->
  keeps J (fun _ => True) X (Transcript.append m).
Proof.
  intros HJ. unfold Transcript.append, Transcript.rebind. by apply keeps_modify_local.
Qed.

Lemma keeps_indicate_completion (l : MultiAgent.Locals) (tc : ToolCall) :
  keeps (fun ls => Inv ls.2) (fun _ => True) (fun _ => True)
    (MultiAgent.indicate_completion l tc).
Proof.
  unfold MultiAgent.indicate_completion.
  keeps_step; [apply keeps_lift_world, keeps_get|].
  keeps_step; [apply keeps_lift_world, keeps_has_top_level_solve|].
  destruct a0 as [[|] err_msg]; [|by keeps_step].
  keeps_step; [by apply keeps_transcript_append|]. by keeps_step.
Qed.

Lemma keeps_handle (self : MultiAgent.t) (l : MultiAgent.Locals) (step_num : Z)
  (tc : ToolCall) :
  (forall l, safe l) ->
  allowed "coder" -> allowed "researcher" -> allowed "test_generator" ->
  keeps (fun ls => Inv ls.2) (fun _ => True) (fun _ => True)
    (MultiAgent.handle self l step_num tc).
Proof.
  intros Hsafe Hcoder Hresearcher Htester. unfold MultiAgent.handle.
  assert (Hany : forall e, caught e -> True) by done.
  destruct (String.eqb _ "write_file").
  { keeps_step; [|by keeps_step]. apply keeps_lift_world.
    eapply keeps_weaken; [apply keeps_write_file, may_write_anywhere, Hsafe | done | done]. }
  destruct (String.eqb _ "run_shell").
  { keeps_step; [|by keeps_step]. apply keeps_lift_world.
    eapply keeps_weaken; [apply keeps_run_shell | done | done]. }
  destruct (String.eqb _ "call_researcher").
  { destruct (MultiAgent.enable_researcher self), (MultiAgent.researcher_tool self l);
      try by keeps_step.
    keeps_step; [|by keeps_step]. apply keeps_lift_world.
    eapply keeps_weaken; [by apply keeps_researcher_execute | done | done]. }
  destruct (String.eqb _ "call_coder").
  { keeps_step; [|by keeps_step]. apply keeps_lift_world.
    eapply keeps_weaken; [by apply keeps_coder_execute | done | done]. }
  destruct (String.eqb _ "call_testgen").
  { destruct (MultiAgent.enable_tester self), (MultiAgent.test_generator self l);
      try by keeps_step.
    keeps_step; [|by keeps_step]. apply keeps_lift_world.
    eapply keeps_weaken; [apply keeps_testgen_execute | done | done]; [done|].
    intros. by apply may_write_anywhere. }
  destruct (String.eqb _ "indicate_completion"); [|by keeps_step].
  apply keeps_indicate_completion.
Qed.

Lemma keeps_coordinator_call_tool (self : MultiAgent.t) (l : MultiAgent.Locals)
  (step_num : Z) (tc : ToolCall) :
  (forall l, safe l) ->
  allowed "coder" -> allowed "researcher" -> allowed "test_generator" ->
  keeps (fun ls => Inv ls.2) (fun _ => True) (fun _ => True)
    (MultiAgent.call_tool self l step_num tc).
Proof.
  intros Hsafe Hcoder Hresearcher Htester. unfold MultiAgent.call_tool.
  keeps_step; [by apply keeps_handle|].
  destruct a as [content|target]; [|by keeps_step].
  keeps_step; [by apply keeps_transcript_append|]. by keeps_step.
Qed.

End ToolInvariants.

(** ** C4: where faults of handlers are turned into text *)

Section HandlerFaults.
Context {E : Env}.

(** The invariant [True]: only the class of what is raised is of
    interest. *)
Lemma researcher_run_raises_caught (self : ResearcherTool.t) (prompt : string)
  (step_num : Z) (s : State) :
  match (ResearcherTool._run_researcher self prompt step_num s).1 with
  | Ok text => nonempty text = true
  | Raise e => caught e
  end.
Proof.
  assert (Hk : keeps (fun _ => True) (fun text => nonempty text = true) caught
                 (ResearcherTool._run_researcher self prompt step_num)).
  { eapply keeps_run_researcher with (allowed := fun _ => True) (call_ok := fun _ => True);
      try done.
    intros. by apply Forall_true. }
  exact (proj2 (Hk s Logic.I)).
Qed.

(** What [ResearcherTool.execute] returns, when it returns, is never
    empty. *)
Lemma researcher_answer_nonempty (self : ResearcherTool.t) (tc : ToolCall) (step_num : Z)
  (s : State) (text : string) :
  (ResearcherTool.execute self tc step_num s).1 = Ok text -> nonempty text = true.
Proof.
  assert (Hk : keeps (fun _ => True) (fun text => nonempty text = true) caught
                 (ResearcherTool.execute self tc step_num)).
  { eapply keeps_researcher_execute with (allowed := fun _ => True) (call_ok := fun _ => True);
      try done.
    intros. by apply Forall_true. }
  intros Hrun. pose proof (proj2 (Hk s Logic.I)) as Hr. by rewrite Hrun in Hr.
Qed.

(** Without a final text the researcher asks once more: the instruction
    to summarize is appended and one request goes out with no tools
    advertised. *)
Lemma researcher_forced_summary (msgs : list Message) (s : State) :
  exists e,
    exchanges (ResearcherTool.finish EmptyString (msgs, s)).2.2 = exchanges s ++ [e]
    /\ ex_agent e = "researcher"
    /\ ex_tools e = None
    /\ ex_messages e = msgs ++ [text_message user ResearcherTool.summarize_now].
Proof.
  unfold ResearcherTool.finish. cbn [nonempty String.eqb negb].
  unfold_monad. unfold chat. cbn [fst snd].
  destruct (chat_completions_create _ _ _ _); cbn [fst snd exchanges add_exchange]; eauto.
Qed.

Lemma write_file_guarded (self : WriteFileTool.t) (target : Path.t) (content_arg : json)
  (s : State) :
  exists text,
    (try_except (WriteFileTool.write self target content_arg) is_Exception
       (fun exc => mret ("Error writing file: " +:+ str_of exc)) s).1 = Ok text.
Proof.
  assert (Hk : keeps (fun _ => True) (fun _ => True) caught
                 (WriteFileTool.write self target content_arg)).
  { by eapply keeps_write with (fs_rel := fun _ _ => True) (safe := fun _ => True). }
  destruct (Hk s Logic.I) as [_ Hr].
  unfold try_except.
  destruct (WriteFileTool.write self target content_arg s) as [[text|e] s1];
    cbn [fst] in *; [eauto|].
  unfold caught in Hr. rewrite Hr. cbn. eauto.
Qed.

Lemma write_file_returns (self : WriteFileTool.t) (tc : ToolCall) (step_num : Z)
  (s : State) raw args path :
  function_arguments tc = Some raw ->
  json_loads raw = inr (JDict args) ->
  dict_get "path" args = Some (JStr path) ->
  exists text, (WriteFileTool.execute self tc step_num s).1 = Ok text.
Proof.
  intros Hargs Hload Hpath. unfold WriteFileTool.execute. rewrite Hargs, Hload, Hpath.
  destruct (negb (given (Some (JStr path)))); [by eexists|].
  destruct (negb (given (dict_get "content" args))) eqn:Hcontent; [by eexists|].
  destruct (negb (given (dict_get "action" args))); [by eexists|].
  destruct (dict_get "content" args) as [content_arg|]; [|done].
  apply write_file_guarded.
Qed.

Lemma run_command_returns (shell : ShellInterface.t) (cmd : string) (s : State) :
  exists out, (ShellInterface.run_command shell cmd s).1 = Ok out.
Proof.
  unfold ShellInterface.run_command. destruct (negb _); [by eexists|].
  destruct (subprocess_run _ _ _) as [[out rc| |msg] f]; by eexists.
Qed.

Lemma researcher_returns (self : ResearcherTool.t) (tc : ToolCall) (step_num : Z)
  (s : State) raw args query :
  function_arguments tc = Some raw ->
  nonempty raw = true ->
  json_loads raw = inr (JDict args) ->
  dict_get "query" args = Some (JStr query) ->
  dict_get "libraries" args = None ->
  exists text, (ResearcherTool.execute self tc step_num s).1 = Ok text.
Proof.
  intros Hargs Hraw Hload Hquery Hlibs.
  unfold ResearcherTool.execute, ResearcherTool._safe_json_load. rewrite Hargs.
  assert (Hor : str_or (Some raw) "{}" = raw) by (unfold str_or; by rewrite Hraw).
  assert (Hor' : str_or (Some raw) EmptyString = raw) by (unfold str_or; by rewrite Hraw).
  rewrite Hor', Hor, Hload.
  destruct (negb (truthy (JDict args))); [by eexists|].
  rewrite (bind_ok _ _ s args s) by reflexivity.
  rewrite Hquery. rewrite (bind_ok _ _ s (strip query) s) by reflexivity.
  destruct (negb (nonempty (strip query))); [by eexists|].
  rewrite Hlibs. rewrite (bind_ok _ _ s "(none provided)" s) by reflexivity.
  unfold try_except.
  pose proof (researcher_run_raises_caught self
                (format_prompt "RESEARCHER_PROMPT"
                   [("query", strip query); ("libraries", "(none provided)");
                    ("task_description", ResearcherTool.task_description self)])
                step_num s) as Hr.
  destruct (ResearcherTool._run_researcher _ _ _ _) as [[text|e] s1]; cbn [fst] in *;
    [eauto|].
  unfold caught in Hr. rewrite Hr. cbn. eauto.
Qed.

Lemma coordinator_call_tool_propagates (self : MultiAgent.t) (l : MultiAgent.Locals)
  (step_num : Z) (tc : ToolCall) tr s e st :
  MultiAgent.handle self l step_num tc (tr, s) = (Raise e, st) ->
  MultiAgent.call_tool self l step_num tc (tr, s) = (Raise e, st).
Proof. intros Hh. unfold MultiAgent.call_tool. by apply bind_raise. Qed.

(** *** Faults of the endpoint inside the nested loops *)

Lemma raises_pure {S A} (world : S -> State) (c : M S A) :
  (forall s, exchanges (world (c s).2) = exchanges (world s)) ->
  raises_nested_faults world c.
Proof.
  intros Hc s. exists []. rewrite app_nil_r. split; [apply Hc|]. by intros e exc ?%elem_of_nil.
Qed.

Lemma raises_quiet {S A} (world : S -> State) (c : M S A) :
  (forall before,
     keeps (fun x => quiet_since before (world x)) (fun _ => True) (fun _ => True) c) ->
  raises_nested_faults world c.
Proof.
  intros Hc s.
  destruct (Hc (exchanges (world s)) s) as [(new & Hnew & Hall) _].
  { exists []. by rewrite app_nil_r. }
  exists new. split; [done|]. intros e exc Hin Hnested.
  rewrite Forall_forall in Hall. by destruct (Hall e Hin).
Qed.

Lemma raises_bind {S A B} (world : S -> State) (c : M S A) (f : A -> M S B) :
  raises_nested_faults world c -> (forall a, raises_nested_faults world (f a)) ->
  raises_nested_faults world (c ≫= f).
Proof.
  intros Hc Hf s. destruct (Hc s) as (new1 & H1 & F1).
  unfold mbind, M_bind. destruct (c s) as [[a|e0] s1] eqn:Hcs; cbn [fst snd] in *.
  - destruct (Hf a s1) as (new2 & H2 & F2). exists (new1 ++ new2).
    rewrite H2, H1, <- app_assoc. split; [done|].
    intros e exc [Hin|Hin]%elem_of_app Hnested Hraise; [|by eapply F2].
    by specialize (F1 e exc Hin Hnested Hraise).
  - exists new1. split; [exact H1|]. intros e exc Hin Hnested Hraise.
    by specialize (F1 e exc Hin Hnested Hraise) as [= ->].
Qed.

Lemma raises_for {S A R} (world : S -> State) (xs : list A) (body : A -> M S (control R)) :
  (forall x, raises_nested_faults world (body x)) ->
  raises_nested_faults world (for_ xs body).
Proof.
  intros Hbody. induction xs as [|x xs IH]; cbn [for_].
  - by apply raises_pure.
  - apply raises_bind; [apply Hbody|]. intros [|r]; [apply IH | by apply raises_pure].
Qed.

Lemma raises_lift {L A} (c : M State A) :
  raises_nested_faults id c -> raises_nested_faults (snd : L * State -> State) (lift c).
Proof.
  intros Hc [l s]. destruct (Hc s) as (new & Hnew & Hfault). exists new.
  unfold lift. cbn [fst snd id] in *. by destruct (c s) as [r s1].
Qed.

Lemma raises_with_local {L A} (init : L) (c : M (L * State) A) :
  raises_nested_faults snd c -> raises_nested_faults id (with_local init c).
Proof.
  intros Hc s. destruct (Hc (init, s)) as (new & Hnew & Hfault). exists new.
  unfold with_local. cbn [fst snd id] in *. by destruct (c (init, s)) as [r [l s1]].
Qed.

Lemma raises_with_object {L A} (read : State -> L) (write : L -> State -> State)
  (c : M (L * State) A) :
  (forall l s, exchanges (write l s) = exchanges s) ->
  raises_nested_faults snd c -> raises_nested_faults id (with_object read write c).
Proof.
  intros Hw Hc s. destruct (Hc (read s, s)) as (new & Hnew & Hfault). exists new.
  unfold with_object. cbn [fst snd id] in *.
  destruct (c (read s, s)) as [r [l s1]]. cbn [fst snd] in *. by rewrite Hw.
Qed.

Lemma raises_chat (agent : string) (messages : list Message) (tools : option (list string)) :
  raises_nested_faults id (chat agent messages tools).
Proof.
  intros s. unfold chat. cbn [fst snd id]. eexists [_]. split; [reflexivity|].
  intros e exc ->%list_elem_of_singleton _ Hraise. exact Hraise.
Qed.


Lemma quiet_exchange (before : list Exchange) (s : State) (e : Exchange) :
  quiet_since before s -> ex_agent e <> "coder" /\ ex_agent e <> "test_generator" ->
  quiet_since before (add_exchange e s).
Proof.
  intros (new & Hnew & Hall) [Hc Ht]. exists (new ++ [e]). cbn [exchanges add_exchange].
  rewrite Hnew, <- app_assoc. split; [done|].
  apply Forall_app. split; [done|]. constructor; [|constructor]. by intros [?|?].
Qed.

Ltac raises_step :=
  lazymatch goal with
  | |- raises_nested_faults _ (_ ≫= _) => apply raises_bind; [|intros ?]
  | |- raises_nested_faults _ (lift (chat _ _ _)) => apply raises_lift, raises_chat
  | |- raises_nested_faults _ (match ?x with _ => _ end) => destruct x
  | |- _ => apply raises_pure; intros ?; reflexivity
  end.

Lemma raises_write_file (self : WriteFileTool.t) (tc : ToolCall) (step_num : Z) :
  raises_nested_faults id (WriteFileTool.execute self tc step_num).
Proof.
  apply raises_quiet. intros before. eapply keeps_weaken; [|done|done].
  by apply (keeps_write_file (quiet_since before) (fun _ _ => True) (fun _ => True)).
Qed.

Lemma raises_run_shell (self : RunShellTool.t) (tc : ToolCall) (step_num : Z) :
  raises_nested_faults id (RunShellTool.execute self tc step_num).
Proof.
  apply raises_quiet. intros before. eapply keeps_weaken; [|done|done].
  by apply (keeps_run_shell (quiet_since before) (fun _ _ => True)).
Qed.

Lemma raises_researcher (self : ResearcherTool.t) (tc : ToolCall) (step_num : Z) :
  raises_nested_faults id (ResearcherTool.execute self tc step_num).
Proof.
  apply raises_quiet. intros before. eapply keeps_weaken; [|done|done].
  apply (keeps_researcher_execute (quiet_since before)
           (fun a => a <> "coder" /\ a <> "test_generator") (fun _ => True)); try done.
  - intros. by apply quiet_exchange.
  - intros. by apply Forall_true.
Qed.

Lemma raises_tool_chat_run_on (self : ToolChatAgent.t) (system_prompt : string)
  (step_num : Z) :
  (forall name (handler : ToolChatAgent.Handler) tc,
     ToolChatAgent.tool_handlers self !! name = Some handler ->
     raises_nested_faults id (handler tc step_num)) ->
  raises_nested_faults snd (ToolChatAgent.run_on self system_prompt step_num).
Proof.
  intros Hh. unfold ToolChatAgent.run_on.
  raises_step; [raises_step|]. raises_step; [|raises_step].
  apply raises_for. intros inner_step. unfold ToolChatAgent.step.
  raises_step; [raises_step|]. raises_step; [raises_step|].
  destruct (has_tool_calls _).
  - raises_step; [raises_step|]. raises_step; [|raises_step].
    apply raises_for. intros tc. unfold ToolChatAgent.call_tool.
    raises_step.
    + destruct (ToolChatAgent.tool_handlers self !! function_name tc) as [handler|] eqn:Hl;
        [|raises_step]. apply raises_lift. by eapply Hh.
    + raises_step; raises_step.
  - raises_step; raises_step.
Qed.

Lemma raises_coder (self : CoderTool.t) (tc : ToolCall) (step_num : Z)
  (task_name task_description : string) :
  raises_nested_faults id (CoderTool.execute self tc step_num task_name task_description).
Proof.
  unfold CoderTool.execute.
  destruct (json_loads _) as [exc|args]; [raises_step|].
  raises_step; [raises_step|]. raises_step; [raises_step|].
  destruct (negb (nonempty _)); [raises_step|].
  raises_step; [raises_step|].
  raises_step; [destruct (given _); raises_step|].
  raises_step.
  { apply raises_pure. intros s. unfold Path_mkdir. by destruct (FSOps.mkdir _ _ _). }
  raises_step; [raises_step|].
  raises_step; [|raises_step; raises_step].
  unfold ToolChatAgent.run. apply raises_with_local, raises_tool_chat_run_on.
  intros name handler tc' Hl. apply coder_handlers in Hl as [-> | [-> | ->]].
  - apply raises_write_file.
  - apply raises_run_shell.
  - unfold CoderTool.call_researcher.
    destruct (CoderTool.researcher_tool self); [apply raises_researcher | raises_step].
Qed.

Lemma raises_testgen (self : TestGenerator.t) (tc : ToolCall) (step_num : Z)
  (task_name task_description : string) :
  raises_nested_faults id (TestGenerator.execute self tc step_num task_name task_description).
Proof.
  unfold TestGenerator.execute.
  destruct (json_loads _) as [exc|parsed]; [raises_step|].
  raises_step; [raises_step|].
  raises_step; [destruct (given _); raises_step|].
  destruct (dict_get "solver_path" _) as [[| | | |path| |]|]; try (raises_step; fail).
  destruct (negb _); [raises_step|].
  raises_step; [raises_step|].
  raises_step; [|raises_step].
  apply raises_with_object; [done|]. apply raises_tool_chat_run_on.
  intros name handler tc' Hl. apply testgen_handlers in Hl as [[_ ->] | ->].
  - apply raises_write_file.
  - apply raises_run_shell.
Qed.

Lemma raises_coordinator_call_tool (self : MultiAgent.t) (l : MultiAgent.Locals)
  (step_num : Z) (tc : ToolCall) :
  raises_nested_faults snd (MultiAgent.call_tool self l step_num tc).
Proof.
  unfold MultiAgent.call_tool. raises_step; [|raises_step; [raises_step; raises_step | raises_step]].
  unfold MultiAgent.handle.
  destruct (String.eqb _ "write_file").
  { raises_step; [apply raises_lift, raises_write_file | raises_step]. }
  destruct (String.eqb _ "run_shell").
  { raises_step; [apply raises_lift, raises_run_shell | raises_step]. }
  destruct (String.eqb _ "call_researcher").
  { destruct (MultiAgent.enable_researcher self), (MultiAgent.researcher_tool self l);
      try (raises_step; fail).
    raises_step; [apply raises_lift, raises_researcher | raises_step]. }
  destruct (String.eqb _ "call_coder").
  { raises_step; [apply raises_lift, raises_coder | raises_step]. }
  destruct (String.eqb _ "call_testgen").
  { destruct (MultiAgent.enable_tester self), (MultiAgent.test_generator self l);
      try (raises_step; fail).
    raises_step; [apply raises_lift, raises_testgen | raises_step]. }
  destruct (String.eqb _ "indicate_completion"); [|raises_step].
  apply raises_quiet. intros before.
  by apply (keeps_indicate_completion (quiet_since before) (fun _ _ => True)).
Qed.

Lemma raises_coordinator_run (self : MultiAgent.t) (l : MultiAgent.Locals) :
  raises_nested_faults id (MultiAgent.run self l).
Proof.
  unfold MultiAgent.run.
  do 3 (raises_step; [raises_step|]).
  apply raises_with_local. unfold MultiAgent.loop.
  raises_step.
  - apply raises_for. intros step_num. unfold MultiAgent.step.
    raises_step; [raises_step|]. raises_step; [raises_step|].
    raises_step; [raises_step|]. raises_step; [raises_step|].
    destruct (negb (has_tool_calls _)).
    + raises_step; [raises_step|]. raises_step; raises_step.
    + raises_step; [raises_step|].
      raises_step; [|raises_step; raises_step].
      apply raises_for. intros tc. apply raises_coordinator_call_tool.
  - raises_step; [raises_step|]. raises_step; [raises_step|]. raises_step; raises_step.
Qed.

(** C4, amended.  The dispatch of tool calls has no exception handler of
    its own, neither in [ToolChatAgent.run] nor in the coordinator loop: a
    handler that returns a text has it appended as the tool message, and a
    handler that raises makes the dispatch raise.  Faults are turned into
    text inside the handlers: [WriteFileTool.execute], given a JSON object
    with a string path, returns a text whatever happens while it resolves
    the path, creates directories and writes; [ShellInterface.run_command]
    returns a text also when the command cannot be spawned or times out;
    [ResearcherTool.execute], given a JSON object with a string query and
    no libraries, returns a text whatever fault its nested run meets.  A
    fault of the model endpoint inside the nested loop of [call_coder] or
    [call_testgen] is not turned into text and ends the run: whenever a
    request made in the name of the coder or of the test generator fails,
    the dispatch of the call raises that fault, and so does [run]. *)
Theorem handler_faults :
  (forall (self : ToolChatAgent.t) (step_num : Z) (tc : ToolCall)
          (handler : ToolChatAgent.Handler) (msgs : list Message) (s : State),
     ToolChatAgent.tool_handlers self !! function_name tc = Some handler ->
     ToolChatAgent.call_tool self step_num tc (msgs, s) =
       match handler tc step_num s with
       | (Ok text, s1) => (Ok Continue, (msgs ++ [tool_message (call_id tc) text], s1))
       | (Raise e, s1) => (Raise e, (msgs, s1))
       end)
  /\ (forall (self : MultiAgent.t) (l : MultiAgent.Locals) (step_num : Z) (tc : ToolCall)
             tr s e st,
        MultiAgent.handle self l step_num tc (tr, s) = (Raise e, st) ->
        MultiAgent.call_tool self l step_num tc (tr, s) = (Raise e, st))
  /\ (forall (self : WriteFileTool.t) (tc : ToolCall) (step_num : Z) (s : State)
             raw args path,
        function_arguments tc = Some raw ->
        json_loads raw = inr (JDict args) ->
        dict_get "path" args = Some (JStr path) ->
        exists text, (WriteFileTool.execute self tc step_num s).1 = Ok text)
  /\ (forall (shell : ShellInterface.t) (cmd : string) (s : State),
        exists out, (ShellInterface.run_command shell cmd s).1 = Ok out)
  /\ (forall (self : ResearcherTool.t) (tc : ToolCall) (step_num : Z) (s : State)
             raw args query,
        function_arguments tc = Some raw ->
        nonempty raw = true ->
        json_loads raw = inr (JDict args) ->
        dict_get "query" args = Some (JStr query) ->
        dict_get "libraries" args = None ->
        exists text, (ResearcherTool.execute self tc step_num s).1 = Ok text)
  /\ (forall (self : MultiAgent.t) (l : MultiAgent.Locals) (step_num : Z) (tc : ToolCall)
             (tr : Transcript.t) (s : State),
        let out := MultiAgent.call_tool self l step_num tc (tr, s) in
        exists new,
          exchanges out.2.2 = exchanges s ++ new
          /\ forall e exc,
               e ∈ new -> ex_agent e = "coder" \/ ex_agent e = "test_generator" ->
               ex_response e = Raise exc -> out.1 = Raise exc)
  /\ (forall (self : MultiAgent.t) (l : MultiAgent.Locals) (s : State),
        let out := MultiAgent.run self l s in
        exists new,
          exchanges out.2 = exchanges s ++ new
          /\ forall e exc,
               e ∈ new -> ex_agent e = "coder" \/ ex_agent e = "test_generator" ->
               ex_response e = Raise exc -> out.1 = Raise exc).
Proof.
  split; [|split; [|split; [|split; [|split; [|split]]]]].
  - intros. by apply call_tool_registered.
  - intros. by apply coordinator_call_tool_propagates.
  - intros. by eapply write_file_returns.
  - intros. apply run_command_returns.
  - intros. by eapply researcher_returns.
  - intros self l step_num tc tr s.
    exact (raises_coordinator_call_tool self l step_num tc (tr, s)).
  - intros self l s. exact (raises_coordinator_run self l s).
Qed.

End HandlerFaults.

(** A write below a regular file fails inside the handler and comes back
    as a text; a handler that raises makes the dispatch raise; a run in
    which the test generator's first request meets a transport fault ends
    with that fault. *)
Lemma handler_faults_witness :
  let below_file := Demo.call "call_1" "write_file"
      (Some (Demo.object [("path", "results/t/solver.py/notes.txt"); ("content", "x");
                          ("action", "take notes")])) in
  let absent := Demo.call "call_2" "write_file" None in
  let s := Demo.state Demo.ready_solver in
  let script := [inr (Demo.calling
                        [Demo.call "call_1" "call_testgen"
                           (Some (Demo.object [("solver_path", "results/t/solver.py")]))]);
                 inl "connection reset"] in
  (exists text, (WriteFileTool.execute (E := Demo.env []) Demo.writer below_file 1 s).1 = Ok text)
  /\ ToolChatAgent.call_tool
       (TestGenerator.agent (E := Demo.env []) Demo.tester) 1 absent ([], s)
     = (Raise json_loads_None, ([], s))
  /\ (MultiAgent.run (E := Demo.env script) Demo.multi Demo.locals s).1
     = Raise (Exn APIError "connection reset").
Proof.
  cbn zeta.
  destruct (handler_faults (E := Demo.env [])) as (Hdispatch & _ & Hwrite & _).
  split; [|split].
  - eapply Hwrite; [reflexivity | vm_compute; reflexivity | reflexivity].
  - rewrite (Hdispatch (TestGenerator.agent (E := Demo.env []) Demo.tester) 1
               (Demo.call "call_2" "write_file" None)
               (TestGenerator.write_file (E := Demo.env []) Demo.tester) []
               (Demo.state Demo.ready_solver) eq_refl).
    reflexivity.
  - destruct (handler_faults
                (E := Demo.env
                   [inr (Demo.calling
                           [Demo.call "call_1" "call_testgen"
                              (Some (Demo.object [("solver_path", "results/t/solver.py")]))]);
                    inl "connection reset"]))
      as (_ & _ & _ & _ & _ & _ & Hrun).
    destruct (Hrun Demo.multi Demo.locals (Demo.state Demo.ready_solver))
      as (new & Hnew & Hfault).
    cbn [Demo.state exchanges app] in Hnew. subst new.
    match type of Hfault with context [exchanges ?x] =>
      destruct (last (exchanges x)) as [e|] eqn:Hlast; [|by vm_compute in Hlast]
    end.
    apply (Hfault e (Exn APIError "connection reset")).
    + by apply last_Some_elem_of.
    + right. apply (f_equal (option_map ex_agent)) in Hlast.
      vm_compute in Hlast. injection Hlast as Hlast. symmetry. exact Hlast.
    + apply (f_equal (option_map ex_response)) in Hlast.
      vm_compute in Hlast. injection Hlast as Hlast. symmetry. exact Hlast.
Defined.

(** C4 fails as stated: the coordinator dispatches [call_coder]; the
    request of the coder's nested loop meets a transport fault, which
    leaves the handler and the dispatch as an exception. *)
Lemma nested_fault_escapes_dispatch :
  (MultiAgent.call_tool (E := Demo.env [inl "connection reset"]) Demo.multi Demo.locals 1
     (Demo.call "call_1" "call_coder" (Some (Demo.object [("approach", "use numpy")])))
     (Transcript.start [], Demo.state Demo.empty_dir)).1
  = Raise (Exn APIError "connection reset")
  /\ (MultiAgent.step (E := Demo.env
         [inr (Demo.calling
                 [Demo.call "call_1" "call_coder"
                    (Some (Demo.object [("approach", "use numpy")]))]);
          inl "connection reset"]) Demo.multi Demo.locals 1
        (Transcript.start [], Demo.state Demo.empty_dir)).1
     = Raise (Exn APIError "connection reset").
Proof. split; vm_compute; reflexivity. Qed.

(** ** C2: the bounded tool loop *)

Section BoundedLoop.
Context {E : Env}.
Import ToolChatAgent.

Lemma range_length (a b : Z) : length (range a b) = Z.to_nat (b - a).
Proof. unfold range. by rewrite length_map, length_seq. Qed.

Lemma requests_of_add (agent : string) (e : Exchange) (s : State) :
  requests_of agent (add_exchange e s) =
    requests_of agent s ++ (if String.eqb (ex_agent e) agent then [e] else []).
Proof.
  unfold requests_of. cbn [exchanges add_exchange].
  rewrite List.filter_app. cbn [List.filter]. by destruct (String.eqb _ _).
Qed.

Lemma dispatch_keeps_requests (self : t) (step_num : Z) (tcs : list ToolCall)
  (before : list Exchange) :
  handlers_keep_requests self ->
  keeps (fun ls : list Message * State => requests_of (name self) ls.2 = before)
    (fun _ => True) (fun _ => True) (for_ tcs (call_tool self step_num)).
Proof.
  intros Hk. apply keeps_for. intros tc _. unfold call_tool.
  keeps_step.
  - destruct (tool_handlers self !! function_name tc) as [handler|] eqn:Hh.
    + apply keeps_lift with (Q := fun _ => True). intros l s Hs. cbn [snd] in *. split.
      * by rewrite (Hk tc handler step_num s Hh).
      * by destruct (handler tc step_num s).1.
    + by keeps_step.
  - keeps_step; [by apply keeps_append|]. by keeps_step.
Qed.

Lemma step_request (self : t) (step_num inner_step : Z) (msgs : list Message) (s : State) :
  handlers_keep_requests self ->
  let out := step self step_num inner_step (msgs, s) in
  exists e,
    requests_of (name self) out.2.2 = requests_of (name self) s ++ [e]
    /\ ex_messages e = msgs
    /\ match out.1 with
       | Ok Continue => replied_with_calls e
       | Ok (Break text) =>
           replied_plain e text /\ last out.2.1 = Some (text_message assistant text)
       | Raise _ => True
       end.
Proof.
  intros Hk. cbn zeta. unfold step.
  rewrite (bind_ok _ _ (msgs, s) msgs (msgs, s)) by reflexivity.
  set (r := match chat_completions_create (exchanges s) (name self) msgs (Some (tools self)) with
            | inl msg => Raise (Exn APIError msg)
            | inr m => Ok m
            end).
  set (e := {| ex_agent := name self; ex_messages := msgs;
               ex_tools := Some (tools self); ex_response := r |}).
  assert (Hchat : lift (chat (name self) msgs (Some (tools self))) (msgs, s)
                  = (r, (msgs, add_exchange e s))) by reflexivity.
  assert (Hreq : requests_of (name self) (add_exchange e s)
                 = requests_of (name self) s ++ [e]).
  { rewrite requests_of_add. cbn [ex_agent e]. by rewrite String.eqb_refl. }
  exists e. destruct r as [reply|exc] eqn:Hr.
  - rewrite (bind_ok _ _ _ _ _ Hchat).
    destruct (has_tool_calls reply) eqn:Hcalls.
    + rewrite (bind_ok _ _ (msgs, add_exchange e s) tt
                 (msgs ++ [calls_message (calls_of reply)], add_exchange e s))
        by reflexivity.
      destruct (dispatch_keeps_requests self step_num (calls_of reply) _ Hk
                  (msgs ++ [calls_message (calls_of reply)], add_exchange e s) Hreq)
        as [Hkept _].
      destruct (for_ (calls_of reply) (call_tool self step_num) _)
        as [[done_|exc] [msgs1 s1]] eqn:Hfor; cbn [fst snd] in Hkept.
      * rewrite (bind_ok _ _ _ _ _ Hfor). cbn [fst snd mret M_ret].
        split; [exact Hkept|]. split; [done|]. by exists reply.
      * rewrite (bind_raise _ _ _ _ _ Hfor). cbn [fst snd]. by split.
    + rewrite (bind_ok _ _ (msgs, add_exchange e s) tt
                 (msgs ++ [text_message assistant (str_or (reply_content reply) EmptyString)],
                  add_exchange e s))
        by reflexivity.
      cbn [fst snd mret M_ret]. split; [exact Hreq|]. split; [done|]. split.
      * by exists reply.
      * by rewrite last_snoc.
  - rewrite (bind_raise _ _ _ _ _ Hchat). cbn [fst snd]. by split.
Qed.

Lemma loop_requests (self : t) (step_num : Z) (ks : list Z) :
  handlers_keep_requests self ->
  forall msgs s,
    let out := for_ ks (step self step_num) (msgs, s) in
    exists new,
      requests_of (name self) out.2.2 = requests_of (name self) s ++ new
      /\ (length new <= length ks)%nat
      /\ Forall replied_with_calls (removelast new)
      /\ match out.1 with
         | Ok (Some text) =>
             exists e, last new = Some e /\ replied_plain e text
                       /\ last out.2.1 = Some (text_message assistant text)
         | Ok None => length new = length ks /\ Forall replied_with_calls new
         | Raise _ => True
         end.
Proof.
  intros Hk. induction ks as [|k ks IH]; intros msgs s; cbn zeta.
  - exists []. cbn. rewrite app_nil_r. repeat split; constructor.
  - cbn [for_].
    destruct (step_request self step_num k msgs s Hk) as (e & Hreq & _ & Hout).
    destruct (step self step_num k (msgs, s)) as [[[|text]|exc] [msgs1 s1]] eqn:Hstep;
      cbn [fst snd] in Hreq, Hout.
    + rewrite (bind_ok _ _ _ _ _ Hstep).
      destruct (IH msgs1 s1) as (new & Hreq' & Hlen & Hall & Hres).
      exists (e :: new). rewrite Hreq', Hreq, <- app_assoc. split; [done|].
      split; [cbn; lia|]. split.
      * destruct new as [|e' new]; [constructor|].
        change (removelast (e :: e' :: new)) with (e :: removelast (e' :: new)).
        by constructor.
      * destruct (for_ ks (step self step_num) (msgs1, s1)) as [[[text|]|exc] [msgs2 s2]];
          cbn [fst snd] in *; [| |done].
        -- destruct Hres as (e' & Hlast & Hplain & Hmsgs). exists e'.
           split; [|done]. destruct new as [|e'' new]; [done|]. exact Hlast.
        -- destruct Hres as [Hlen' Hall']. split; [cbn; lia | by constructor].
    + rewrite (bind_ok _ _ _ _ _ Hstep). cbn [fst snd mret M_ret].
      exists [e]. split; [done|]. split; [cbn; lia|]. split; [constructor|].
      exists e. by destruct Hout.
    + rewrite (bind_raise _ _ _ _ _ Hstep). cbn [fst snd].
      exists [e]. split; [done|]. split; [cbn; lia|]. split; [constructor | done].
Qed.


End BoundedLoop.

(** ** The requests of an agent are its own *)

Section RequestsKept.
Context {E : Env}.
Variable agent : string.

Lemma requests_kept_exchange (before : list Exchange) (s : State) (e : Exchange) :
  requests_of agent s = before -> ex_agent e <> agent ->
  requests_of agent (add_exchange e s) = before.
Proof.
  intros Hs Hne. rewrite requests_of_add.
  destruct (String.eqb_spec (ex_agent e) agent); [done|]. by rewrite app_nil_r.
Qed.

Lemma write_file_keeps_requests (self : WriteFileTool.t) (tc : ToolCall) (step_num : Z)
  (s : State) :
  requests_of agent (WriteFileTool.execute self tc step_num s).2 = requests_of agent s.
Proof.
  assert (Hk : keeps (fun s' => requests_of agent s' = requests_of agent s)
                 (fun _ => True) caught (WriteFileTool.execute self tc step_num)).
  { by eapply keeps_write_file with (fs_rel := fun _ _ => True) (safe := fun _ => True). }
  exact (proj1 (Hk s eq_refl)).
Qed.

Lemma run_shell_keeps_requests (self : RunShellTool.t) (tc : ToolCall) (step_num : Z)
  (s : State) :
  requests_of agent (RunShellTool.execute self tc step_num s).2 = requests_of agent s.
Proof.
  assert (Hk : keeps (fun s' => requests_of agent s' = requests_of agent s)
                 (fun _ => True) caught (RunShellTool.execute self tc step_num)).
  { by eapply keeps_run_shell with (fs_rel := fun _ _ => True). }
  exact (proj1 (Hk s eq_refl)).
Qed.

Lemma testgen_handlers_keep_requests (self : TestGenerator.t) :
  ToolChatAgent.name (TestGenerator.agent self) = agent ->
  handlers_keep_requests (TestGenerator.agent self).
Proof.
  intros Hname tc handler step_num s Hh. rewrite Hname.
  apply testgen_handlers in Hh as [[_ ->] | ->].
  - apply write_file_keeps_requests.
  - apply run_shell_keeps_requests.
Qed.

Lemma researcher_keeps_requests (self : ResearcherTool.t) (tc : ToolCall) (step_num : Z)
  (s : State) :
  agent <> "researcher" ->
  requests_of agent (ResearcherTool.execute self tc step_num s).2 = requests_of agent s.
Proof.
  intros Hne.
  assert (Hk : keeps (fun s' => requests_of agent s' = requests_of agent s)
                 (fun text => nonempty text = true) caught
                 (ResearcherTool.execute self tc step_num)).
  { eapply keeps_researcher_execute
      with (allowed := fun a => a <> agent) (call_ok := fun _ => True); try done.
    - intros s' e Hs' He. by apply requests_kept_exchange.
    - intros. by apply Forall_true. }
  exact (proj1 (Hk s eq_refl)).
Qed.

Lemma coder_handlers_keep_requests (self : CoderTool.t) :
  ToolChatAgent.name (CoderTool.agent self) = agent ->
  handlers_keep_requests (CoderTool.agent self).
Proof.
  intros Hname tc handler step_num s Hh. rewrite Hname.
  rewrite coder_agent_name in Hname.
  apply coder_handlers in Hh as [-> | [-> | ->]].
  - apply write_file_keeps_requests.
  - apply run_shell_keeps_requests.
  - unfold CoderTool.call_researcher.
    destruct (CoderTool.researcher_tool self); [|done].
    apply researcher_keeps_requests. rewrite <- Hname. discriminate.
Qed.

End RequestsKept.

(** Both agents the program builds on [ToolChatAgent] have handlers that
    make no request in the agent's own name. *)
Lemma repository_agents_keep_requests {E : Env} :
  (forall self : CoderTool.t, handlers_keep_requests (CoderTool.agent self))
  /\ (forall self : TestGenerator.t, handlers_keep_requests (TestGenerator.agent self)).
Proof.
  split; intros self.
  - by eapply coder_handlers_keep_requests.
  - by eapply testgen_handlers_keep_requests.
Qed.

Section CoordinatorRequests.
Context {E : Env}.
Variable agent : string.

Lemma coordinator_dispatch_keeps_requests (self : MultiAgent.t) (l : MultiAgent.Locals)
  (step_num : Z) (tcs : list ToolCall) (before : list Exchange) :
  agent <> "coder" -> agent <> "researcher" -> agent <> "test_generator" ->
  keeps (fun ls : Transcript.t * State => requests_of agent ls.2 = before)
    (fun _ => True) (fun _ => True)
    (for_ tcs (MultiAgent.call_tool self l step_num)).
Proof.
  intros Hcoder Hresearcher Htester. apply keeps_for. intros tc _.
  eapply keeps_coordinator_call_tool
    with (Inv := fun s => requests_of agent s = before)
         (allowed := fun a => a <> agent) (fs_rel := fun _ _ => True)
         (safe := fun _ => True) (call_ok := fun _ => True);
    try done.
  - intros s e Hs Hne. by apply requests_kept_exchange.
  - intros. by apply Forall_true.
Qed.

End CoordinatorRequests.


(** ** C3: every tool call of a turn is answered *)

Section TurnsAnswered.
Context {E : Env}.

Lemma tool_chat_step_answers (self : ToolChatAgent.t) (step_num inner_step : Z)
  (msgs : list Message) (s : State) reply s1 c msgs' s' :
  chat (ToolChatAgent.name self) msgs (Some (ToolChatAgent.tools self)) s = (Ok reply, s1) ->
  has_tool_calls reply = true ->
  ToolChatAgent.step self step_num inner_step (msgs, s) = (Ok c, (msgs', s')) ->
  c = Continue /\ turn_recorded (calls_of reply) (calls_of reply) msgs msgs'.
Proof.
  intros Hchat Hcalls. unfold ToolChatAgent.step.
  rewrite (bind_ok _ _ (msgs, s) msgs (msgs, s)) by reflexivity.
  rewrite (bind_ok _ _ (msgs, s) reply (msgs, s1))
    by (unfold lift; cbn [fst snd]; by rewrite Hchat).
  rewrite Hcalls.
  rewrite (bind_ok _ _ (msgs, s1) tt (msgs ++ [calls_message (calls_of reply)], s1))
    by reflexivity.
  intros Hrun. apply bind_inv_ok in Hrun as (r & [msgs2 s2] & Hfor & Hret).
  apply calls_answered in Hfor as (-> & replies & -> & Hans).
  revert Hret. unfold_monad. intros [= <- <- <-]. split; [done|].
  exists replies. by rewrite <- app_assoc.
Qed.

Lemma coordinator_step_answers (self : MultiAgent.t) (l : MultiAgent.Locals) (step_num : Z)
  (tr : Transcript.t) (s : State) reply s1 c tr' s' :
  let sent := List.filter (fun m => negb (MultiAgent.is_guidance m)) (Transcript.messages tr)
              ++ [MultiAgent.guidance (MultiAgent.max_steps self - step_num + 1)] in
  chat "coordinator" sent (Some (MultiAgent.tools self)) s = (Ok reply, s1) ->
  has_tool_calls reply = true ->
  MultiAgent.step self l step_num (tr, s) = (Ok c, (tr', s')) ->
  match c with
  | Continue =>
      turn_recorded (calls_of reply) (calls_of reply) sent (Transcript.messages tr')
  | Break _ =>
      exists k tc,
        calls_of reply !! k = Some tc
        /\ function_name tc = "indicate_completion"
        /\ turn_recorded (calls_of reply) (take (S k) (calls_of reply)) sent
             (Transcript.messages tr')
  end.
Proof.
  intros sent Hchat Hcalls. unfold MultiAgent.step.
  set (tr1 := Transcript.set_messages
                (List.filter (fun m => negb (MultiAgent.is_guidance m)) (Transcript.messages tr))
                tr).
  set (tr2 := Transcript.set_messages sent tr1).
  rewrite (bind_ok _ _ (tr, s) tt (tr1, s)) by reflexivity.
  rewrite (bind_ok _ _ (tr1, s) tt (tr2, s)) by reflexivity.
  rewrite (bind_ok _ _ (tr2, s) tr2 (tr2, s)) by reflexivity.
  rewrite (bind_ok _ _ (tr2, s) reply (tr2, s1))
    by (unfold lift; cbn [fst snd];
        change (Transcript.messages tr2) with sent; by rewrite Hchat).
  rewrite Hcalls. cbn [negb].
  set (tr3 := Transcript.set_messages (sent ++ [calls_message (calls_of reply)]) tr2).
  rewrite (bind_ok _ _ (tr2, s1) tt (tr3, s1)) by reflexivity.
  intros Hrun. apply bind_inv_ok in Hrun as (r & [tr4 s4] & Hfor & Hret).
  apply coordinator_calls_answered in Hfor as (replies & Hmsgs & Hr).
  cbn [Transcript.messages tr3 Transcript.set_messages] in Hmsgs.
  rewrite <- app_assoc in Hmsgs. cbn [app] in Hmsgs.
  destruct r as [target|]; revert Hret; unfold_monad; intros [= <- <- <-].
  - destruct Hr as (k & tc & Hk & Hname & Hans). exists k, tc.
    split; [done|]. split; [done|]. by exists replies.
  - by exists replies.
Qed.

Lemma coordinator_step_request (self : MultiAgent.t) (l : MultiAgent.Locals)
  (step_num : Z) (tr : Transcript.t) (s : State) :
  exists e,
    requests_of "coordinator" (MultiAgent.step self l step_num (tr, s)).2.2
    = requests_of "coordinator" s ++ [e]
    /\ ex_messages e
       = List.filter (fun m => negb (MultiAgent.is_guidance m)) (Transcript.messages tr)
           ++ [MultiAgent.guidance (MultiAgent.max_steps self - step_num + 1)].
Proof.
  unfold MultiAgent.step.
  set (pruned := List.filter (fun m => negb (MultiAgent.is_guidance m))
                   (Transcript.messages tr)).
  set (sent := pruned ++ [MultiAgent.guidance (MultiAgent.max_steps self - step_num + 1)]).
  set (tr1 := Transcript.set_messages pruned tr).
  set (tr2 := Transcript.set_messages sent tr1).
  rewrite (bind_ok _ _ (tr, s) tt (tr1, s)) by reflexivity.
  rewrite (bind_ok _ _ (tr1, s) tt (tr2, s)) by reflexivity.
  rewrite (bind_ok _ _ (tr2, s) tr2 (tr2, s)) by reflexivity.
  set (r := match chat_completions_create (exchanges s) "coordinator" sent
                    (Some (MultiAgent.tools self)) with
            | inl msg => Raise (Exn APIError msg)
            | inr m => Ok m
            end).
  set (e := {| ex_agent := "coordinator"; ex_messages := sent;
               ex_tools := Some (MultiAgent.tools self); ex_response := r |}).
  assert (Hchat : lift (chat "coordinator" (Transcript.messages tr2)
                          (Some (MultiAgent.tools self))) (tr2, s)
                  = (r, (tr2, add_exchange e s))) by reflexivity.
  assert (Hreq : requests_of "coordinator" (add_exchange e s)
                 = requests_of "coordinator" s ++ [e]) by by rewrite requests_of_add.
  exists e. split; [|done].
  destruct r as [reply|exc] eqn:Hr; [|by rewrite (bind_raise _ _ _ _ _ Hchat)].
  rewrite (bind_ok _ _ _ _ _ Hchat).
  set (J := fun ls : Transcript.t * State =>
              requests_of "coordinator" ls.2 = requests_of "coordinator" s ++ [e]).
  match goal with
  | |- context [(?c (tr2, add_exchange e s)).2] =>
      assert (Hk : keeps J (fun _ => True) (fun _ => True) c)
  end.
  { destruct (negb (has_tool_calls reply)).
    - keeps_step; [by apply keeps_transcript_append|].
      keeps_step; [by apply keeps_transcript_append|]. by keeps_step.
    - keeps_step; [by apply keeps_transcript_append|].
      keeps_step; [by apply coordinator_dispatch_keeps_requests|].
      destruct a0; by keeps_step. }
  exact (proj1 (Hk (tr2, add_exchange e s) Hreq)).
Qed.

(** C3, amended.  When the reply to a request carries tool calls and the
    step completes without an exception, the transcript has gained the
    assistant turn followed by one tool message per call, in the order of
    the calls and each bearing the id of its call - in [ToolChatAgent.run]
    on every such step, in the coordinator loop on every step that goes on
    to a next request.  On the step at which [indicate_completion]
    succeeds the coordinator returns at once: the calls up to and
    including that one are answered, later calls of the same turn are
    not, and no further request is made.  A step makes one request of its
    own, and that request carries the transcript as the step found it (in
    the coordinator loop: pruned and with the fresh guidance), hence with
    every answer of the turn before. *)
Theorem tool_calls_answered :
  (forall (self : ToolChatAgent.t) (step_num inner_step : Z) (msgs : list Message)
          (s : State) reply s1 c msgs' s',
     chat (ToolChatAgent.name self) msgs (Some (ToolChatAgent.tools self)) s = (Ok reply, s1) ->
     has_tool_calls reply = true ->
     ToolChatAgent.step self step_num inner_step (msgs, s) = (Ok c, (msgs', s')) ->
     c = Continue /\ turn_recorded (calls_of reply) (calls_of reply) msgs msgs')
  /\ (forall (self : MultiAgent.t) (l : MultiAgent.Locals) (step_num : Z)
             (tr : Transcript.t) (s : State) reply s1 c tr' s',
        let sent :=
          List.filter (fun m => negb (MultiAgent.is_guidance m)) (Transcript.messages tr)
            ++ [MultiAgent.guidance (MultiAgent.max_steps self - step_num + 1)] in
        chat "coordinator" sent (Some (MultiAgent.tools self)) s = (Ok reply, s1) ->
        has_tool_calls reply = true ->
        MultiAgent.step self l step_num (tr, s) = (Ok c, (tr', s')) ->
        match c with
        | Continue =>
            turn_recorded (calls_of reply) (calls_of reply) sent (Transcript.messages tr')
        | Break _ =>
            exists k tc,
              calls_of reply !! k = Some tc
              /\ function_name tc = "indicate_completion"
              /\ turn_recorded (calls_of reply) (take (S k) (calls_of reply)) sent
                   (Transcript.messages tr')
        end)
  /\ (forall (self : ToolChatAgent.t) (step_num inner_step : Z) (msgs : list Message)
             (s : State),
        handlers_keep_requests self ->
        exists e,
          requests_of (ToolChatAgent.name self)
            (ToolChatAgent.step self step_num inner_step (msgs, s)).2.2
          = requests_of (ToolChatAgent.name self) s ++ [e]
          /\ ex_messages e = msgs)
  /\ (forall (self : MultiAgent.t) (l : MultiAgent.Locals) (step_num : Z)
             (tr : Transcript.t) (s : State),
        exists e,
          requests_of "coordinator" (MultiAgent.step self l step_num (tr, s)).2.2
          = requests_of "coordinator" s ++ [e]
          /\ ex_messages e
             = List.filter (fun m => negb (MultiAgent.is_guidance m))
                 (Transcript.messages tr)
                 ++ [MultiAgent.guidance (MultiAgent.max_steps self - step_num + 1)]).
Proof.
  split; [|split; [|split]].
  - intros. by eapply tool_chat_step_answers.
  - intros. by eapply coordinator_step_answers.
  - intros self step_num inner_step msgs s Hk.
    destruct (step_request self step_num inner_step msgs s Hk) as (e & Hreq & Hmsgs & _).
    by exists e.
  - intros. apply coordinator_step_request.
Qed.

End TurnsAnswered.

(** A turn of the test generator with a file write and an unknown tool. *)
Lemma tool_calls_answered_witness :
  let env := Demo.env [inr (Demo.calling Demo.harness_turn)] in
  let out := ToolChatAgent.step (E := env) (TestGenerator.agent (E := env) Demo.tester) 1 1
               ([], Demo.state Demo.empty_dir) in
  out.1 = Ok Continue
  /\ turn_recorded Demo.harness_turn Demo.harness_turn [] out.2.1.
Proof.
  cbn zeta.
  set (env := Demo.env [inr (Demo.calling Demo.harness_turn)]).
  set (agent := TestGenerator.agent (E := env) Demo.tester).
  set (out := ToolChatAgent.step (E := env) agent 1 1 ([], Demo.state Demo.empty_dir)).
  split; [vm_compute; reflexivity|].
  apply (proj1 (tool_calls_answered (E := env)) agent 1 1 [] (Demo.state Demo.empty_dir)
           (Demo.calling Demo.harness_turn)
           (chat (E := env) "test_generator" [] (Some (ToolChatAgent.tools agent))
              (Demo.state Demo.empty_dir)).2
           Continue out.2.1 out.2.2);
    vm_compute; reflexivity.
Defined.

(** C3 fails as stated: the coordinator receives a turn with two calls,
    [indicate_completion] first, while the solver is ready; the run
    returns after the first tool message and the second call is never
    answered. *)
Lemma completion_leaves_calls_unanswered :
  let env := Demo.env [inr (Demo.calling Demo.closing_turn)] in
  let start := Transcript.start [text_message developer "coordinate"] in
  let sent := [text_message developer "coordinate"; MultiAgent.guidance 3] in
  let out := MultiAgent.step (E := env) Demo.multi Demo.locals 1
               (start, Demo.state Demo.ready_solver) in
  out.1 = Ok (Break Demo.solver)
  /\ ~ turn_recorded Demo.closing_turn Demo.closing_turn sent (Transcript.messages out.2.1).
Proof.
  cbn zeta. split; [vm_compute; reflexivity|].
  intros (replies & Heq & Hans).
  vm_compute in Heq. injection Heq as <-.
  inversion Hans as [|? ? ? ? _ Hrest]; subst. inversion Hrest.
Qed.

(** ** C7: one guidance message *)

Section Guidance.
Context {E : Env}.
Import MultiAgent.

Lemma guidance_count_app (ms : list Message) (m : Message) :
  guidance_count (ms ++ [m]) =
    (guidance_count ms + (if is_guidance m then 1 else 0))%nat.
Proof.
  unfold guidance_count. rewrite List.filter_app, length_app. cbn [List.filter].
  by destruct (is_guidance m).
Qed.

Lemma guidance_count_pruned (ms : list Message) :
  guidance_count (List.filter (fun m => negb (is_guidance m)) ms) = 0%nat.
Proof.
  unfold guidance_count. induction ms as [|m ms IH]; [done|].
  cbn [List.filter]. destruct (is_guidance m) eqn:Hm; cbn [negb List.filter]; [done|].
  by rewrite Hm.
Qed.

Lemma is_guidance_guidance (remaining : Z) : is_guidance (guidance remaining) = true.
Proof. unfold is_guidance, guidance. cbn. apply prefix_app_l. reflexivity. Qed.

Lemma at_most_one_append (tr : Transcript.t) (m : Message) :
  is_guidance m = false -> at_most_one_guidance tr ->
  at_most_one_guidance (Transcript.set_messages (Transcript.messages tr ++ [m]) tr).
Proof.
  intros Hm Htr. unfold at_most_one_guidance, Transcript.values in *.
  cbn [Transcript.messages Transcript.earlier Transcript.set_messages].
  constructor; [|exact Htr].
  rewrite guidance_count_app, Hm. apply Forall_inv in Htr. lia.
Qed.

Lemma keeps_plain_append (before : list Exchange) (m : Message) :
  is_guidance m = false ->
  keeps (fun ls : Transcript.t * State =>
           requests_of "coordinator" ls.2 = before /\ at_most_one_guidance ls.1)
    (fun _ => True) (fun _ => True) (Transcript.append m).
Proof.
  intros Hm. apply keeps_transcript_append. intros tr s [Hreq Htr].
  split; [done|]. by apply at_most_one_append.
Qed.

Lemma handle_keeps_transcript (self : t) (l : Locals) (step_num : Z) (tc : ToolCall) :
  keeps (fun ls : Transcript.t * State => at_most_one_guidance ls.1)
    (fun _ => True) (fun _ => True) (handle self l step_num tc).
Proof.
  assert (Hlift : forall (c : M State string),
            keeps (fun ls : Transcript.t * State => at_most_one_guidance ls.1)
              (fun _ => True) (fun _ => True)
              (content ← lift c; mret (Content content))).
  { intros c. keeps_step; [|by keeps_step]. apply keeps_lift_local. }
  unfold handle.
  repeat (match goal with
          | |- context [String.eqb ?a ?b] => destruct (String.eqb a b)
          end; [first [apply Hlift | idtac]|]); try by keeps_step.
  - destruct (enable_researcher self), (researcher_tool self l);
      first [apply Hlift | by keeps_step].
  - destruct (enable_tester self), (test_generator self l);
      first [apply Hlift | by keeps_step].
  - unfold indicate_completion.
    keeps_step; [apply keeps_lift_local|].
    keeps_step; [apply keeps_lift_local|].
    destruct a0 as [[|] err_msg]; [|by keeps_step].
    keeps_step; [|by keeps_step].
    apply keeps_transcript_append. intros tr s Htr. by apply at_most_one_append.
Qed.

Lemma call_tool_keeps_transcript (self : t) (l : Locals) (step_num : Z) (tc : ToolCall) :
  keeps (fun ls : Transcript.t * State => at_most_one_guidance ls.1)
    (fun _ => True) (fun _ => True) (call_tool self l step_num tc).
Proof.
  unfold call_tool. keeps_step; [apply handle_keeps_transcript|].
  destruct a as [content|target]; [|by keeps_step].
  keeps_step; [|by keeps_step].
  apply keeps_transcript_append. intros tr s Htr. by apply at_most_one_append.
Qed.

Lemma dispatch_keeps_guidance (self : t) (l : Locals) (step_num : Z)
  (tcs : list ToolCall) (before : list Exchange) :
  keeps (fun ls : Transcript.t * State =>
           requests_of "coordinator" ls.2 = before /\ at_most_one_guidance ls.1)
    (fun _ => True) (fun _ => True) (for_ tcs (call_tool self l step_num)).
Proof.
  apply keeps_for. intros tc _. apply keeps_and.
  - assert (Hone : keeps (fun ls : Transcript.t * State =>
                            requests_of "coordinator" ls.2 = before)
                     (fun _ => True) (fun _ => True)
                     (for_ [tc] (call_tool self l step_num))).
    { by apply coordinator_dispatch_keeps_requests. }
    intros ls Hls. destruct (Hone ls Hls) as [Hkept _]. revert Hkept.
    cbn [for_]. unfold mbind, M_bind.
    destruct (call_tool self l step_num tc ls) as [[[|target]|exc] [tr1 s1]]; by split.
  - apply call_tool_keeps_transcript.
Qed.

Lemma step_guidance (self : t) (l : Locals) (step_num : Z) (tr : Transcript.t) (s : State) :
  at_most_one_guidance tr ->
  let out := step self l step_num (tr, s) in
  at_most_one_guidance out.2.1
  /\ exists e,
       requests_of "coordinator" out.2.2 = requests_of "coordinator" s ++ [e]
       /\ ex_messages e
          = List.filter (fun m => negb (is_guidance m)) (Transcript.messages tr)
              ++ [guidance (max_steps self - step_num + 1)]
       /\ guided (max_steps self) e step_num.
Proof.
  intros Htr. cbn zeta. unfold step.
  set (pruned := List.filter (fun m => negb (is_guidance m)) (Transcript.messages tr)).
  set (sent := pruned ++ [guidance (max_steps self - step_num + 1)]).
  set (tr1 := Transcript.set_messages pruned tr).
  set (tr2 := Transcript.set_messages sent tr1).
  rewrite (bind_ok _ _ (tr, s) tt (tr1, s)) by reflexivity.
  rewrite (bind_ok _ _ (tr1, s) tt (tr2, s)) by reflexivity.
  rewrite (bind_ok _ _ (tr2, s) tr2 (tr2, s)) by reflexivity.
  assert (Hsent : guidance_count sent = 1%nat).
  { unfold sent. rewrite guidance_count_app, is_guidance_guidance.
    unfold pruned. by rewrite guidance_count_pruned. }
  assert (Htr2 : at_most_one_guidance tr2).
  { unfold at_most_one_guidance, Transcript.values in *.
    cbn [tr2 tr1 Transcript.messages Transcript.earlier Transcript.set_messages].
    constructor; [lia|]. constructor; [|exact Htr].
    unfold pruned. rewrite guidance_count_pruned. lia. }
  set (r := match chat_completions_create (exchanges s) "coordinator" sent (Some (tools self)) with
            | inl msg => Raise (Exn APIError msg)
            | inr m => Ok m
            end).
  set (e := {| ex_agent := "coordinator"; ex_messages := sent;
               ex_tools := Some (tools self); ex_response := r |}).
  assert (Hchat : lift (chat "coordinator" (Transcript.messages tr2) (Some (tools self)))
                    (tr2, s) = (r, (tr2, add_exchange e s))) by reflexivity.
  assert (Hreq : requests_of "coordinator" (add_exchange e s)
                 = requests_of "coordinator" s ++ [e]).
  { by rewrite requests_of_add. }
  assert (Hguided : guided (max_steps self) e step_num).
  { split; [exact Hsent|]. cbn [ex_messages e]. unfold sent. by rewrite last_snoc. }
  destruct r as [reply|exc] eqn:Hr.
  2: { rewrite (bind_raise _ _ _ _ _ Hchat). cbn [fst snd]. split; [done|]. by exists e. }
  assert (Hmsgs : ex_messages e = sent) by reflexivity.
  rewrite (bind_ok _ _ _ _ _ Hchat).
  set (J := fun ls : Transcript.t * State =>
              requests_of "coordinator" ls.2 = requests_of "coordinator" s ++ [e]
              /\ at_most_one_guidance ls.1).
  match goal with
  | |- context [(?c (tr2, add_exchange e s)).2] =>
      assert (Hk : keeps J (fun _ => True) (fun _ => True) c)
  end.
  { destruct (negb (has_tool_calls reply)).
    - keeps_step; [by apply keeps_plain_append|].
      keeps_step; [by apply keeps_plain_append|]. by keeps_step.
    - keeps_step; [by apply keeps_plain_append|].
      keeps_step; [apply dispatch_keeps_guidance|].
      destruct a0; by keeps_step. }
  destruct (Hk (tr2, add_exchange e s) (conj Hreq Htr2)) as [[Hreq' Htr'] _].
  split; [exact Htr'|]. by exists e.
Qed.

Lemma loop_guidance (self : t) (l : Locals) (ks : list Z) :
  forall tr s,
    at_most_one_guidance tr ->
    let out := for_ ks (step self l) (tr, s) in
    at_most_one_guidance out.2.1
    /\ exists requests,
         requests_of "coordinator" out.2.2 = requests_of "coordinator" s ++ requests
         /\ Forall2 (guided (max_steps self)) requests (take (length requests) ks).
Proof.
  induction ks as [|k ks IH]; intros tr s Htr; cbn zeta.
  - split; [done|]. exists []. cbn. rewrite app_nil_r. split; [done | constructor].
  - cbn [for_].
    destruct (step_guidance self l k tr s Htr) as (Htr1 & e & Hreq & _ & Hguided).
    destruct (step self l k (tr, s)) as [[[|target]|exc] [tr1 s1]] eqn:Hstep;
      cbn [fst snd] in Htr1, Hreq.
    + rewrite (bind_ok _ _ _ _ _ Hstep).
      destruct (IH tr1 s1 Htr1) as (Htr2 & requests & Hreq' & Hall).
      split; [exact Htr2|]. exists (e :: requests).
      rewrite Hreq', Hreq, <- app_assoc. split; [done|]. cbn. by constructor.
    + rewrite (bind_ok _ _ _ _ _ Hstep). cbn [fst snd mret M_ret].
      split; [done|]. exists [e]. split; [done|]. cbn. rewrite take_0.
      constructor; [done | constructor].
    + rewrite (bind_raise _ _ _ _ _ Hstep). cbn [fst snd].
      split; [done|]. exists [e]. split; [done|]. cbn. rewrite take_0.
      constructor; [done | constructor].
Qed.

(** C7.  Throughout the coordinator loop, started from the system
    prompt and run for any number of steps against any endpoint, every
    value the transcript takes holds at most one developer message that
    starts with "Tool calls remaining:".  The requests the coordinator
    makes are, in order, those of steps 1, 2, ...: each carries exactly one
    such message, as the last message of its transcript, stating the budget
    [max_steps - step_num + 1] that remains at its step. *)
Theorem one_guidance_message (self : t) (l : Locals) (s : State) :
  let start := Transcript.start [text_message developer (system_prompt self l)] in
  let out := loop self l (start, s) in
  at_most_one_guidance out.2.1
  /\ exists requests,
       requests_of "coordinator" out.2.2 = requests_of "coordinator" s ++ requests
       /\ Forall2 (guided (max_steps self)) requests
            (take (length requests) (range 1 (max_steps self + 1))).
Proof.
  cbn zeta. unfold loop.
  set (start := Transcript.start [text_message developer (system_prompt self l)]).
  assert (Hstart : at_most_one_guidance start).
  { unfold at_most_one_guidance, Transcript.values, start. cbn.
    constructor; [|constructor]. unfold guidance_count. cbn [List.filter].
    destruct (is_guidance _); cbn; lia. }
  destruct (loop_guidance self l (range 1 (max_steps self + 1)) start s Hstart)
    as (Htr & requests & Hreq & Hall).
  destruct (for_ (range 1 (max_steps self + 1)) (step self l) (start, s))
    as [[[target|]|exc] [tr1 s1]] eqn:Hfor; cbn [fst snd] in Htr, Hreq.
  - rewrite (bind_ok _ _ _ _ _ Hfor). cbn [fst snd mret M_ret]. split; [done|]. eauto.
  - rewrite (bind_ok _ _ _ _ _ Hfor).
    rewrite (bind_ok _ _ (tr1, s1) s1 (tr1, s1)) by reflexivity.
    rewrite (bind_ok _ _ (tr1, s1)
               (FS.exists_ (fs s1) (location (coder_solver_path s1))) (tr1, s1))
      by reflexivity.
    cbn [fst snd mret M_ret]. split; [done|]. eauto.
  - rewrite (bind_raise _ _ _ _ _ Hfor). cbn [fst snd]. split; [done|]. eauto.
Qed.

End Guidance.

(** ** Facts about paths and the file system *)

Section PathFacts.

Lemma is_prefix_spec (a b : list string) :
  Path.is_prefix a b = true <-> exists k, b = a ++ k.
Proof.
  revert b. induction a as [|x a IH]; intros b; cbn.
  - split; [eauto | done].
  - destruct b as [|y b].
    + split; [done | by intros [k Hk]].
    + rewrite andb_true_iff, IH. split.
      * intros [Hxy [k ->]]. apply String.eqb_eq in Hxy as ->. by exists k.
      * intros [k [= -> ->]]. split; [apply String.eqb_refl | by exists k].
Qed.

Lemma is_prefix_refl (a : list string) : Path.is_prefix a a = true.
Proof. apply is_prefix_spec. exists []. by rewrite app_nil_r. Qed.

Lemma is_prefix_removelast (a l : list string) :
  Path.is_prefix a (removelast l) = true -> Path.is_prefix a l = true.
Proof.
  rewrite !is_prefix_spec. intros [k Hk].
  destruct (decide (l = [])) as [->|Hne]; [by exists k|].
  rewrite (app_removelast_last EmptyString Hne), Hk, <- app_assoc. eauto.
Qed.

Lemma normalize_step_clean (acc : list string) (c : string) :
  Forall (fun x => x <> "..") acc -> Forall (fun x => x <> "..") (Path.normalize_step acc c).
Proof.
  intros Hacc. unfold Path.normalize_step. destruct (String.eqb_spec c "..").
  - destruct (decide (acc = [])) as [->|Hne]; [done|].
    rewrite (app_removelast_last EmptyString Hne) in Hacc.
    by apply Forall_app in Hacc as [? _].
  - apply Forall_app. split; [done|]. by constructor.
Qed.

Lemma normalize_clean (l acc : list string) :
  Forall (fun x => x <> "..") acc ->
  Forall (fun x => x <> "..") (fold_left Path.normalize_step l acc).
Proof.
  revert acc. induction l as [|c l IH]; intros acc Hacc; cbn; [done|].
  apply IH. by apply normalize_step_clean.
Qed.

Lemma normalize_fixed (l acc : list string) :
  Forall (fun x => x <> "..") l -> fold_left Path.normalize_step l acc = acc ++ l.
Proof.
  revert acc. induction l as [|c l IH]; intros acc Hl; cbn.
  - by rewrite app_nil_r.
  - apply Forall_cons in Hl as [Hc Hl]. rewrite (IH _ Hl).
    unfold Path.normalize_step. destruct (String.eqb_spec c ".."); [done|].
    by rewrite <- app_assoc.
Qed.

Lemma removelast_clean (l : list string) :
  Forall (fun x => x <> "..") l -> Forall (fun x => x <> "..") (removelast l).
Proof.
  intros Hl. destruct (decide (l = [])) as [->|Hne]; [done|].
  rewrite (app_removelast_last EmptyString Hne) in Hl.
  by apply Forall_app in Hl as [? _].
Qed.

Context {E : Env}.

(** A resolved path leads to its own components, and its parent to those
    but the last. *)
Lemma location_resolved (p : Path.t) :
  location (Path.resolve cwd p) = Path.parts (Path.resolve cwd p).
Proof.
  unfold location, Path.resolve. cbn [Path.is_absolute Path.parts app].
  unfold Path.normalize at 1. rewrite normalize_fixed; [done|].
  by apply normalize_clean.
Qed.

Lemma location_parent_resolved (p : Path.t) :
  location (Path.parent (Path.resolve cwd p)) = removelast (Path.parts (Path.resolve cwd p)).
Proof.
  unfold location, Path.parent, Path.resolve. cbn [Path.is_absolute Path.parts app].
  unfold Path.normalize at 1. rewrite normalize_fixed; [done|].
  apply removelast_clean. by apply normalize_clean.
Qed.

Lemma write_file_target_resolved (workdir : Path.t) (tc : ToolCall) (target : Path.t) :
  write_file_target workdir tc = Some target -> exists p, target = Path.resolve cwd p.
Proof.
  unfold write_file_target. repeat case_match; try done; intros [= <-]; eauto.
Qed.

Lemma ancestors_prefixed (pre l a : list string) :
  a ∈ FS.ancestors pre l -> exists k suffix, k <> [] /\ l = k ++ suffix /\ a = pre ++ k.
Proof.
  revert pre. induction l as [|c l IH]; intros pre; cbn; [by intros ?%elem_of_nil|].
  intros [->|Ha]%elem_of_cons.
  - by exists [c], l.
  - apply IH in Ha as (k & suffix & Hk & -> & ->).
    exists (c :: k), suffix. by rewrite <- app_assoc.
Qed.

Lemma add_dirs_elsewhere (chain : list (list string)) (f : FS.t) (d : list string) :
  d ∉ chain -> fold_left FS.add_dir chain f !! d = f !! d.
Proof.
  revert f. induction chain as [|a chain IH]; intros f Hd; cbn; [done|].
  apply not_elem_of_cons in Hd as [Hne Hd]. rewrite (IH _ Hd).
  unfold FS.add_dir. destruct (f !! a); [done|]. by rewrite lookup_insert_ne.
Qed.

Lemma mkdir_spares (f f' : FS.t) (l d : list string) :
  Path.is_prefix d l = false -> FSOps.mkdir os_error f l = Ok f' -> f' !! d = f !! d.
Proof.
  intros Hd. unfold FSOps.mkdir. repeat case_match; try done; intros [= <-].
  apply add_dirs_elsewhere. intros (k & suffix & _ & -> & Hdk)%ancestors_prefixed.
  cbn in Hdk. subst d. assert (Path.is_prefix k (k ++ suffix) = true); [|congruence].
  apply is_prefix_spec. eauto.
Qed.

Lemma write_text_spares (f f' : FS.t) (l d : list string) (text : string) :
  Path.is_prefix d l = false -> FSOps.write_text os_error f l text = Ok f' ->
  f' !! d = f !! d.
Proof.
  intros Hd. unfold FSOps.write_text. repeat case_match; try done; intros [= <-].
  apply lookup_insert_ne. intros <-. by rewrite is_prefix_refl in Hd.
Qed.

End PathFacts.

(** ** C8: the test generator and the deliverable *)

Section Deliverable.
Context {E : Env}.

Lemma spares_may_write (deliverable : list string) (workdir : Path.t) (tc : ToolCall) :
  spares deliverable workdir tc ->
  function_name tc = "write_file" ->
  may_write (fun l => Path.is_prefix deliverable l = false) workdir tc.
Proof.
  intros Hspares Hname target Htarget.
  pose proof (Hspares Hname target Htarget) as Hno.
  apply write_file_target_resolved in Htarget as [p ->].
  rewrite location_resolved, location_parent_resolved. split; [done|].
  destruct (Path.is_prefix deliverable (removelast _)) eqn:Hpre; [|done].
  apply is_prefix_removelast in Hpre. congruence.
Qed.

(** C8, amended.  [TestGenerator.execute] leaves the node at the
    deliverable path as it is, whatever the endpoint answers, provided
    that no [write_file] call the endpoint issues resolves to the
    deliverable path or below it and that no shell command changes what
    is there.  The tools themselves do not refuse such a call. *)
Theorem test_generator_spares_deliverable (self : TestGenerator.t)
  (deliverable : list string) (tc : ToolCall) (step_num : Z)
  (task_name task_description : string) (s : State) :
  (forall earlier agent messages tools reply,
     chat_completions_create earlier agent messages tools = inr reply ->
     Forall (spares deliverable (WriteFileTool.workdir (TestGenerator.write_file_tool self)))
       (calls_of reply)) ->
  (forall workdir cmd f, (subprocess_run workdir cmd f).2 !! deliverable = f !! deliverable) ->
  fs (TestGenerator.execute self tc step_num task_name task_description s).2 !! deliverable
  = fs s !! deliverable.
Proof.
  intros Hcalls Hshell.
  assert (Hk : keeps (fun s' => fs s' !! deliverable = fs s !! deliverable)
                 (fun _ => True) caught
                 (TestGenerator.execute self tc step_num task_name task_description)).
  { eapply keeps_testgen_execute
      with (allowed := fun _ => True)
           (fs_rel := fun f f' : FS.t => f' !! deliverable = f !! deliverable)
           (safe := fun l => Path.is_prefix deliverable l = false)
           (call_ok := spares deliverable
                         (WriteFileTool.workdir (TestGenerator.write_file_tool self)));
      try done.
    - intros s' f Hs' Hf. cbn [fs set_fs]. congruence.
    - intros f l f' Hsafe Hmk. by eapply mkdir_spares.
    - intros f l text f' Hsafe Hw. by eapply write_text_spares.
    - intros call Hok Hname. by apply spares_may_write. }
  exact (proj1 (Hk s eq_refl)).
Qed.

End Deliverable.

(** The test generator is told to write its harness; the solver is left
    as it was. *)
Lemma test_generator_spares_deliverable_witness :
  let env := Demo.env [inr (Demo.calling Demo.harness_turn); inr (Demo.plain "harness written")] in
  let s := Demo.state Demo.ready_solver in
  let request := Demo.call "call_0" "call_testgen"
                   (Some (Demo.object [("solver_path", "results/t/solver.py")])) in
  fs (TestGenerator.execute (E := env) Demo.tester request 1 "t" "d" s).2
    !! ["work"; "results"; "t"; "solver.py"]
  = fs s !! ["work"; "results"; "t"; "solver.py"].
Proof.
  cbn zeta.
  apply (test_generator_spares_deliverable
           (E := Demo.env [inr (Demo.calling Demo.harness_turn);
                           inr (Demo.plain "harness written")])).
  - intros earlier agent messages tools reply Hreply. unfold chat_completions_create in Hreply.
    cbn [Demo.env] in Hreply. unfold Demo.scripted in Hreply.
    destruct earlier as [|e0 [|e1 earlier]]; cbn in Hreply; injection Hreply as <-.
    + repeat constructor; intros Hname target Htarget; vm_compute in Htarget;
        [injection Htarget as <-; reflexivity | discriminate].
    + constructor.
    + constructor.
  - intros workdir cmd f. cbn. unfold Demo.shell. by destruct (String.prefix _ _).
Defined.

(** C8 fails as stated: the endpoint asks the test generator's
    [write_file] tool to write the solver path, and the solver is
    overwritten. *)
Lemma test_generator_overwrites_deliverable :
  let overwrite := Demo.call "call_1" "write_file"
      (Some (Demo.object [("path", "results/t/solver.py"); ("content", "raise SystemExit");
                          ("action", "replace the solver")])) in
  let env := Demo.env [inr (Demo.calling [overwrite]); inr (Demo.plain "done")] in
  let s := Demo.state Demo.ready_solver in
  let request := Demo.call "call_0" "call_testgen"
                   (Some (Demo.object [("solver_path", "results/t/solver.py")])) in
  fs s !! ["work"; "results"; "t"; "solver.py"]
    = Some (FS.File "def solve(problem): return problem")
  /\ fs (TestGenerator.execute (E := env) Demo.tester request 1 "t" "d" s).2
       !! ["work"; "results"; "t"; "solver.py"]
     = Some (FS.File "raise SystemExit").
Proof. split; vm_compute; reflexivity. Qed.

(** * Further properties of the code *)

(** ** More facts about strings *)

Lemma append_nil_r (s : string) : s +:+ EmptyString = s.
Proof. induction s as [|c s IH]; [done|]. by rewrite append_cons, IH. Qed.

Lemma length_append (a b : string) :
  String.length (a +:+ b) = (String.length a + String.length b)%nat.
Proof. induction a as [|c a IH]; [done|]. rewrite append_cons. cbn. by rewrite IH. Qed.

Lemma length_substring (s : string) :
  forall i n, String.length (String.substring i n s) = Nat.min n (String.length s - i).
Proof.
  induction s as [|c s IH]; intros i n.
  - destruct i, n; cbn; lia.
  - destruct i as [|i].
    + destruct n as [|n]; [done|]. cbn. rewrite IH. lia.
    + cbn. by rewrite IH.
Qed.

Lemma join_cons (sep x : string) (l : list string) :
  Py.join sep (x :: l) = match l with [] => x | _ => x +:+ sep +:+ Py.join sep l end.
Proof. by destruct l. Qed.

Lemma prefix_cons (a b : ascii) (p s : string) :
  String.prefix (String a p) (String b s)
  = if Ascii.eqb a b then String.prefix p s else false.
Proof.
  change (String.prefix (String a p) (String b s))
    with (if ascii_dec a b then String.prefix p s else false).
  destruct (ascii_dec a b) as [->|Hab].
  - by rewrite Ascii.eqb_refl.
  - apply Ascii.eqb_neq in Hab. by rewrite Hab.
Qed.

Lemma contains_cons (p : string) (c : ascii) (s : string) :
  contains p (String c s) = String.prefix p (String c s) || contains p s.
Proof. reflexivity. Qed.

(** ** Components of paths *)

Section Components.

Lemma component_no_slash (x : string) : is_component x = true -> contains "/" x = false.
Proof. unfold is_component. intros H. apply andb_prop in H as [_ H]. by apply negb_true_iff. Qed.

Lemma component_kept (x : string) : is_component x = true -> Path.keep_part x = true.
Proof. unfold is_component. intros H. by apply andb_prop in H as [? _]. Qed.

Lemma no_slash_head (x rest : string) :
  x <> EmptyString -> contains "/" x = false -> String.prefix "/" (x +:+ rest) = false.
Proof.
  destruct x as [|c x]; [done|]. intros _ H. rewrite contains_cons in H.
  apply orb_false_iff in H as [H _]. rewrite prefix_cons in H.
  rewrite append_cons, prefix_cons. destruct (Ascii.eqb "/" c); [|done].
  by rewrite prefix_nil in H.
Qed.

Lemma component_nonempty (x : string) : is_component x = true -> x <> EmptyString.
Proof. by intros H ->. Qed.

Lemma component_not_dot_slash (x rest : string) :
  is_component x = true -> String.prefix "./" (x +:+ rest) = false.
Proof.
  unfold is_component, Path.keep_part. intros H.
  destruct x as [|c x]; [done|].
  apply andb_prop in H as [H Hslash]. apply andb_prop in H as [_ Hdot].
  rewrite append_cons, prefix_cons.
  destruct (Ascii.eqb "." c) eqn:Hc; [|done]. apply Ascii.eqb_eq in Hc as <-.
  destruct x as [|d x]; [done|].
  rewrite append_cons, prefix_cons.
  destruct (Ascii.eqb "/" d) eqn:Hd; [|done]. apply Ascii.eqb_eq in Hd as <-.
  exfalso. revert Hslash. rewrite !contains_cons, !prefix_cons. cbn. by destruct x.
Qed.

Lemma split_slash_app (x : string) :
  contains "/" x = false ->
  forall cur rest, Path.split_slash cur (x +:+ rest) = Path.split_slash (cur +:+ x) rest.
Proof.
  induction x as [|c x IH]; intros Hx cur rest.
  - by rewrite append_nil, append_nil_r.
  - rewrite contains_cons in Hx. apply orb_false_iff in Hx as [Hc Hx].
    rewrite prefix_cons, prefix_nil in Hc.
    rewrite append_cons. cbn [Path.split_slash].
    destruct (Ascii.eqb c "/") eqn:Hc'.
    + apply Ascii.eqb_eq in Hc' as ->. by rewrite Ascii.eqb_refl in Hc.
    + rewrite (IH Hx). f_equal. by rewrite app_assoc_str.
Qed.

Lemma split_slash_join (l : list string) :
  forallb is_component l = true ->
  forall cur x, Path.split_slash cur (Py.join "/" (x :: l)) =
                if decide (contains "/" x = false) then (cur +:+ x) :: l
                else Path.split_slash cur (Py.join "/" (x :: l)).
Proof.
  induction l as [|y l IH]; intros Hl cur x; destruct (decide _) as [Hx|]; try done.
  - rewrite join_cons. pose proof (split_slash_app x Hx cur EmptyString) as H.
    by rewrite append_nil_r in H.
  - cbn [forallb] in Hl. apply andb_prop in Hl as [Hy Hl].
    rewrite join_cons, (split_slash_app x Hx).
    change ("/" +:+ Py.join "/" (y :: l)) with (String "/" (Py.join "/" (y :: l))).
    cbn [Path.split_slash]. rewrite Ascii.eqb_refl. f_equal.
    rewrite (IH Hl). rewrite decide_True; [done|]. by apply component_no_slash.
Qed.

Lemma filter_components (l : list string) :
  forallb is_component l = true -> List.filter Path.keep_part l = l.
Proof.
  induction l as [|x l IH]; [done|]. cbn. intros H. apply andb_prop in H as [Hx Hl].
  by rewrite (component_kept x Hx), (IH Hl).
Qed.

(** Reading back what [as_posix] prints gives the path again. *)
Lemma of_string_as_posix (p : Path.t) :
  clean p = true -> Path.of_string (Path.as_posix p) = p.
Proof.
  destruct p as [abs l]. unfold clean, Path.as_posix, Path.of_string.
  cbn [Path.parts Path.is_absolute]. intros Hl. destruct abs.
  - change ("/" +:+ Py.join "/" l) with (String "/" (Py.join "/" l)).
    rewrite prefix_cons. cbn [Ascii.eqb Bool.eqb]. rewrite prefix_nil.
    cbn [Path.split_slash]. rewrite Ascii.eqb_refl. f_equal.
    destruct l as [|x l]; [done|].
    cbn [forallb] in Hl. apply andb_prop in Hl as [Hx Hl].
    rewrite (split_slash_join l Hl), decide_True by by apply component_no_slash.
    cbn [List.filter]. rewrite append_nil.
    change (Path.keep_part EmptyString) with false. cbn [List.filter].
    by rewrite (component_kept x Hx), (filter_components l Hl).
  - destruct l as [|x l]; [done|].
    cbn [forallb] in Hl. apply andb_prop in Hl as [Hx Hl].
    f_equal.
    + rewrite join_cons. destruct l.
      * pose proof (no_slash_head x EmptyString (component_nonempty x Hx)
                      (component_no_slash x Hx)) as H.
        by rewrite append_nil_r in H.
      * apply no_slash_head; [by apply component_nonempty | by apply component_no_slash].
    + rewrite (split_slash_join l Hl), decide_True by by apply component_no_slash.
      rewrite append_nil. cbn [List.filter].
      by rewrite (component_kept x Hx), (filter_components l Hl).
Qed.

Lemma as_posix_not_dotted (p : Path.t) :
  clean p = true -> String.prefix "./" (Path.as_posix p) = false.
Proof.
  destruct p as [abs l]. unfold clean, Path.as_posix.
  cbn [Path.parts Path.is_absolute]. intros Hl. destruct abs.
  - change ("/" +:+ Py.join "/" l) with (String "/" (Py.join "/" l)).
    by rewrite prefix_cons.
  - destruct l as [|x l]; [done|].
    cbn [forallb] in Hl. apply andb_prop in Hl as [Hx _].
    rewrite join_cons. destruct l.
    + pose proof (component_not_dot_slash x EmptyString Hx) as H.
      by rewrite append_nil_r in H.
    + by apply component_not_dot_slash.
Qed.

Lemma forallb_drop {A} (f : A -> bool) (n : nat) (l : list A) :
  forallb f l = true -> forallb f (drop n l) = true.
Proof.
  revert n. induction l as [|x l IH]; intros [|n] H; try done.
  cbn in H. apply andb_prop in H as [_ H]. by apply IH.
Qed.

Lemma relative_to_clean (p base rel : Path.t) :
  clean p = true -> Path.relative_to p base = Ok rel ->
  clean rel = true /\ Path.is_absolute rel = false.
Proof.
  unfold Path.relative_to, clean. intros Hp H. case_match; [|done].
  injection H as <-. split; [|done]. by apply forallb_drop.
Qed.

End Components.

(** ** The interpreter command and the paths shown in the prompts *)

Section ShownPaths.
Context {E : Env}.

Lemma normalize_step_components (acc : list string) (c : string) :
  forallb is_component acc = true -> is_component c = true ->
  forallb is_component (Path.normalize_step acc c) = true.
Proof.
  intros Hacc Hc. unfold Path.normalize_step. destruct (String.eqb c "..").
  - destruct (decide (acc = [])) as [->|Hne]; [done|].
    rewrite (app_removelast_last EmptyString Hne), forallb_app in Hacc.
    by apply andb_prop in Hacc as [? _].
  - rewrite forallb_app. cbn. by rewrite Hacc, Hc.
Qed.

Lemma normalize_components (l acc : list string) :
  forallb is_component acc = true -> forallb is_component l = true ->
  forallb is_component (fold_left Path.normalize_step l acc) = true.
Proof.
  revert acc. induction l as [|c l IH]; intros acc Hacc Hl; [done|].
  cbn in Hl. apply andb_prop in Hl as [Hc Hl]. cbn [fold_left].
  apply IH; [by apply normalize_step_components | done].
Qed.

Lemma resolve_clean (p : Path.t) :
  forallb is_component cwd = true -> clean p = true -> clean (Path.resolve cwd p) = true.
Proof.
  intros Hcwd Hp. unfold clean, Path.resolve, Path.normalize. cbn [Path.parts].
  apply normalize_components; [done|]. rewrite forallb_app.
  unfold clean in Hp. rewrite Hp, andb_true_r. destruct (Path.is_absolute p); [done | exact Hcwd].
Qed.

Lemma resolve_resolved (p : Path.t) :
  Path.resolve cwd (Path.resolve cwd p) = Path.resolve cwd p.
Proof.
  unfold Path.resolve. cbn [Path.is_absolute Path.parts app]. f_equal.
  unfold Path.normalize at 1. rewrite normalize_fixed; [done|].
  by apply normalize_clean.
Qed.

Lemma as_posix_relative (p : Path.t) :
  clean p = true -> Path.is_absolute p = false -> String.prefix "/" (Path.as_posix p) = false.
Proof.
  intros Hp Hrel.
  pose proof (f_equal Path.is_absolute (of_string_as_posix p Hp)) as H.
  unfold Path.of_string in H. cbn [Path.is_absolute] in H. by rewrite H.
Qed.

(** The branch of [_build_python_cmd] that is to put [./] in front changes
    nothing, since joining a path to [Path(".")] gives the path itself:
    the command is the interpreter's path relative to the working
    directory when it lies there, and the path as given otherwise, and it
    never starts with [./]. *)
Theorem build_python_cmd_plain (workdir python_path : Path.t) :
  MultiAgent._build_python_cmd workdir python_path
  = match Path.relative_to python_path workdir with
    | Ok rel => Path.as_posix rel
    | Raise _ => Path.as_posix python_path
    end
  /\ (clean python_path = true ->
      String.prefix "./" (MultiAgent._build_python_cmd workdir python_path) = false).
Proof.
  assert (MultiAgent._build_python_cmd workdir python_path
          = match Path.relative_to python_path workdir with
            | Ok rel => Path.as_posix rel
            | Raise _ => Path.as_posix python_path
            end) as Hcmd.
  { unfold MultiAgent._build_python_cmd.
    destruct (Path.relative_to python_path workdir) as [rel|] eqn:Hrel; [|done].
    destruct (negb _); [|done]. f_equal.
    unfold Path.relative_to in Hrel. case_match; [|done]. by injection Hrel as <-. }
  split; [done|]. intros Hclean. rewrite Hcmd.
  destruct (Path.relative_to python_path workdir) as [rel|] eqn:Hrel.
  - apply as_posix_not_dotted. by apply (relative_to_clean _ _ _ Hclean Hrel).
  - by apply as_posix_not_dotted.
Qed.

Lemma shown_leads_back (base target : Path.t) :
  Path.is_absolute base = true -> Path.is_absolute target = true -> clean target = true ->
  let shown := match Path.relative_to target base with
               | Ok rel => Path.as_posix rel
               | Raise _ => Path.as_posix target
               end in
  Path.joinpath base (Path.of_string shown) = target
  /\ String.prefix "/" shown = negb (inside base target).
Proof.
  intros Hbase Htarget Hclean. unfold inside. cbn zeta.
  destruct (Path.relative_to target base) as [rel|] eqn:Hrel.
  - destruct (relative_to_clean _ _ _ Hclean Hrel) as [Hrel_clean Hrelative].
    rewrite (of_string_as_posix rel Hrel_clean). split; [|by apply as_posix_relative].
    unfold Path.relative_to in Hrel. case_match eqn:Hin; [|done].
    injection Hrel as <-. apply andb_prop in Hin as [_ Hin].
    apply is_prefix_spec in Hin as [k Hk].
    destruct target as [tabs tparts], base as [babs bparts]. cbn in *. subst.
    unfold Path.joinpath. cbn. by rewrite drop_app_length.
  - rewrite (of_string_as_posix _ Hclean). split; [by unfold Path.joinpath; rewrite Htarget|].
    destruct target as [[] tparts]; [|discriminate].
    unfold Path.as_posix. cbn [Path.is_absolute Path.parts].
    change ("/" +:+ Py.join "/" tparts) with (String "/" (Py.join "/" tparts)).
    by rewrite prefix_cons, prefix_nil.
Qed.

(** The path a prompt shows for a target, read as [write_file] reads a
    path (against the working directory), leads back to the target; it is
    absolute exactly when the target lies outside the working directory. *)
Theorem rel_path_leads_back (workdir target : Path.t) :
  forallb is_component cwd = true -> clean workdir = true -> clean target = true ->
  let shown := rel_path workdir target in
  let base := Path.resolve cwd workdir in
  Path.resolve cwd (Path.joinpath base (Path.of_string shown)) = Path.resolve cwd target
  /\ String.prefix "/" shown = negb (inside base (Path.resolve cwd target))
  /\ forall (tool_call : ToolCall) (raw : string) (args : list (string * json)),
       function_arguments tool_call = Some raw ->
       json_loads raw = inr (JDict args) ->
       dict_get "path" args = Some (JStr shown) ->
       write_file_target base tool_call = Some (Path.resolve cwd target).
Proof.
  intros Hcwd Hw Ht shown base.
  pose proof (resolve_clean target Hcwd Ht) as HT.
  destruct (shown_leads_back base (Path.resolve cwd target) eq_refl eq_refl HT)
    as [Hback Habs].
  change (match Path.relative_to (Path.resolve cwd target) base with
          | Ok rel => Path.as_posix rel
          | Raise _ => Path.as_posix (Path.resolve cwd target)
          end) with shown in Hback, Habs.
  split; [by rewrite Hback, resolve_resolved|]. split; [done|].
  intros tc raw args Hraw Hargs Hpath. unfold write_file_target.
  rewrite Hraw, Hargs, Hpath. f_equal.
  rewrite <- (resolve_resolved target), <- Hback. f_equal.
  unfold Path.joinpath. by destruct (Path.is_absolute (Path.of_string shown)).
Qed.

End ShownPaths.

Lemma build_python_cmd_plain_witness :
  MultiAgent._build_python_cmd Demo.workdir (Path.of_string "/work/venv/bin/python")
  = "venv/bin/python"
  /\ String.prefix "./"
       (MultiAgent._build_python_cmd Demo.workdir (Path.of_string "/work/venv/bin/python"))
     = false.
Proof.
  destruct (build_python_cmd_plain Demo.workdir (Path.of_string "/work/venv/bin/python"))
    as [Hcmd Hplain].
  split; [by rewrite Hcmd | by apply Hplain].
Defined.

Lemma rel_path_leads_back_witness :
  rel_path (E := Demo.env []) Demo.workdir Demo.solver = "results/t/solver.py"
  /\ write_file_target (E := Demo.env []) (Path.resolve ["work"] Demo.workdir)
       (Demo.call "call_1" "write_file"
          (Some (Demo.object [("path", "results/t/solver.py"); ("content", "x")])))
     = Some (Path.resolve ["work"] Demo.solver).
Proof.
  destruct (rel_path_leads_back (E := Demo.env []) Demo.workdir Demo.solver)
    as (_ & _ & Hwrite); [done..|].
  split; [done|]. by eapply Hwrite.
Defined.

(** ** Previews of long texts *)

Section Previews.

Lemma all_chars_app (p : ascii -> bool) (a b : string) :
  all_chars p (a +:+ b) = all_chars p a && all_chars p b.
Proof.
  induction a as [|c a IH]; [done|]. rewrite append_cons. cbn. by rewrite IH, andb_assoc.
Qed.

Lemma all_chars_substring (p : ascii -> bool) (s : string) :
  all_chars p s = true -> forall i n, all_chars p (String.substring i n s) = true.
Proof.
  induction s as [|c s IH]; intros Hs i n.
  - by destruct i, n.
  - cbn in Hs. apply andb_prop in Hs as [Hc Hs]. destruct i as [|i].
    + destruct n as [|n]; [done|]. cbn. by rewrite Hc, (IH Hs).
    + cbn. by apply IH.
Qed.

Lemma all_chars_weaken (p q : ascii -> bool) (s : string) :
  (forall c, p c = true -> q c = true) -> all_chars p s = true -> all_chars q s = true.
Proof.
  intros Hpq. induction s as [|c s IH]; [done|]. cbn. intros H.
  apply andb_prop in H as [Hc Hs]. by rewrite (Hpq c Hc), (IH Hs).
Qed.

Lemma split_ws_words (s : string) :
  forall cur,
    all_chars (fun c => negb (is_space c)) cur = true ->
    forallb (all_chars (fun c => negb (is_space c))) (split_ws cur s) = true.
Proof.
  induction s as [|c s IH]; intros cur Hcur; cbn [split_ws].
  - destruct (nonempty cur); cbn; by rewrite ?Hcur.
  - destruct (is_space c) eqn:Hc.
    + destruct (nonempty cur); cbn [forallb]; rewrite ?Hcur; by apply IH.
    + apply IH. rewrite all_chars_app. cbn. by rewrite Hcur, Hc.
Qed.

Lemma join_plain (l : list string) :
  forallb (all_chars (fun c => negb (is_space c))) l = true ->
  all_chars plain_char (Py.join " " l) = true.
Proof.
  induction l as [|x l IH]; [done|]. cbn [forallb]. intros H.
  apply andb_prop in H as [Hx Hl]. rewrite join_cons.
  assert (all_chars plain_char x = true) as Hx'.
  { apply (all_chars_weaken _ _ _ (fun c Hc => orb_true_intro _ _ (or_introl Hc)) Hx). }
  destruct l as [|y l]; [done|].
  rewrite !all_chars_app, Hx', (IH Hl). reflexivity.
Qed.

Lemma substring_all (s : string) : String.substring 0 (String.length s) s = s.
Proof. induction s as [|c s IH]; [done|]. cbn. by rewrite IH. Qed.

(** A preview is cut down to the first and the last [max_len // 2]
    characters of the compacted text with three dots in between, which is
    up to three characters more than [max_len]; below a [max_len] of 2
    nothing is cut off at all. *)
Theorem shorten_length (text : string) (max_len : Z) :
  let compact := Py.join " " (Py.split text) in
  let out := _shorten (Some text) max_len in
  (Z.of_nat (String.length compact) <= max_len -> out = compact)
  /\ (max_len < Z.of_nat (String.length compact) -> 2 <= max_len ->
      Z.of_nat (String.length out) = 2 * (max_len / 2) + 3)
  /\ (max_len < Z.of_nat (String.length compact) -> 0 <= max_len < 2 ->
      out = "..." +:+ compact).
Proof.
  intros compact out. subst out. unfold _shorten. fold compact.
  split; [|split].
  - intros Hle. by rewrite (proj2 (Z.leb_le _ _) Hle).
  - intros Hlt Hmax. rewrite (proj2 (Z.leb_gt _ _) Hlt).
    assert (1 <= max_len / 2) by (apply Z.div_le_lower_bound; lia).
    assert (2 * (max_len / 2) <= max_len) by (apply Z.mul_div_le; lia).
    rewrite !length_append. unfold slice_to, slice_from, slice_index.
    rewrite !length_substring.
    destruct (max_len / 2 <? 0) eqn:Hneg; [apply Z.ltb_lt in Hneg; lia|].
    destruct (- (max_len / 2) <? 0) eqn:Hpos; [|apply Z.ltb_ge in Hpos; lia].
    cbn [String.length]. lia.
  - intros Hlt Hmax. rewrite (proj2 (Z.leb_gt _ _) Hlt).
    assert (max_len / 2 = 0) as -> by (apply Z.div_small; lia).
    unfold slice_to, slice_from, slice_index.
    change (- 0) with 0. change (0 <? 0) with false.
    rewrite !Z.min_r by lia. change (Z.to_nat 0) with 0%nat.
    rewrite Nat.sub_0_r, substring_all. by destruct compact.
Qed.

(** A preview stays on one line: whatever the text and the bound, it holds
    no blank other than plain spaces. *)
Theorem shorten_one_line (value : option string) (max_len : Z) :
  all_chars plain_char (_shorten value max_len) = true.
Proof.
  destruct value as [text|]; [|done]. unfold _shorten.
  assert (all_chars plain_char (Py.join " " (Py.split text)) = true) as Hplain.
  { apply join_plain. by apply split_ws_words. }
  destruct (_ <=? _); [done|].
  rewrite !all_chars_app. unfold slice_to, slice_from.
  by rewrite !all_chars_substring.
Qed.

End Previews.

Lemma shorten_length_witness :
  _shorten (Some ("ls   -la" +:+ nl +:+ "  results/t")) 160 = "ls -la results/t"
  /\ Z.of_nat (String.length (_shorten (Some "python harness.py results/t/solver.py") 10)) = 13
  /\ _shorten (Some "abc") 1 = "...abc".
Proof.
  split; [|split].
  - by apply (shorten_length ("ls   -la" +:+ nl +:+ "  results/t") 160).
  - by apply (shorten_length "python harness.py results/t/solver.py" 10).
  - by apply (shorten_length "abc" 1).
Defined.

(** ** What a file write leaves behind *)

Section FileWrites.
Context {E : Env}.

Lemma add_dirs_lookup (chain : list (list string)) :
  forall (f : FS.t) (d : list string),
    fold_left FS.add_dir chain f !! d = f !! d
    \/ (f !! d = None /\ d ∈ chain /\ fold_left FS.add_dir chain f !! d = Some FS.Dir).
Proof.
  induction chain as [|a chain IH]; intros f d; [by left|]. cbn [fold_left].
  destruct (IH (FS.add_dir f a) d) as [Hsame|(Hnone & Hin & Hdir)].
  - rewrite Hsame. unfold FS.add_dir. destruct (f !! a) eqn:Ha; [by left|].
    destruct (decide (a = d)) as [->|Hne].
    + right. rewrite lookup_insert_eq. split; [done|]. split; [apply list_elem_of_here | done].
    + left. by rewrite lookup_insert_ne.
  - right. split; [|split; [by apply list_elem_of_further | done]].
    revert Hnone. unfold FS.add_dir. destruct (f !! a) eqn:Ha; [done|].
    destruct (decide (a = d)) as [->|Hne]; [by rewrite lookup_insert_eq|].
    by rewrite lookup_insert_ne.
Qed.


(** What the guarded part of [WriteFileTool.execute] comes to: an error
    before anything is done, an error after the directories were made, or
    the file written. *)
Lemma write_outcomes (self : WriteFileTool.t) (target : Path.t) (content_arg : json)
  (s : State) :
  let target' := Path.resolve cwd target in
  let out := try_except (WriteFileTool.write self target content_arg) is_Exception
               (fun exc => mret ("Error writing file: " +:+ str_of exc)) s in
  (exists msg, out = (Ok ("Error writing file: " +:+ msg), s))
  \/ (exists f1 msg,
        FSOps.mkdir os_error (fs s) (location (Path.parent target')) = Ok f1
        /\ inside (WriteFileTool.workdir self) target' = true
        /\ out = (Ok ("Error writing file: " +:+ msg), set_fs f1 s))
  \/ (exists f1 f2 text rel,
        content_arg = JStr text
        /\ FSOps.mkdir os_error (fs s) (location (Path.parent target')) = Ok f1
        /\ FSOps.write_text os_error f1 (location target') text = Ok f2
        /\ Path.relative_to target' (WriteFileTool.workdir self) = Ok rel
        /\ out = (Ok ("Wrote " +:+ str_Z (Z.of_nat (String.length text)) +:+ " bytes to "
                        +:+ Path.as_posix rel), set_fs f2 s)).
Proof.
  cbn zeta. unfold inside, try_except, WriteFileTool.write, of_result, Path_mkdir, Path_write_text.
  unfold mbind, M_bind, mret, M_ret, raise.
  destruct (Path.relative_to _ _) as [rel|exc] eqn:Hrel.
  2:{ left. pose proof (relative_to_result (Path.resolve cwd target) (WriteFileTool.workdir self)) as H.
      rewrite Hrel in H. unfold caught in H. rewrite H. by eexists. }
  destruct (FSOps.mkdir _ _ _) as [f1|exc] eqn:Hmkdir.
  2:{ left. rewrite (mkdir_raises_OSError _ _ _ Hmkdir). by eexists. }
  destruct content_arg as [| | | |text| |];
    try (right; left; exists f1; eexists; split; [reflexivity | split; reflexivity]).
  cbn [fs set_fs].
  destruct (FSOps.write_text _ _ _ _) as [f2|exc] eqn:Hwrite.
  2:{ right; left. rewrite (write_text_raises_OSError _ _ _ _ Hwrite).
      exists f1. by eexists. }
  right; right. by exists f1, f2, text, rel.
Qed.

(** The calls that reach the guarded part. *)
Lemma write_file_execute_inv (self : WriteFileTool.t) (tool_call : ToolCall)
  (step_num : Z) (s : State) :
  (exists e, WriteFileTool.execute self tool_call step_num s = (Raise e, s))
  \/ (exists msg, WriteFileTool.execute self tool_call step_num s = (Ok msg, s)
         /\ String.prefix "Error: " msg = true)
  \/ (exists raw args path content_arg,
         function_arguments tool_call = Some raw
         /\ json_loads raw = inr (JDict args)
         /\ dict_get "path" args = Some (JStr path)
         /\ dict_get "content" args = Some content_arg
         /\ truthy content_arg = true
         /\ WriteFileTool.execute self tool_call step_num s
            = try_except
                (WriteFileTool.write self
                   (if Path.is_absolute (Path.of_string path) then Path.of_string path
                    else Path.joinpath (WriteFileTool.workdir self) (Path.of_string path))
                   content_arg)
                is_Exception (fun exc => mret ("Error writing file: " +:+ str_of exc)) s).
Proof.
  unfold WriteFileTool.execute.
  destruct (function_arguments tool_call) as [raw|]; [|left; by eexists].
  destruct (json_loads raw) as [exc|args] eqn:Hargs.
  { right; left. eexists. split; [reflexivity | by apply prefix_app_l]. }
  destruct args as [| | | | |?|args];
    try (right; left; eexists; split; [reflexivity | reflexivity]).
  destruct (given (dict_get "path" args)) eqn:Hpath; cbn [negb];
    [|right; left; eexists; split; [reflexivity | reflexivity]].
  destruct (given (dict_get "content" args)) eqn:Hcontent; cbn [negb];
    [|right; left; eexists; split; [reflexivity | reflexivity]].
  destruct (given (dict_get "action" args)) eqn:Haction; cbn [negb];
    [|right; left; eexists; split; [reflexivity | reflexivity]].
  destruct (dict_get "path" args) as [[| | | |path| |]|] eqn:Hp;
    try (left; by eexists).
  destruct (dict_get "content" args) as [content_arg|] eqn:Hc; [|discriminate].
  right; right. exists raw, args, path, content_arg. by rewrite Hargs.
Qed.


Lemma mkdir_ok (f f' : FS.t) (l : list string) :
  FSOps.mkdir os_error f l = Ok f' -> f' = fold_left FS.add_dir (FS.ancestors [] l) f.
Proof. unfold FSOps.mkdir. intros H. repeat case_match; congruence. Qed.

Lemma write_text_ok (f f' : FS.t) (l : list string) (text : string) :
  FSOps.write_text os_error f l text = Ok f' -> f' = <[l := FS.File text]> f.
Proof. unfold FSOps.write_text. intros H. repeat case_match; congruence. Qed.

Lemma prefix_weaken (a b msg : string) :
  String.prefix (a +:+ b) msg = true -> String.prefix a msg = true.
Proof.
  revert msg. induction a as [|c a IH]; intros msg; [by rewrite prefix_nil|].
  rewrite append_cons. destruct msg as [|x msg]; [done|]. rewrite !prefix_cons.
  destruct (Ascii.eqb c x); [apply IH | done].
Qed.

Lemma error_not_wrote (msg : string) :
  String.prefix "Error" msg = true -> String.prefix "Wrote " msg = false.
Proof.
  destruct msg as [|c msg]; [done|]. rewrite !prefix_cons.
  destruct (Ascii.eqb "E" c) eqn:Hc; [|done]. by apply Ascii.eqb_eq in Hc as <-.
Qed.

Lemma write_file_target_of (self : WriteFileTool.t) (tool_call : ToolCall)
  (raw : string) (args : list (string * json)) (path : string) :
  function_arguments tool_call = Some raw ->
  json_loads raw = inr (JDict args) ->
  dict_get "path" args = Some (JStr path) ->
  write_file_target (WriteFileTool.workdir self) tool_call
  = Some (Path.resolve cwd
            (if Path.is_absolute (Path.of_string path) then Path.of_string path
             else Path.joinpath (WriteFileTool.workdir self) (Path.of_string path))).
Proof. intros Hraw Hargs Hpath. unfold write_file_target. by rewrite Hraw, Hargs, Hpath. Qed.

(** An answer of [write_file] that starts with [Wrote] tells the truth:
    the call named a path inside the working directory and a text that is
    not empty, the file at that path now holds exactly that text, and the
    answer gives its length and the path relative to the working
    directory.  Every other answer starts with [Error]. *)
Theorem write_file_report (self : WriteFileTool.t) (tool_call : ToolCall) (step_num : Z)
  (s : State) (msg : string) :
  let out := WriteFileTool.execute self tool_call step_num s in
  out.1 = Ok msg ->
  (String.prefix "Wrote " msg = true \/ String.prefix "Error" msg = true)
  /\ (String.prefix "Wrote " msg = true ->
      exists target text rel,
        write_file_target (WriteFileTool.workdir self) tool_call = Some target
        /\ write_file_content tool_call = Some text
        /\ text <> EmptyString
        /\ fs out.2 !! Path.parts target = Some (FS.File text)
        /\ Path.relative_to target (WriteFileTool.workdir self) = Ok rel
        /\ msg = "Wrote " +:+ str_Z (Z.of_nat (String.length text)) +:+ " bytes to "
                   +:+ Path.as_posix rel).
Proof.
  cbn zeta.
  destruct (write_file_execute_inv self tool_call step_num s)
    as [[e Hrun]|[(msg' & Hrun & Herr)|(raw & args & path & content_arg & Hraw & Hargs
                                          & Hpath & Hcontent & Htruthy & Hrun)]];
    rewrite Hrun; cbn [fst snd]; [done| |].
  - intros [= <-]. pose proof (prefix_weaken "Error" ": " msg' Herr) as Herr'.
    split; [by right|]. by rewrite (error_not_wrote _ Herr').
  - set (target := if Path.is_absolute (Path.of_string path) then _ else _).
    destruct (write_outcomes self target content_arg s)
      as [[m ->]|[(f1 & m & _ & _ & ->)|(f1 & f2 & text & rel & -> & Hmkdir & Hwrite
                                           & Hrel & ->)]]; cbn [fst snd]; intros [= <-].
    + assert (String.prefix "Error" ("Error writing file: " +:+ m) = true) as Herr
        by by apply prefix_app_l.
      split; [by right|]. by rewrite (error_not_wrote _ Herr).
    + assert (String.prefix "Error" ("Error writing file: " +:+ m) = true) as Herr
        by by apply prefix_app_l.
      split; [by right|]. by rewrite (error_not_wrote _ Herr).
    + split; [left; apply prefix_app|]. intros _.
      exists (Path.resolve cwd target), text, rel.
      split; [by apply (write_file_target_of self tool_call raw args path)|].
      split; [unfold write_file_content; by rewrite Hraw, Hargs, Hcontent|].
      split; [by intros ->|]. split; [|done].
      rewrite (write_text_ok _ _ _ _ Hwrite), location_resolved. cbn [fs set_fs].
      apply lookup_insert_eq.
Qed.

(** A [write_file] call touches the file system in two places only: the
    path it names, which lies inside the working directory, and the
    directories on the way to that path that were missing, which may come
    into being.  Every other entry stays as it was, whatever the answer.
    What the named path holds afterwards is said only of the calls that
    answer [Wrote], by [write_file_report]: nothing is said here of a
    write that fails. *)
Theorem write_file_frame (self : WriteFileTool.t) (tool_call : ToolCall) (step_num : Z)
  (s : State) (d : list string) :
  let out := WriteFileTool.execute self tool_call step_num s in
  fs out.2 !! d = fs s !! d
  \/ exists target,
       write_file_target (WriteFileTool.workdir self) tool_call = Some target
       /\ inside (WriteFileTool.workdir self) target = true
       /\ (d = Path.parts target
           \/ (fs s !! d = None /\ fs out.2 !! d = Some FS.Dir
               /\ Path.is_prefix d (removelast (Path.parts target)) = true)).
Proof.
  cbn zeta.
  destruct (write_file_execute_inv self tool_call step_num s)
    as [[e Hrun]|[(msg' & Hrun & Herr)|(raw & args & path & content_arg & Hraw & Hargs
                                          & Hpath & Hcontent & Htruthy & Hrun)]];
    rewrite Hrun; cbn [fst snd]; [by left..|].
  set (target := if Path.is_absolute (Path.of_string path) then _ else _).
  pose proof (write_file_target_of self tool_call raw args path Hraw Hargs Hpath) as Htarget.
  fold target in Htarget.
  assert (forall f1,
            FSOps.mkdir os_error (fs s) (location (Path.parent (Path.resolve cwd target))) = Ok f1 ->
            f1 !! d = fs s !! d
            \/ (fs s !! d = None /\ f1 !! d = Some FS.Dir
                /\ Path.is_prefix d (removelast (Path.parts (Path.resolve cwd target))) = true))
    as Hdirs.
  { intros f1 Hmkdir. rewrite (mkdir_ok _ _ _ Hmkdir).
    destruct (add_dirs_lookup
                (FS.ancestors [] (location (Path.parent (Path.resolve cwd target)))) (fs s) d)
      as [Hsame|(Hnone & Hin & Hdir)]; [by left|]. right. split; [done|]. split; [done|].
    apply ancestors_prefixed in Hin as (k & suffix & _ & Hl & ->).
    rewrite <- location_parent_resolved, Hl. apply is_prefix_spec. by exists suffix. }
  destruct (write_outcomes self target content_arg s)
    as [[m ->]|[(f1 & m & Hmkdir & Hin & ->)|(f1 & f2 & text & rel & -> & Hmkdir & Hwrite
                                               & Hrel & ->)]]; cbn [fst snd fs set_fs].
  - by left.
  - destruct (Hdirs f1 Hmkdir) as [Hsame|Hdir]; [by left|].
    right. exists (Path.resolve cwd target). split; [done|]. split; [done|]. by right.
  - assert (inside (WriteFileTool.workdir self) (Path.resolve cwd target) = true) as Hin
      by (unfold inside; by rewrite Hrel).
    rewrite (write_text_ok _ _ _ _ Hwrite), location_resolved.
    destruct (decide (Path.parts (Path.resolve cwd target) = d)) as [<-|Hne].
    + right. exists (Path.resolve cwd target). split; [done|]. split; [done|]. by left.
    + rewrite lookup_insert_ne by done.
      destruct (Hdirs f1 Hmkdir) as [Hsame|Hdir]; [by left|].
      right. exists (Path.resolve cwd target). split; [done|]. split; [done|]. by right.
Qed.

End FileWrites.

(** The harness written into the run directory. *)
Lemma write_file_report_witness :
  let call := Demo.call "call_1" "write_file"
      (Some (Demo.object [("path", "harness.py"); ("content", "import solver");
                          ("action", "write the harness")])) in
  let out := WriteFileTool.execute (E := Demo.env []) Demo.writer call 1
               (Demo.state Demo.empty_dir) in
  out.1 = Ok "Wrote 13 bytes to harness.py"
  /\ exists target text rel,
       write_file_target (E := Demo.env []) Demo.workdir call = Some target
       /\ write_file_content (E := Demo.env []) call = Some text
       /\ text <> EmptyString
       /\ fs out.2 !! Path.parts target = Some (FS.File text)
       /\ Path.relative_to target Demo.workdir = Ok rel
       /\ "Wrote 13 bytes to harness.py"
          = "Wrote " +:+ str_Z (Z.of_nat (String.length text)) +:+ " bytes to "
              +:+ Path.as_posix rel.
Proof.
  cbn zeta. split; [reflexivity|].
  by apply (write_file_report (E := Demo.env []) Demo.writer
              (Demo.call "call_1" "write_file"
                 (Some (Demo.object [("path", "harness.py"); ("content", "import solver");
                                     ("action", "write the harness")])))
              1 (Demo.state Demo.empty_dir) "Wrote 13 bytes to harness.py").
Defined.

(** ** What [run_shell] answers *)

Section ShellAnswers.
Context {E : Env}.

(** A [run_shell] call with a command and an action is answered with what
    the command printed followed by its exit code.  The command runs in
    the resolved working directory, as it was given; a command of blanks
    is not run at all; one that runs into the limit of 60 seconds or
    cannot be started is reported with exit code -1.  Without an action
    the command is not run. *)
Theorem run_shell_answer (workdir : Path.t) (tool_call : ToolCall) (step_num : Z) (s : State)
  (raw : string) (args : list (string * json)) (cmd : string) :
  function_arguments tool_call = Some raw ->
  json_loads raw = inr (JDict args) ->
  dict_get "cmd" args = Some (JStr cmd) ->
  cmd <> EmptyString ->
  let out := RunShellTool.execute (RunShellTool.make workdir) tool_call step_num s in
  (given (dict_get "action" args) = false ->
   out = (Ok "Error: Must include action in call to run_shell", s))
  /\ (given (dict_get "action" args) = true ->
      (strip cmd = EmptyString -> out = (Ok "Empty command (exit_code=-1)", s))
      /\ (strip cmd <> EmptyString ->
          match subprocess_run (Path.resolve cwd workdir) cmd (fs s) with
          | (Completed stdout returncode, f) =>
              out = (Ok (stdout +:+ " (exit_code=" +:+ str_Z returncode +:+ ")"), set_fs f s)
          | (TimedOut, f) =>
              out = (Ok "Command timed out after 60.0 seconds (exit_code=-1)", set_fs f s)
          | (SpawnFailed msg, f) =>
              out = (Ok (("Command execution failed: " +:+ msg) +:+ " (exit_code=-1)"),
                     set_fs f s)
          end)).
Proof.
  intros Hraw Hargs Hcmd Hne. cbn zeta. unfold RunShellTool.execute.
  rewrite Hraw, Hargs, Hcmd.
  assert (given (Some (JStr cmd)) = true) as ->.
  { cbn. destruct (String.eqb_spec cmd EmptyString); [done | reflexivity]. }
  cbn [negb]. split.
  - by intros ->.
  - intros ->. cbn [negb].
    unfold ShellInterface.run_command, RunShellTool.make. cbn [RunShellTool.shell].
    unfold ShellInterface.make. cbn [ShellInterface.workdir ShellInterface.timeout].
    unfold nonempty. split.
    + intros ->. reflexivity.
    + intros Hstrip. destruct (String.eqb_spec (strip cmd) EmptyString); [done|].
      cbn [negb]. unfold mbind, M_bind.
      by destruct (subprocess_run _ _ _) as [[stdout rc| |msg] f].
Qed.

End ShellAnswers.

Lemma run_shell_answer_witness :
  let s := Demo.state Demo.empty_dir in
  RunShellTool.execute (E := Demo.env []) (RunShellTool.make (E := Demo.env []) Demo.workdir)
    (Demo.call "call_1" "run_shell"
       (Some (Demo.object [("cmd", "sleep 90"); ("action", "wait")]))) 1 s
  = (Ok "Command timed out after 60.0 seconds (exit_code=-1)", s).
Proof.
  destruct (run_shell_answer (E := Demo.env []) Demo.workdir
              (Demo.call "call_1" "run_shell"
                 (Some (Demo.object [("cmd", "sleep 90"); ("action", "wait")])))
              1 (Demo.state Demo.empty_dir) _ _ "sleep 90" eq_refl eq_refl eq_refl)
    as [_ Hrun]; [done|].
  destruct (Hrun eq_refl) as [_ Hspawn]. by apply Hspawn.
Defined.

(** ** Commands of the shell interface *)

Section ShellCommands.
Context {E : Env} {L : Shlex}.

Lemma handle_write_file_raises (self : ShellInterface.t) (arg : string)
  (content : option string) (s : State) e st :
  ShellInterface._handle_write_file self arg content s = (Raise e, st) -> caught e.
Proof.
  unfold ShellInterface._handle_write_file.
  destruct (nonempty arg); cbn [negb]; [|done].
  destruct content as [text|]; [|done].
  destruct (Path.relative_to _ _); [|done].
  unfold mbind, M_bind, Path_mkdir, Path_write_text.
  destruct (FSOps.mkdir _ _ _) eqn:Hmkdir.
  - cbn [fs set_fs]. destruct (FSOps.write_text _ _ _ _) eqn:Hwrite; [done|].
    intros [= <- _]. by apply (write_text_raises_OSError _ _ _ _ Hwrite).
  - intros [= <- _]. by apply (mkdir_raises_OSError _ _ _ Hmkdir).
Qed.

(** [execute] answers instead of raising: a command of blanks and a
    command [shlex] cannot split are answered without running anything, a
    custom command that raises is answered with its failure, and so, as
    long as the custom commands raise nothing beyond [Exception], every
    call returns. *)
Theorem shell_execute_answers (self : ShellInterface.t)
  (commands : gmap string ShellInterface.Command) (cmd : string) (content : option string)
  (s : State) :
  let out := ShellInterface.execute self commands cmd content s in
  (strip cmd = EmptyString -> out = (Ok ("Empty command", -1), s))
  /\ (forall exc, strip cmd <> EmptyString -> shlex_split (strip cmd) = inl exc ->
      out = (Ok ("Command parse error: " +:+ exc, -1), s))
  /\ (forall name rest (handler : ShellInterface.Command) e st,
        strip cmd <> EmptyString ->
        shlex_split (strip cmd) = inr (name :: rest) ->
        commands !! name = Some handler ->
        handler (strip (slice_from (Z.of_nat (String.length name)) (strip cmd))) content s
        = (Raise e, st) ->
        caught e ->
        out = (Ok ("Custom command '" +:+ name +:+ "' failed: " +:+ str_of e, -1), st))
  /\ ((forall name (handler : ShellInterface.Command) arg s0 e st,
         commands !! name = Some handler -> handler arg content s0 = (Raise e, st) ->
         caught e) ->
      exists answer, out.1 = Ok answer).
Proof.
  cbn zeta. unfold ShellInterface.execute, nonempty.
  split; [|split; [|split]].
  - by intros ->.
  - intros exc Hne Hsplit. destruct (String.eqb_spec (strip cmd) EmptyString); [done|].
    cbn [negb]. by rewrite Hsplit.
  - intros name rest handler e st Hne Hsplit Hhandler Hrun He.
    destruct (String.eqb_spec (strip cmd) EmptyString); [done|].
    cbn [negb]. rewrite Hsplit, Hhandler. unfold try_except. rewrite Hrun.
    unfold caught in He. by rewrite He.
  - intros Hcaught. destruct (String.eqb_spec (strip cmd) EmptyString); cbn [negb];
      [by eexists|].
    destruct (shlex_split (strip cmd)) as [exc|[|name rest]]; [by eexists| |].
    + apply run_command_returns.
    + destruct (commands !! name) as [handler|] eqn:Hhandler; [|apply run_command_returns].
      unfold try_except.
      destruct (handler _ content s) as [[answer|e] st] eqn:Hrun; [by eexists|].
      pose proof (Hcaught _ _ _ _ _ _ Hhandler Hrun) as He. unfold caught in He.
      rewrite He. by eexists.
Qed.

(** The built-in [write_file] command reached through [execute] stays
    inside the working directory like the handler itself, and a failure of
    the operating system, which the handler lets escape, comes back as an
    answer. *)
Theorem shell_execute_write_file (self : ShellInterface.t) (cmd : string)
  (content : option string) (s : State) (rest : list string) :
  strip cmd <> EmptyString ->
  shlex_split (strip cmd) = inr ("write_file" :: rest) ->
  let arg := strip (slice_from 10 (strip cmd)) in
  let target := shell_write_target (ShellInterface.workdir self) arg in
  let out := ShellInterface.execute self (ShellInterface.initial self) cmd content s in
  (inside (ShellInterface.workdir self) target = false ->
   out.2 = s /\ exists msg, out.1 = Ok (msg, 1))
  /\ (fs out.2 <> fs s -> inside (ShellInterface.workdir self) target = true)
  /\ (exists answer, out.1 = Ok answer)
  /\ (forall e st,
        ShellInterface._handle_write_file self arg content s = (Raise e, st) ->
        out = (Ok ("Custom command 'write_file' failed: " +:+ str_of e, -1), st)).
Proof.
  intros Hne Hsplit. cbn zeta.
  assert (ShellInterface.execute self (ShellInterface.initial self) cmd content s
          = try_except
              (ShellInterface._handle_write_file self (strip (slice_from 10 (strip cmd))) content)
              is_Exception
              (fun exc => mret ("Custom command 'write_file' failed: " +:+ str_of exc, -1)) s)
    as ->.
  { unfold ShellInterface.execute, nonempty.
    destruct (String.eqb_spec (strip cmd) EmptyString); [done|].
    cbn [negb]. rewrite Hsplit. unfold ShellInterface.initial.
    by rewrite lookup_singleton_eq. }
  unfold try_except.
  destruct (ShellInterface._handle_write_file self _ content s) as [[answer|e] st] eqn:Hrun.
  - destruct (handle_write_file_cases self (strip (slice_from 10 (strip cmd))) content s)
      as [[msg Hmsg]|Hin].
    + rewrite Hrun in Hmsg. injection Hmsg as -> ->. cbn [fst snd].
      split; [eauto|]. split; [done|]. split; [by eexists | done].
    + cbn [fst snd]. split; [congruence|]. split; [done|]. split; [by eexists | done].
  - pose proof (handle_write_file_raises _ _ _ _ _ _ Hrun) as He. unfold caught in He.
    rewrite He.
    destruct (handle_write_file_cases self (strip (slice_from 10 (strip cmd))) content s)
      as [[msg Hmsg]|Hin]; [congruence|].
    cbn [fst snd]. split; [congruence|]. split; [done|]. split; [by eexists|].
    by intros e' st' [= <- <-].
Qed.

End ShellCommands.

(** A registered command that raises, and a command [shlex] would not
    have to split. *)
Lemma shell_execute_answers_witness :
  let shell := ShellInterface.make (E := Demo.env []) Demo.workdir "60.0" in
  let commands :=
    ShellInterface.register_custom_command (ShellInterface.initial (E := Demo.env []) shell)
      "research" (fun _ _ => raise (Exn McpError "unreachable")) in
  let s := Demo.state Demo.empty_dir in
  ShellInterface.execute (E := Demo.env []) (L := Fixtures.words) shell commands
    "  research numpy " None s
  = (Ok ("Custom command 'research' failed: unreachable", -1), s)
  /\ ShellInterface.execute (E := Demo.env []) (L := Fixtures.words) shell commands
       "   " None s
     = (Ok ("Empty command", -1), s).
Proof.
  cbn zeta.
  destruct (shell_execute_answers (E := Demo.env []) (L := Fixtures.words)
              (ShellInterface.make (E := Demo.env []) Demo.workdir "60.0")
              (ShellInterface.register_custom_command
                 (ShellInterface.initial (E := Demo.env [])
                    (ShellInterface.make (E := Demo.env []) Demo.workdir "60.0"))
                 "research" (fun _ _ => raise (Exn McpError "unreachable")))
              "  research numpy " None (Demo.state Demo.empty_dir))
    as (_ & _ & Hfails & _).
  destruct (shell_execute_answers (E := Demo.env []) (L := Fixtures.words)
              (ShellInterface.make (E := Demo.env []) Demo.workdir "60.0")
              (ShellInterface.register_custom_command
                 (ShellInterface.initial (E := Demo.env [])
                    (ShellInterface.make (E := Demo.env []) Demo.workdir "60.0"))
                 "research" (fun _ _ => raise (Exn McpError "unreachable")))
              "   " None (Demo.state Demo.empty_dir))
    as (Hblank & _).
  split; [|by apply Hblank].
  apply (Hfails "research" ["numpy"] (fun _ _ => raise (Exn McpError "unreachable"))
           (Exn McpError "unreachable") (Demo.state Demo.empty_dir));
    [done | reflexivity | apply lookup_insert_eq | reflexivity | reflexivity].
Defined.

(** A write aimed above the run directory, and one below a regular
    file. *)
Lemma shell_execute_write_file_witness :
  let shell := ShellInterface.make (E := Demo.env []) Demo.workdir "60.0" in
  let s := Demo.state Demo.ready_solver in
  (ShellInterface.execute (E := Demo.env []) (L := Fixtures.words) shell
     (ShellInterface.initial (E := Demo.env []) shell)
     "write_file ../etc/passwd" (Some "x") s).2 = s
  /\ ShellInterface.execute (E := Demo.env []) (L := Fixtures.words) shell
       (ShellInterface.initial (E := Demo.env []) shell)
       "write_file results/t/solver.py/notes.txt" (Some "x") s
     = (Ok ("Custom command 'write_file' failed: [Errno 17] File exists: '/work/results/t/solver.py'",
            -1), s).
Proof.
  cbn zeta.
  destruct (shell_execute_write_file (E := Demo.env []) (L := Fixtures.words)
              (ShellInterface.make (E := Demo.env []) Demo.workdir "60.0")
              "write_file ../etc/passwd" (Some "x") (Demo.state Demo.ready_solver)
              ["../etc/passwd"])
    as (Houtside & _); [done | reflexivity |].
  destruct (shell_execute_write_file (E := Demo.env []) (L := Fixtures.words)
              (ShellInterface.make (E := Demo.env []) Demo.workdir "60.0")
              "write_file results/t/solver.py/notes.txt" (Some "x")
              (Demo.state Demo.ready_solver) ["results/t/solver.py/notes.txt"])
    as (_ & _ & _ & Hfails); [done | reflexivity |].
  split; [by apply Houtside|].
  apply (Hfails (Exn OSError "[Errno 17] File exists: '/work/results/t/solver.py'")).
  reflexivity.
Defined.

(** ** The two ways to write a file *)

Section WriteSiblings.
Context {E : Env}.

(** [WriteFileTool.execute] and the [write_file] command of the shell
    interface, given the same path and text, leave the same world behind.
    When the command writes, the tool gives the same answer; what the
    command raises the tool answers as an error; and a target outside the
    working directory is refused by both.  They differ on an empty text:
    the tool refuses it before looking at the path, the command writes an
    empty file. *)
Theorem write_file_siblings (shell : ShellInterface.t) (tool : WriteFileTool.t)
  (tool_call : ToolCall) (step_num : Z) (s : State)
  (raw : string) (args : list (string * json)) (path text : string) :
  WriteFileTool.workdir tool = ShellInterface.workdir shell ->
  function_arguments tool_call = Some raw ->
  json_loads raw = inr (JDict args) ->
  dict_get "path" args = Some (JStr path) ->
  path <> EmptyString ->
  dict_get "content" args = Some (JStr text) ->
  given (dict_get "action" args) = true ->
  let command := ShellInterface._handle_write_file shell path (Some text) s in
  let call := WriteFileTool.execute tool tool_call step_num s in
  (text <> EmptyString ->
   call.2 = command.2
   /\ match command.1 with
      | Ok (msg, code) =>
          if code =? 0 then call.1 = Ok msg
          else exists reason, call.1 = Ok ("Error writing file: " +:+ reason)
      | Raise e => call.1 = Ok ("Error writing file: " +:+ str_of e)
      end)
  /\ (text = EmptyString ->
      call = (Ok "Error: Must include content in call to write_file", s)).
Proof.
  intros Hworkdir Hraw Hargs Hpath Hpath_ne Hcontent Haction. cbn zeta.
  unfold WriteFileTool.execute. rewrite Hraw, Hargs, Hpath, Hcontent, Haction.
  assert (given (Some (JStr path)) = true) as ->.
  { cbn. by destruct (String.eqb_spec path EmptyString). }
  cbn [negb]. split.
  - intros Htext.
    assert (given (Some (JStr text)) = true) as ->.
    { cbn. by destruct (String.eqb_spec text EmptyString). }
    cbn [negb]. unfold ShellInterface._handle_write_file, nonempty.
    destruct (String.eqb_spec path EmptyString); [done|]. cbn [negb].
    unfold try_except, WriteFileTool.write, of_result, Path_mkdir, Path_write_text.
    unfold mbind, M_bind, mret, M_ret. rewrite Hworkdir.
    destruct (Path.relative_to _ _) as [rel|exc] eqn:Hrel.
    2:{ pose proof (relative_to_result
                      (Path.resolve cwd
                         (if Path.is_absolute (Path.of_string path) then Path.of_string path
                          else Path.joinpath (ShellInterface.workdir shell) (Path.of_string path)))
                      (ShellInterface.workdir shell)) as H.
        rewrite Hrel in H. unfold caught in H. rewrite H. cbn. split; [done | by eexists]. }
    destruct (FSOps.mkdir _ _ _) as [f1|exc] eqn:Hmkdir.
    2:{ by rewrite (mkdir_raises_OSError _ _ _ Hmkdir). }
    cbn [fs set_fs].
    destruct (FSOps.write_text _ _ _ _) as [f2|exc] eqn:Hwrite.
    2:{ by rewrite (write_text_raises_OSError _ _ _ _ Hwrite). }
    done.
  - by intros ->.
Qed.

End WriteSiblings.

(** The same harness written both ways, and an empty file. *)
Lemma write_file_siblings_witness :
  let shell := ShellInterface.make (E := Demo.env []) Demo.workdir "60.0" in
  let s := Demo.state Demo.empty_dir in
  let harness := Demo.call "call_1" "write_file"
      (Some (Demo.object [("path", "harness.py"); ("content", "import solver");
                          ("action", "write the harness")])) in
  let empty_file := Demo.call "call_2" "write_file"
      (Some (Demo.object [("path", "harness.py"); ("content", EmptyString);
                          ("action", "start the harness")])) in
  WriteFileTool.execute (E := Demo.env []) Demo.writer harness 1 s
  = (Ok "Wrote 13 bytes to harness.py",
     (ShellInterface._handle_write_file (E := Demo.env []) shell "harness.py"
        (Some "import solver") s).2)
  /\ WriteFileTool.execute (E := Demo.env []) Demo.writer empty_file 1 s
     = (Ok "Error: Must include content in call to write_file", s)
  /\ fs (ShellInterface._handle_write_file (E := Demo.env []) shell "harness.py"
           (Some EmptyString) s).2 !! ["work"; "harness.py"]
     = Some (FS.File EmptyString).
Proof.
  cbn zeta.
  destruct (write_file_siblings (E := Demo.env [])
              (ShellInterface.make (E := Demo.env []) Demo.workdir "60.0") Demo.writer
              (Demo.call "call_1" "write_file"
                 (Some (Demo.object [("path", "harness.py"); ("content", "import solver");
                                     ("action", "write the harness")])))
              1 (Demo.state Demo.empty_dir) _ _ "harness.py" "import solver"
              eq_refl eq_refl eq_refl eq_refl) as [Hsame _]; [done | reflexivity | reflexivity |].
  destruct (write_file_siblings (E := Demo.env [])
              (ShellInterface.make (E := Demo.env []) Demo.workdir "60.0") Demo.writer
              (Demo.call "call_2" "write_file"
                 (Some (Demo.object [("path", "harness.py"); ("content", EmptyString);
                                     ("action", "start the harness")])))
              1 (Demo.state Demo.empty_dir) _ _ "harness.py" EmptyString
              eq_refl eq_refl eq_refl eq_refl) as [_ Hempty]; [done | reflexivity | reflexivity |].
  split; [|split; [by apply Hempty | reflexivity]].
  destruct Hsame as [Hstate Hanswer]; [done|].
  apply injective_projections; [exact Hanswer | exact Hstate].
Defined.

(** ** What each sub-agent changes in the world *)

Section SubAgents.
Context {E : Env}.

Lemma gained_refl (agent other : string) (s : State) : gained agent other s s.
Proof. exists []. by rewrite app_nil_r. Qed.

Lemma gained_exchange (agent other : string) (s x : State) (e : Exchange) :
  gained agent other s x -> ex_agent e = agent \/ ex_agent e = other ->
  gained agent other s (add_exchange e x).
Proof.
  intros [new [Hnew Hall]] He. exists (new ++ [e]). cbn. rewrite Hnew, <- app_assoc.
  split; [done|]. apply Forall_app. split; [done | by apply Forall_singleton].
Qed.

(** The researcher only talks: it leaves the file system, the solver
    paths and the test generator's history as they are, every request it
    adds is made in its own name, and the calls to the documentation
    service are only added to. *)
Theorem researcher_only_talks (self : ResearcherTool.t) (tool_call : ToolCall)
  (step_num : Z) (s : State) :
  let s' := (ResearcherTool.execute self tool_call step_num s).2 in
  fs s' = fs s
  /\ coder_solver_path s' = coder_solver_path s
  /\ testgen_solver_path s' = testgen_solver_path s
  /\ testgen_history s' = testgen_history s
  /\ (exists new, exchanges s' = exchanges s ++ new
                  /\ Forall (fun e => ex_agent e = "researcher") new)
  /\ exists calls, mcp_calls s' = mcp_calls s ++ calls.
Proof.
  cbn zeta.
  assert (keeps (fun x => fs x = fs s
                          /\ coder_solver_path x = coder_solver_path s
                          /\ testgen_solver_path x = testgen_solver_path s
                          /\ testgen_history x = testgen_history s
                          /\ gained "researcher" "researcher" s x
                          /\ exists calls, mcp_calls x = mcp_calls s ++ calls)
            (fun text => nonempty text = true) caught
            (ResearcherTool.execute self tool_call step_num)) as Hk.
  { eapply keeps_researcher_execute
      with (allowed := fun a => a = "researcher") (call_ok := fun _ => True); try done.
    - intros x e (? & ? & ? & ? & Hgained & ?) He. repeat (split; [done|]).
      split; [apply gained_exchange; auto | done].
    - intros x c (? & ? & ? & ? & ? & calls & Hcalls). repeat (split; [done|]).
      exists (calls ++ [c]). cbn. by rewrite Hcalls, <- app_assoc.
    - intros. by apply Forall_true. }
  destruct (Hk s) as [(Hfs & Hcoder & Hpath & Hhistory & (new & Hnew & Hall) & Hcalls) _].
  { repeat (split; [done|]). split; [apply gained_refl|]. exists []. by rewrite app_nil_r. }
  repeat (split; [done|]). split; [|done]. exists new. split; [done|].
  eapply Forall_impl; [exact Hall|]. by intros e [?|?].
Qed.

(** The test generator leaves the coder's solver path alone, so that the
    completion check keeps looking where the coder wrote, whatever
    [solver_path] the test generator is given; it makes no call to the
    documentation service, and every request it adds is made in its own
    name. *)
Theorem test_generator_keeps_to_itself (self : TestGenerator.t) (tool_call : ToolCall)
  (step_num : Z) (task_name task_description : string) (s : State) :
  let s' := (TestGenerator.execute self tool_call step_num task_name task_description s).2 in
  coder_solver_path s' = coder_solver_path s
  /\ mcp_calls s' = mcp_calls s
  /\ exists new, exchanges s' = exchanges s ++ new
                 /\ Forall (fun e => ex_agent e = "test_generator") new.
Proof.
  cbn zeta.
  assert (keeps (fun x => coder_solver_path x = coder_solver_path s
                          /\ mcp_calls x = mcp_calls s
                          /\ gained "test_generator" "test_generator" s x)
            (fun _ => True) caught
            (TestGenerator.execute self tool_call step_num task_name task_description)) as Hk.
  { eapply keeps_testgen_execute
      with (allowed := fun a => a = "test_generator") (fs_rel := fun _ _ => True)
           (safe := fun _ => True) (call_ok := fun _ => True); try done.
    - intros x e (? & ? & Hgained) He. repeat (split; [done|]).
      apply gained_exchange; auto.
    - intros. by apply Forall_true. }
  destruct (Hk s) as [(Hcoder & Hcalls & (new & Hnew & Hall)) _].
  { repeat (split; [done|]). apply gained_refl. }
  repeat (split; [done|]). exists new. split; [done|].
  eapply Forall_impl; [exact Hall|]. by intros e [?|?].
Qed.

End SubAgents.

(** ** Where the coder is sent *)

Section CoderTarget.
Context {E : Env}.

Lemma coder_run_keeps_path (self : CoderTool.t) (prompt : string) (step_num : Z)
  (target : Path.t) :
  keeps (fun x => coder_solver_path x = target) (fun _ => True) caught
    (ToolChatAgent.run (CoderTool.agent self) prompt step_num).
Proof.
  unfold ToolChatAgent.run. apply keeps_with_local.
  eapply keeps_tool_chat_run_on
    with (Inv := fun x => coder_solver_path x = target)
         (allowed := fun _ => True) (call_ok := fun _ => True); try done.
  - intros. by apply Forall_true.
  - intros tc handler _ Hh. apply coder_handlers in Hh as [-> | [-> | ->]].
    + by eapply keeps_write_file with (fs_rel := fun _ _ => True) (safe := fun _ => True).
    + by eapply keeps_run_shell with (fs_rel := fun _ _ => True).
    + unfold CoderTool.call_researcher.
      destruct (CoderTool.researcher_tool self); [|by keeps_step].
      eapply keeps_weaken;
        [eapply keeps_researcher_execute
           with (allowed := fun _ => True) (call_ok := fun _ => True); try done;
         intros; by apply Forall_true
        | done | done].
Qed.

(** A call to the coder with an approach moves the solver path before the
    coder makes its first request: to the output path of the call, read
    against the directory of the solver path so far when it is relative
    and taken as it stands when it is absolute, or to the solver path so
    far when the call names none.  A call that returns its text has moved
    the path, and the path stays the new one however the coder's own loop
    ends.  The path is left where it was only when the call raises before
    any request is made, which is what happens when the directory of the
    new path cannot be made; nothing is said of the directories such a
    call leaves behind. *)
Theorem coder_retargets (self : CoderTool.t) (tool_call : ToolCall) (step_num : Z)
  (task_name task_description : string) (s : State)
  (args : list (string * json)) (approach : string) (output : option string) :
  json_loads (str_or (function_arguments tool_call) "{}") = inr (JDict args) ->
  dict_get "approach" args = Some (JStr approach) ->
  strip approach <> EmptyString ->
  dict_get "output_path" args = option_map JStr output ->
  let current := coder_solver_path s in
  let chosen := match output with
                | Some p => if nonempty p then Path.of_string p else current
                | None => current
                end in
  let target := if Path.is_absolute chosen then chosen
                else Path.resolve cwd (Path.joinpath (Path.parent current) chosen) in
  let out := CoderTool.execute self tool_call step_num task_name task_description s in
  (forall text, out.1 = Ok text -> coder_solver_path out.2 = target)
  /\ (coder_solver_path out.2 = target
      \/ (coder_solver_path out.2 = current
          /\ exchanges out.2 = exchanges s
          /\ exists e, out.1 = Raise e)).
Proof.
  intros Hargs Happroach Hstrip Houtput. cbn zeta.
  set (chosen := match output with
                 | Some p => if nonempty p then Path.of_string p else coder_solver_path s
                 | None => coder_solver_path s
                 end).
  set (target := if Path.is_absolute chosen then chosen
                 else Path.resolve cwd (Path.joinpath (Path.parent (coder_solver_path s)) chosen)).
  unfold CoderTool.execute. rewrite Hargs. cbn [as_dict].
  erewrite bind_ok; [|reflexivity]. rewrite Happroach. cbn [default method_strip].
  erewrite bind_ok; [|reflexivity].
  assert (nonempty (strip approach) = true) as ->.
  { unfold nonempty. by destruct (String.eqb_spec (strip approach) EmptyString). }
  cbn [negb]. erewrite bind_ok; [|reflexivity].
  erewrite (bind_ok _ _ s chosen s).
  2:{ rewrite Houtput. subst chosen. destruct output as [p|]; [|reflexivity].
      cbn [option_map given truthy default]. unfold nonempty.
      by destruct (negb (String.eqb p EmptyString)). }
  fold target.
  destruct (FSOps.mkdir os_error (fs s) (location (Path.parent target))) as [f1|e] eqn:Hmkdir.
  - erewrite bind_ok; [|unfold Path_mkdir; by rewrite Hmkdir].
    erewrite bind_ok; [|reflexivity].
    match goal with
    | |- context [coder_solver_path (?c ?s1).2] =>
        assert (keeps (fun x => coder_solver_path x = target) (fun _ => True) caught c) as Hk;
        [|assert (coder_solver_path (c s1).2 = target) as Hmoved by (by apply Hk)]
    end.
    { keeps_step; [apply coder_run_keeps_path|].
      keeps_step; [apply keeps_Path_exists|]. by keeps_step. }
    split; [done | by left].
  - erewrite bind_raise; [|unfold Path_mkdir; by rewrite Hmkdir]. cbn [fst snd].
    split; [done|]. right. split; [done|]. split; [done|]. by exists e.
Qed.

(** Besides, the coder leaves the test generator's solver path and history
    alone, and every request it adds is the coder's or the
    researcher's. *)
Theorem coder_keeps_to_itself (self : CoderTool.t) (tool_call : ToolCall) (step_num : Z)
  (task_name task_description : string) (s : State) :
  let s' := (CoderTool.execute self tool_call step_num task_name task_description s).2 in
  testgen_solver_path s' = testgen_solver_path s
  /\ testgen_history s' = testgen_history s
  /\ gained "coder" "researcher" s s'.
Proof.
  cbn zeta.
  assert (keeps (fun x => testgen_solver_path x = testgen_solver_path s
                          /\ testgen_history x = testgen_history s
                          /\ gained "coder" "researcher" s x)
            (fun _ => True) caught
            (CoderTool.execute self tool_call step_num task_name task_description)) as Hk.
  { eapply keeps_coder_execute
      with (allowed := fun a => a = "coder" \/ a = "researcher") (fs_rel := fun _ _ => True)
           (safe := fun _ => True) (call_ok := fun _ => True); try done; try auto.
    - intros x e (? & ? & Hgained) He. repeat (split; [done|]).
      by apply gained_exchange.
    - intros. by apply Forall_true. }
  apply Hk. repeat (split; [done|]). apply gained_refl.
Qed.

End CoderTarget.

(** The coder sent to a file next to the solver. *)
Lemma coder_retargets_witness :
  coder_solver_path
    (CoderTool.execute (E := Demo.env []) Demo.coder
       (Demo.call "call_1" "call_coder"
          (Some (Demo.object [("approach", "use numpy"); ("output_path", "fast/solver.py")])))
       1 "t" "d" (Demo.state Demo.empty_dir)).2
  = Path.of_string "/work/results/t/fast/solver.py".
Proof.
  pose proof (coder_retargets (E := Demo.env []) Demo.coder
                (Demo.call "call_1" "call_coder"
                   (Some (Demo.object [("approach", "use numpy");
                                       ("output_path", "fast/solver.py")])))
                1 "t" "d" (Demo.state Demo.empty_dir)
                [("approach", JStr "use numpy"); ("output_path", JStr "fast/solver.py")]
                "use numpy" (Some "fast/solver.py") eq_refl eq_refl) as H.
  cbn zeta in H. destruct (H ltac:(done) eq_refl) as [Hreturned _].
  eapply Hreturned. vm_compute. reflexivity.
Defined.

(** ** What the sub-agents are shown *)

Section Transcripts.
Context {E : Env}.

Lemma range_cons (a b : Z) : a < b -> range a b = a :: range (a + 1) b.
Proof.
  intros Hab. unfold range.
  replace (Z.to_nat (b - a)) with (S (Z.to_nat (b - (a + 1)))) by lia.
  cbn [seq map]. f_equal; [lia|]. rewrite <- seq_shift, map_map.
  apply map_ext. intros i. lia.
Qed.

(** The first request of a run of a [ToolChatAgent] carries the messages
    the run was given followed by the system prompt. *)
Lemma run_on_first_request (self : ToolChatAgent.t) (system_prompt : string) (step_num : Z)
  (msgs : list Message) (s : State) :
  handlers_keep_requests self ->
  1 <= ToolChatAgent.max_steps self ->
  exists e more,
    requests_of (ToolChatAgent.name self)
      (ToolChatAgent.run_on self system_prompt step_num (msgs, s)).2.2
    = requests_of (ToolChatAgent.name self) s ++ e :: more
    /\ ex_messages e = msgs ++ [text_message developer system_prompt].
Proof.
  intros Hkeep Hmax. unfold ToolChatAgent.run_on.
  erewrite bind_ok; [|reflexivity].
  rewrite (range_cons 1) by lia. cbn [for_].
  set (msgs1 := msgs ++ [text_message developer system_prompt]).
  destruct (step_request self step_num 1 msgs1 s Hkeep) as (e & Hreq & Hmsgs & _).
  cbn zeta in Hreq.
  unfold mbind, M_bind.
  change ((msgs, s).1 ++ [text_message developer system_prompt], (msgs, s).2)
    with (msgs1, s).
  destruct (ToolChatAgent.step self step_num 1 (msgs1, s)) as [[c|exc] [msgs2 s2]] eqn:Hstep;
    cbn [fst snd] in Hreq.
  2:{ exists e, []. by split. }
  destruct c as [|text].
  - destruct (loop_requests self step_num (range (1 + 1) (ToolChatAgent.max_steps self + 1))
                Hkeep msgs2 s2) as (more & Hmore & _).
    cbn zeta in Hmore. exists e, more. split; [|done].
    destruct (for_ _ _ (msgs2, s2)) as [[r|exc] [msgs3 s3]]; unfold mret, M_ret;
      cbn [fst snd] in *; by rewrite Hmore, Hreq, <- app_assoc.
  - exists e, []. by split.
Qed.

(** A run of a [ToolChatAgent] only adds to the messages it was given,
    the system prompt first. *)
Lemma run_on_extends (self : ToolChatAgent.t) (system_prompt : string) (step_num : Z)
  (msgs : list Message) (s : State) :
  exists later,
    (ToolChatAgent.run_on self system_prompt step_num (msgs, s)).2.1
    = msgs ++ text_message developer system_prompt :: later.
Proof.
  set (J := fun ls : list Message * State =>
              exists later, ls.1 = msgs ++ text_message developer system_prompt :: later).
  assert (forall m, keeps J (fun _ : unit => True) (fun _ => True) (append m)) as Happend.
  { intros m. apply keeps_append. intros ms x [later Hms]. exists (later ++ [m]). cbn in *.
    rewrite Hms, <- app_assoc. reflexivity. }
  assert (forall A (c : M State A),
            keeps J (fun _ : A => True) (fun _ => True) (lift c)) as Hlift.
  { intros A c. apply (keeps_lift_local (fun ms => exists later, ms = msgs ++ _ :: later)). }
  unfold ToolChatAgent.run_on.
  erewrite bind_ok; [|reflexivity].
  match goal with
  | |- exists later, (?c ?st).2.1 = _ =>
      assert (keeps J (fun _ => True) (fun _ => True) c) as Hk; [|apply (Hk st); by exists []]
  end.
  keeps_step; [|by keeps_step].
  apply keeps_for. intros inner_step _. unfold ToolChatAgent.step.
  keeps_step; [apply keeps_get_local|].
  keeps_step; [apply Hlift|].
  destruct (has_tool_calls _).
  - keeps_step; [apply Happend|].
    keeps_step; [|by keeps_step].
    apply keeps_for. intros tc _. unfold ToolChatAgent.call_tool.
    keeps_step; [|keeps_step; [apply Happend | by keeps_step]].
    destruct (_ !! _); [apply Hlift | by keeps_step].
  - keeps_step; [apply Happend|]. by keeps_step.
Qed.

End Transcripts.

Section Memory.
Context {E : Env}.

Lemma bind_ret_state {S A B} (c : M S A) (f : A -> B) (s : S) :
  ((c ≫= fun a => mret (f a)) s).2 = (c s).2.
Proof. unfold mbind, M_bind. by destruct (c s) as [[a|e] s']. Qed.

Lemma testgen_run_state (self : TestGenerator.t) (prompt : string) (step_num : Z)
  (s : State) :
  let out := with_object testgen_history set_testgen_history
               (ToolChatAgent.run_on (TestGenerator.agent self) prompt step_num) s in
  (exists later, testgen_history out.2
                 = testgen_history s ++ text_message developer prompt :: later)
  /\ testgen_solver_path out.2 = testgen_solver_path s
  /\ (1 <= TestGenerator.max_steps self ->
      exists e more,
        requests_of "test_generator" out.2 = requests_of "test_generator" s ++ e :: more
        /\ ex_messages e = testgen_history s ++ [text_message developer prompt]).
Proof.
  cbn zeta. unfold with_object.
  pose proof (run_on_extends (TestGenerator.agent self) prompt step_num
                (testgen_history s) s) as [later Hlater].
  pose proof (run_on_first_request (TestGenerator.agent self) prompt step_num
                (testgen_history s) s (proj2 repository_agents_keep_requests self)) as Hfirst.
  assert (keeps (fun ls : list Message * State => testgen_solver_path ls.2 = testgen_solver_path s)
            (fun _ => True) caught
            (ToolChatAgent.run_on (TestGenerator.agent self) prompt step_num)) as Hpath.
  { eapply keeps_testgen_run_on
      with (Inv := fun x => testgen_solver_path x = testgen_solver_path s)
           (allowed := fun _ => True) (fs_rel := fun _ _ => True)
           (safe := fun _ => True) (call_ok := fun _ => True); try done.
    intros. by apply Forall_true. }
  specialize (Hpath (testgen_history s, s) eq_refl) as [Hpath _].
  destruct (ToolChatAgent.run_on _ _ _ (testgen_history s, s)) as [r [l x]].
  cbn [fst snd] in *. split; [by exists later|]. split; [done|].
  intros Hmax. destruct (Hfirst Hmax) as (e & more & Hreq & Hmsgs). by exists e, more.
Qed.

(** The test generator remembers: whatever a call to it does, its history
    is only added to.  A call that names a solver path sets the test
    generator's solver path to it, read against the working directory when
    it is relative; the history gains the prompt of this call and what
    follows it; and the first request of the call carries the whole
    history of the earlier calls before that prompt. *)
Theorem test_generator_remembers (self : TestGenerator.t) (tool_call : ToolCall)
  (step_num : Z) (task_name task_description : string) (s : State) :
  let out := TestGenerator.execute self tool_call step_num task_name task_description s in
  (exists new, testgen_history out.2 = testgen_history s ++ new)
  /\ (forall (members : list (string * json)) (path : string) (directions : option string),
        json_loads (str_or (function_arguments tool_call) "{}") = inr (JDict members) ->
        dict_get "solver_path" members = Some (JStr path) ->
        strip path <> EmptyString ->
        dict_get "directions" members = option_map JStr directions ->
        let target := if Path.is_absolute (Path.of_string path) then Path.of_string path
                      else Path.resolve cwd
                             (Path.joinpath (TestGenerator.workdir self) (Path.of_string path)) in
        testgen_solver_path out.2 = target
        /\ exists prompt later,
             testgen_history out.2
             = testgen_history s ++ text_message developer prompt :: later
             /\ (1 <= TestGenerator.max_steps self ->
                 exists e more,
                   requests_of "test_generator" out.2
                   = requests_of "test_generator" s ++ e :: more
                   /\ ex_messages e = testgen_history s ++ [text_message developer prompt])).
Proof.
  cbn zeta. split.
  - assert (keeps (fun x => exists new, testgen_history x = testgen_history s ++ new)
              (fun _ => True) (fun _ => True)
              (TestGenerator.execute self tool_call step_num task_name task_description))
      as Hk; [|apply Hk; exists []; by rewrite app_nil_r].
    unfold TestGenerator.execute.
    destruct (json_loads _) as [exc|parsed]; [by keeps_step|].
    keeps_step; [by apply keeps_of_result with (Q := fun _ => True); destruct (as_dict _)|].
    keeps_step.
    { destruct (given _); [|by keeps_step].
      by apply keeps_of_result with (Q := fun _ => True); destruct (method_strip _). }
    destruct (dict_get "solver_path" _) as [[| | | |path| |]|]; try by keeps_step.
    destruct (negb _); [by keeps_step|].
    keeps_step; [by apply keeps_modify|].
    eapply keeps_bind with (Q1 := fun _ => True); [|intros ? ?; by keeps_step].
    intros x [new Hx].
    match goal with
    | |- context [with_object _ _ (ToolChatAgent.run_on _ ?prompt _) x] =>
        destruct (testgen_run_state self prompt step_num x) as [[later Hlater] _]
    end.
    split; [|by destruct (with_object _ _ _ x).1].
    rewrite Hlater, Hx, <- app_assoc. by eexists.
  - intros members path directions Hargs Hpath Hstrip Hdirections.
    unfold TestGenerator.execute. rewrite Hargs. cbn [as_dict].
    erewrite bind_ok; [|reflexivity]. rewrite Hpath, Hdirections.
    erewrite (bind_ok _ _ s
                (match directions with
                 | Some d => if nonempty d then strip d else strip EmptyString
                 | None => strip EmptyString
                 end) s).
    2:{ destruct directions as [d|]; cbn [option_map given truthy default method_strip];
          [unfold nonempty; destruct (negb _)|]; reflexivity. }
    assert (nonempty (strip path) = true) as ->.
    { unfold nonempty. by destruct (String.eqb_spec (strip path) EmptyString). }
    cbn [negb]. erewrite bind_ok; [|reflexivity].
    rewrite bind_ret_state.
    match goal with
    | |- context [with_object _ _ (ToolChatAgent.run_on _ ?prompt _) ?s1] =>
        destruct (testgen_run_state self prompt step_num s1) as ([later Hlater] & Htarget & Hfirst);
        split; [exact Htarget|]; exists prompt, later; split; [exact Hlater | exact Hfirst]
    end.
Qed.

End Memory.

(** A second call to the test generator: what the first call said is
    still there. *)
Lemma test_generator_remembers_witness :
  let request := Demo.call "call_0" "call_testgen"
                   (Some (Demo.object [("solver_path", "results/t/solver.py")])) in
  let s1 := (TestGenerator.execute (E := Demo.env []) Demo.tester request 1 "t" "d"
               (Demo.state Demo.ready_solver)).2 in
  let s2 := (TestGenerator.execute (E := Demo.env []) Demo.tester request 2 "t" "d" s1).2 in
  testgen_history s1
  = [text_message developer "TEST_GEN_PROMPT"; text_message assistant "done"]
  /\ exists prompt later,
       testgen_history s2 = testgen_history s1 ++ text_message developer prompt :: later.
Proof.
  cbn zeta. split; [reflexivity|].
  destruct (test_generator_remembers (E := Demo.env []) Demo.tester
              (Demo.call "call_0" "call_testgen"
                 (Some (Demo.object [("solver_path", "results/t/solver.py")])))
              2 "t" "d"
              (TestGenerator.execute (E := Demo.env []) Demo.tester
                 (Demo.call "call_0" "call_testgen"
                    (Some (Demo.object [("solver_path", "results/t/solver.py")])))
                 1 "t" "d" (Demo.state Demo.ready_solver)).2) as [_ Hcall].
  destruct (Hcall [("solver_path", JStr "results/t/solver.py")] "results/t/solver.py" None
              eq_refl eq_refl ltac:(done) eq_refl) as (_ & prompt & later & Hhistory & _).
  by exists prompt, later.
Defined.

Section FreshStart.
Context {E : Env}.

Lemma bind_state_unchanged {S A B C} (c : M S A) (q : A -> M S B) (f : A -> B -> C) (s : S) :
  (forall a x, (q a x).2 = x) ->
  ((c ≫= fun a => q a ≫= fun b => mret (f a b)) s).2 = (c s).2.
Proof.
  intros Hq. unfold mbind, M_bind. destruct (c s) as [[a|e] s']; [|done].
  specialize (Hq a s'). by destruct (q a s') as [[b|e] s''].
Qed.

(** The coder forgets: under the conditions in which a call to the coder
    starts its loop, the first request of the call carries the prompt of
    this call and nothing else, whatever earlier calls have said. *)
Theorem coder_starts_afresh (self : CoderTool.t) (tool_call : ToolCall) (step_num : Z)
  (task_name task_description : string) (s : State)
  (args : list (string * json)) (approach : string) (output : option string)
  (f : FS.t) :
  json_loads (str_or (function_arguments tool_call) "{}") = inr (JDict args) ->
  dict_get "approach" args = Some (JStr approach) ->
  strip approach <> EmptyString ->
  dict_get "output_path" args = option_map JStr output ->
  1 <= CoderTool.max_steps self ->
  let current := coder_solver_path s in
  let chosen := match output with
                | Some p => if nonempty p then Path.of_string p else current
                | None => current
                end in
  let target := if Path.is_absolute chosen then chosen
                else Path.resolve cwd (Path.joinpath (Path.parent current) chosen) in
  FSOps.mkdir os_error (fs s) (location (Path.parent target)) = Ok f ->
  let out := CoderTool.execute self tool_call step_num task_name task_description s in
  exists prompt e more,
    requests_of "coder" out.2 = requests_of "coder" s ++ e :: more
    /\ ex_messages e = [text_message developer prompt].
Proof.
  intros Hargs Happroach Hstrip Houtput Hmax. cbn zeta.
  set (chosen := match output with
                 | Some p => if nonempty p then Path.of_string p else coder_solver_path s
                 | None => coder_solver_path s
                 end).
  set (target := if Path.is_absolute chosen then chosen
                 else Path.resolve cwd (Path.joinpath (Path.parent (coder_solver_path s)) chosen)).
  intros Hmkdir.
  unfold CoderTool.execute. rewrite Hargs. cbn [as_dict].
  erewrite bind_ok; [|reflexivity]. rewrite Happroach. cbn [default method_strip].
  erewrite bind_ok; [|reflexivity].
  assert (nonempty (strip approach) = true) as ->.
  { unfold nonempty. by destruct (String.eqb_spec (strip approach) EmptyString). }
  cbn [negb]. erewrite bind_ok; [|reflexivity].
  erewrite (bind_ok _ _ s chosen s).
  2:{ rewrite Houtput. subst chosen. destruct output as [p|]; [|reflexivity].
      cbn [option_map given truthy default]. unfold nonempty.
      by destruct (negb (String.eqb p EmptyString)). }
  fold target.
  erewrite bind_ok; [|unfold Path_mkdir; by rewrite Hmkdir].
  erewrite bind_ok; [|reflexivity].
  rewrite bind_state_unchanged by done.
  match goal with
  | |- context [ToolChatAgent.run _ ?prompt _ ?s1] => exists prompt; set (start := s1)
  end.
  unfold ToolChatAgent.run, with_local.
  assert (1 <= ToolChatAgent.max_steps (CoderTool.agent self)) as Hsteps.
  { unfold CoderTool.agent. by destruct (CoderTool.researcher_tool self). }
  match goal with
  | |- context [ToolChatAgent.run_on _ ?prompt _ _] =>
      destruct (run_on_first_request (CoderTool.agent self) prompt step_num [] start
                  (proj1 repository_agents_keep_requests self) Hsteps)
        as (e & more & Hreq & Hmsgs)
  end.
  rewrite coder_agent_name in Hreq.
  destruct (ToolChatAgent.run_on _ _ _ ([], start)) as [r [l x]].
  cbn [fst snd] in *. by exists e, more.
Qed.

End FreshStart.

(** The coder called twice: the second call starts with its prompt
    alone. *)
Lemma coder_starts_afresh_witness :
  let request := Demo.call "call_1" "call_coder"
                   (Some (Demo.object [("approach", "use numpy")])) in
  let s1 := (CoderTool.execute (E := Demo.env []) Demo.coder request 1 "t" "d"
               (Demo.state Demo.empty_dir)).2 in
  let s2 := (CoderTool.execute (E := Demo.env []) Demo.coder request 2 "t" "d" s1).2 in
  length (requests_of "coder" s1) = 1%nat
  /\ exists prompt e more,
       requests_of "coder" s2 = requests_of "coder" s1 ++ e :: more
       /\ ex_messages e = [text_message developer prompt].
Proof.
  cbn zeta. split; [reflexivity|].
  eapply (coder_starts_afresh (E := Demo.env []) Demo.coder
            (Demo.call "call_1" "call_coder" (Some (Demo.object [("approach", "use numpy")])))
            2 "t" "d" _ [("approach", JStr "use numpy")] "use numpy" None);
    [reflexivity | reflexivity | done | reflexivity | done | reflexivity].
Defined.

(** ** The budget of the researcher *)

Section ResearcherBudget.
Context {E : Env}.

Lemma researcher_dispatch_keeps_requests (tcs : list ToolCall) (before : list Exchange) :
  keeps (fun ls : list Message * State => requests_of "researcher" ls.2 = before)
    (fun _ => True) (fun _ => True) (for_ tcs ResearcherTool.call_tool).
Proof.
  apply keeps_for. intros tc _.
  eapply keeps_weaken;
    [eapply keeps_researcher_call_tool
       with (Inv := fun x => requests_of "researcher" x = before); done
    | done | done].
Qed.

Lemma researcher_step_request (openai_tools : list string) (inner_step : Z)
  (msgs : list Message) (s : State) :
  exists e,
    requests_of "researcher" (ResearcherTool.step openai_tools inner_step (msgs, s)).2.2
    = requests_of "researcher" s ++ [e]
    /\ ex_tools e = Some openai_tools.
Proof.
  unfold ResearcherTool.step.
  rewrite (bind_ok _ _ (msgs, s) msgs (msgs, s)) by reflexivity.
  set (r := match chat_completions_create (exchanges s) "researcher" msgs (Some openai_tools) with
            | inl msg => Raise (Exn APIError msg)
            | inr m => Ok m
            end).
  set (e := {| ex_agent := "researcher"; ex_messages := msgs;
               ex_tools := Some openai_tools; ex_response := r |}).
  assert (Hchat : lift (chat "researcher" msgs (Some openai_tools)) (msgs, s)
                  = (r, (msgs, add_exchange e s))) by reflexivity.
  assert (Hreq : requests_of "researcher" (add_exchange e s)
                 = requests_of "researcher" s ++ [e]) by by rewrite requests_of_add.
  exists e. split; [|done]. destruct r as [reply|exc] eqn:Hr.
  - rewrite (bind_ok _ _ _ _ _ Hchat).
    destruct (has_tool_calls reply); cbn [negb].
    + rewrite (bind_ok _ _ (msgs, add_exchange e s) tt
                 (msgs ++ [calls_message (calls_of reply)], add_exchange e s))
        by reflexivity.
      destruct (researcher_dispatch_keeps_requests (calls_of reply) _
                  (msgs ++ [calls_message (calls_of reply)], add_exchange e s) Hreq)
        as [Hkept _].
      unfold mbind, M_bind. by destruct (for_ _ _ _) as [[?|?] [? ?]].
    + by rewrite (bind_ok _ _ (msgs, add_exchange e s) tt
                    (msgs ++ [text_message assistant (str_or (reply_content reply) EmptyString)],
                     add_exchange e s)) by reflexivity.
  - by rewrite (bind_raise _ _ _ _ _ Hchat).
Qed.

Lemma researcher_loop_requests (openai_tools : list string) (ks : list Z) :
  forall msgs s,
    exists new,
      requests_of "researcher" (for_ ks (ResearcherTool.step openai_tools) (msgs, s)).2.2
      = requests_of "researcher" s ++ new
      /\ (length new <= length ks)%nat
      /\ Forall (fun e => ex_tools e = Some openai_tools) new.
Proof.
  induction ks as [|k ks IH]; intros msgs s.
  - exists []. cbn. by rewrite app_nil_r.
  - cbn [for_].
    destruct (researcher_step_request openai_tools k msgs s) as (e & Hreq & Htools).
    destruct (ResearcherTool.step openai_tools k (msgs, s)) as [[[|text]|exc] [msgs1 s1]] eqn:Hstep;
      cbn [fst snd] in Hreq.
    + rewrite (bind_ok _ _ _ _ _ Hstep).
      destruct (IH msgs1 s1) as (new & Hreq' & Hlen & Hall).
      exists (e :: new). rewrite Hreq', Hreq, <- app_assoc.
      split; [done|]. split; [cbn; lia | by constructor].
    + rewrite (bind_ok _ _ _ _ _ Hstep). exists [e].
      split; [done|]. split; [cbn; lia | by constructor].
    + rewrite (bind_raise _ _ _ _ _ Hstep). exists [e].
      split; [done|]. split; [cbn; lia | by constructor].
Qed.

Lemma researcher_finish_request (final_text : string) (msgs : list Message) (s : State) :
  exists closing,
    requests_of "researcher" (ResearcherTool.finish final_text (msgs, s)).2.2
    = requests_of "researcher" s ++ closing
    /\ (length closing <= 1)%nat
    /\ Forall (fun e => ex_tools e = None) closing
    /\ (final_text <> EmptyString -> closing = []).
Proof.
  unfold ResearcherTool.finish, nonempty.
  destruct (String.eqb_spec final_text EmptyString) as [->|Hne]; cbn [negb].
  - destruct (researcher_forced_summary msgs s) as (e & Hexchanges & Hagent & Htools & _).
    exists [e]. split; [|split; [done | split; [by constructor | done]]].
    revert Hexchanges. unfold ResearcherTool.finish, nonempty. cbn [String.eqb negb].
    intros Hexchanges. unfold requests_of. rewrite Hexchanges, List.filter_app. cbn [List.filter].
    by rewrite Hagent.
  - exists []. rewrite app_nil_r. split; [reflexivity|]. split; [cbn; lia|]. by split.
Qed.

Lemma run_researcher_requests (self : ResearcherTool.t) (prompt : string) (step_num : Z)
  (s : State) :
  exists looped closing,
    requests_of "researcher" (ResearcherTool._run_researcher self prompt step_num s).2
    = requests_of "researcher" s ++ looped ++ closing
    /\ Z.of_nat (length looped) <= Z.max 0 (ResearcherTool.max_steps self)
    /\ Forall (fun e => ex_tools e <> None) looped
    /\ (length closing <= 1)%nat
    /\ Forall (fun e => ex_tools e = None) closing.
Proof.
  unfold ResearcherTool._run_researcher, with_local.
  destruct mcp_connect as [msg|].
  { exists [], []. rewrite app_nil_r. cbn. split; [done|]. split; [lia|].
    split; [constructor|]. split; [lia | constructor]. }
  destruct mcp_list_tools as [exc|openai_tools].
  { exists [], []. rewrite app_nil_r. cbn. split; [done|]. split; [lia|].
    split; [constructor|]. split; [lia | constructor]. }
  set (msgs := [text_message developer prompt]).
  destruct (researcher_loop_requests openai_tools
              (range 1 (ResearcherTool.max_steps self + 1)) msgs s)
    as (looped & Hloop & Hlen & Hall).
  rewrite range_length in Hlen.
  assert (Z.of_nat (length looped) <= Z.max 0 (ResearcherTool.max_steps self)) as Hbound by lia.
  assert (Forall (fun e => ex_tools e <> None) looped) as Hadvertised.
  { eapply Forall_impl; [exact Hall|]. by intros e ->. }
  unfold mbind, M_bind.
  destruct (for_ _ _ (msgs, s)) as [[final|exc] [msgs1 s1]]; cbn [fst snd] in Hloop.
  - destruct (researcher_finish_request (default EmptyString final) msgs1 s1)
      as (closing & Hclosing & Hone & Hnone & _).
    exists looped, closing.
    destruct (ResearcherTool.finish _ (msgs1, s1)) as [r [msgs2 s2]]. cbn [fst snd] in *.
    by rewrite Hclosing, Hloop, <- app_assoc.
  - exists looped, []. rewrite app_nil_r. cbn [fst snd]. split; [done|]. split; [done|].
    split; [done|]. split; [cbn; lia | done].
Qed.

(** A call to the researcher makes at most as many requests with the
    tools of the documentation service as its step budget allows, followed
    by at most one request without tools, the one that asks for the
    summary. *)
Theorem researcher_bounded (self : ResearcherTool.t) (tool_call : ToolCall) (step_num : Z)
  (s : State) :
  exists looped closing,
    requests_of "researcher" (ResearcherTool.execute self tool_call step_num s).2
    = requests_of "researcher" s ++ looped ++ closing
    /\ Z.of_nat (length looped) <= Z.max 0 (ResearcherTool.max_steps self)
    /\ Forall (fun e => ex_tools e <> None) looped
    /\ (length closing <= 1)%nat
    /\ Forall (fun e => ex_tools e = None) closing.
Proof.
  assert (exists looped closing : list Exchange,
            requests_of "researcher" s = requests_of "researcher" s ++ looped ++ closing
            /\ Z.of_nat (length looped) <= Z.max 0 (ResearcherTool.max_steps self)
            /\ Forall (fun e => ex_tools e <> None) looped
            /\ (length closing <= 1)%nat
            /\ Forall (fun e => ex_tools e = None) closing) as Hidle.
  { exists [], []. rewrite app_nil_r. cbn. split; [done|]. split; [lia|].
    split; [constructor|]. split; [lia | constructor]. }
  unfold ResearcherTool.execute.
  destruct (negb (truthy _)); [exact Hidle|].
  unfold mbind at 1, M_bind at 1, of_result at 1.
  destruct (as_dict _) as [args|]; [|exact Hidle].
  unfold mbind at 1, M_bind at 1, of_result at 1.
  destruct (method_strip _) as [query|]; [|exact Hidle].
  destruct (negb (nonempty query)); [exact Hidle|].
  unfold mbind at 1, M_bind at 1.
  destruct (given (dict_get "libraries" args)).
  - unfold of_result at 1. destruct (str_join _ _) as [libraries_text|]; [|exact Hidle].
    unfold try_except.
    match goal with
    | |- context [ResearcherTool._run_researcher self ?prompt step_num s] =>
        destruct (run_researcher_requests self prompt step_num s) as (looped & closing & H);
        exists looped, closing;
        destruct (ResearcherTool._run_researcher self prompt step_num s) as [[text|e] s1];
        [exact H | by destruct (is_Exception (class_of e))]
    end.
  - unfold try_except. cbn [mret M_ret].
    match goal with
    | |- context [ResearcherTool._run_researcher self ?prompt step_num s] =>
        destruct (run_researcher_requests self prompt step_num s) as (looped & closing & H);
        exists looped, closing;
        destruct (ResearcherTool._run_researcher self prompt step_num s) as [[text|e] s1];
        [exact H | by destruct (is_Exception (class_of e))]
    end.
Qed.

End ResearcherBudget.

(** ** What a run of the coordinator returns *)

Section RunReturns.
Context {E : Env}.
Import MultiAgent.

Lemma for_break {S A R} (P : R -> S -> Prop) (body : A -> M S (control R)) (xs : list A) :
  (forall x st r st', body x st = (Ok (Break r), st') -> P r st') ->
  forall st r st', for_ xs body st = (Ok (Some r), st') -> P r st'.
Proof.
  intros Hbody. induction xs as [|x xs IH]; intros st r st'; [done|].
  cbn [for_]. unfold mbind, M_bind.
  destruct (body x st) as [[[|r0]|e] st1] eqn:Hx; [apply IH | | done].
  intros [= <- <-]. by apply (Hbody x st).
Qed.

Lemma has_top_level_solve_path (l : Locals) (path : Path.t) (s : State) :
  coder_solver_path (_has_top_level_solve l path s).2 = coder_solver_path s.
Proof.
  unfold _has_top_level_solve, Path_exists. unfold mbind, M_bind.
  destruct (negb _); [done|].
  destruct (exec_module _ _) as [[exc|[[|]|]] f]; try done.
  destruct (is_ImportError _); [done|]. by destruct (is_Exception _).
Qed.

Lemma indicate_completion_returns (l : Locals) (tc : ToolCall) (st : Transcript.t * State)
  target st' :
  indicate_completion l tc st = (Ok (Return target), st') -> completion_passed l target st'.2.
Proof.
  destruct st as [tr s]. unfold indicate_completion. unfold_monad.
  pose proof (has_top_level_solve_path l (coder_solver_path s) s) as Hpath.
  destruct (_has_top_level_solve l (coder_solver_path s) s) as [[[[|] err_msg]|e] s2] eqn:Hcheck;
    intros [= <- <-]. cbn [fst snd] in *. split; [done|]. by exists s, err_msg.
Qed.

Lemma handle_returns (self : t) (l : Locals) (step_num : Z) (tc : ToolCall)
  (st : Transcript.t * State) target st' :
  handle self l step_num tc st = (Ok (Return target), st') -> completion_passed l target st'.2.
Proof.
  destruct st as [tr s], st' as [tr1 s1]. unfold handle.
  repeat (match goal with
          | |- context [String.eqb ?a ?b] => destruct (String.eqb_spec a b)
          end);
    try (intros Hrun; by apply lifted_content in Hrun as [[? ?] _]).
  - destruct (enable_researcher self), (researcher_tool self l); try done;
      intros Hrun; by apply lifted_content in Hrun as [[? ?] _].
  - destruct (enable_tester self), (test_generator self l); try done;
      intros Hrun; by apply lifted_content in Hrun as [[? ?] _].
  - apply indicate_completion_returns.
  - done.
Qed.

Lemma step_returns (self : t) (l : Locals) (step_num : Z) (st : Transcript.t * State)
  target st' :
  step self l step_num st = (Ok (Break target), st') -> completion_passed l target st'.2.
Proof.
  unfold step. unfold mbind, M_bind.
  repeat (match goal with
          | |- context [match ?c ?x with _ => _ end] =>
              lazymatch c with
              | for_ _ _ => fail
              | _ => destruct (c x) as [[?|?] ?]; try done
              end
          end).
  destruct (negb _).
  - unfold mret, M_ret.
    repeat (match goal with
            | |- context [match ?c ?x with _ => _ end] =>
                destruct (c x) as [[?|?] ?]; try done
            end).
  - repeat (match goal with
            | |- context [match ?c ?x with _ => _ end] =>
                lazymatch c with
                | for_ _ _ => fail
                | _ => destruct (c x) as [[?|?] ?]; try done
                end
            end).
    destruct (for_ _ _ _) as [[[r|]|?] st1] eqn:Hfor; try done.
    intros [= <- <-].
    apply (for_break (fun r st => completion_passed l r st.2) _ _) in Hfor; [done|].
    intros tc st0 r0 st0'. unfold call_tool. unfold mbind, M_bind.
    destruct (handle self l step_num tc st0) as [[[content|target0]|?] st2] eqn:Hhandle;
      try done.
    intros [= <- <-]. by apply handle_returns in Hhandle.
Qed.

Lemma loop_spent (self : t) (l : Locals) (ks : list Z) :
  forall (tr : Transcript.t) (s : State) st',
    for_ ks (step self l) (tr, s) = (Ok None, st') ->
    exists new,
      requests_of "coordinator" st'.2 = requests_of "coordinator" s ++ new
      /\ length new = length ks.
Proof.
  induction ks as [|k ks IH]; intros tr s st'.
  - cbn. intros [= <-]. exists []. by rewrite app_nil_r.
  - cbn [for_]. unfold mbind, M_bind.
    destruct (coordinator_step_request self l k tr s) as (e & Hreq & _).
    destruct (step self l k (tr, s)) as [[[|target]|exc] [tr1 s1]]; [|done..].
    cbn [fst snd] in Hreq. intros Hrest. apply IH in Hrest as (new & Hnew & Hlen).
    exists (e :: new). rewrite Hnew, Hreq, <- app_assoc. split; [done|]. cbn. by rewrite Hlen.
Qed.

(** What [run] returns is the coder's solver path as it stands at the end,
    which the coder may have moved.  It returns before the budget is
    spent only when the completion check has just passed on that path.
    Otherwise the budget is spent, one request of the coordinator for each
    of its steps, and the path is returned if a file exists there,
    loadable or not, and [None] if none does.  With no budget at all
    nothing is asked of the model, and the configured path is returned if
    a file exists there. *)
Theorem run_returns (self : t) (l : Locals) (s : State) :
  let out := run self l s in
  let spent :=
    exists new,
      requests_of "coordinator" out.2 = requests_of "coordinator" s ++ new
      /\ Z.of_nat (length new) = Z.max 0 (max_steps self) in
  match out.1 with
  | Ok (Some target) =>
      target = coder_solver_path out.2
      /\ (completion_passed l target out.2
          \/ (spent /\ FS.exists_ (fs out.2) (location target) = true))
  | Ok None =>
      spent /\ FS.exists_ (fs out.2) (location (coder_solver_path out.2)) = false
  | Raise _ => True
  end
  /\ (max_steps self <= 0 ->
      out = (Ok (if FS.exists_ (fs s) (location (solver_path l))
                 then Some (solver_path l) else None),
             set_testgen_history []
               (set_testgen_solver_path (solver_path l)
                  (set_coder_solver_path (solver_path l) s)))).
Proof.
  cbn zeta. unfold run.
  do 3 (erewrite bind_ok; [|reflexivity]).
  set (s0 := set_testgen_history [] _).
  set (start := Transcript.start _).
  unfold with_local, loop. split.
  - destruct (for_ (range 1 (max_steps self + 1)) (step self l) (start, s0))
      as [[[target|]|e] [tr1 s1]] eqn:Hfor.
    + rewrite (bind_ok _ _ _ _ _ Hfor). cbn [fst snd mret M_ret].
      apply (for_break (fun r st => completion_passed l r st.2) _ _) in Hfor;
        [|intros k; apply step_returns].
      destruct Hfor as [Hpath Hcheck]. cbn [snd] in *. split; [done|]. by left.
    + rewrite (bind_ok _ _ _ _ _ Hfor). unfold_monad. unfold Path_exists. cbn [fst snd].
      apply loop_spent in Hfor as (new & Hnew & Hlen). cbn [snd] in Hnew.
      rewrite range_length in Hlen.
      assert (exists new,
                requests_of "coordinator" s1 = requests_of "coordinator" s ++ new
                /\ Z.of_nat (length new) = Z.max 0 (max_steps self)) as Hspent.
      { exists new. split; [exact Hnew | lia]. }
      destruct (FS.exists_ (fs s1) (location (coder_solver_path s1))) eqn:Hexists;
        cbn [fst snd]; [|done]. split; [done|]. by right.
    + by rewrite (bind_raise _ _ _ _ _ Hfor).
  - intros Hbudget.
    assert (range 1 (max_steps self + 1) = []) as ->.
    { unfold range. by replace (Z.to_nat (max_steps self + 1 - 1)) with 0%nat by lia. }
    cbn [for_]. unfold_monad. unfold Path_exists. cbn [fst snd].
    by destruct (FS.exists_ _ _).
Qed.

End RunReturns.

(** With no budget the solver that is there is returned, though it would
    not load. *)
Lemma run_returns_witness :
  (MultiAgent.run (E := Demo.env []) (MultiAgentFull "t" 0) Demo.locals
     (Demo.state (Demo.files "import missing"))).1
  = Ok (Some Demo.solver).
Proof.
  destruct (run_returns (E := Demo.env []) (MultiAgentFull "t" 0) Demo.locals
              (Demo.state (Demo.files "import missing"))) as [_ Hidle].
  by rewrite Hidle.
Defined.

(** ** Runs without a researcher or without a tester *)

Section Ablations.
Context {E : Env}.

(** An invariant of the world that the handling of every tool call keeps
    is kept by the whole run of the coordinator, when the coordinator's
    own requests and the set-up of the run keep it. *)
Lemma keeps_run_of_handle (Inv : State -> Prop) (self : MultiAgent.t) (l : MultiAgent.Locals) :
  (forall s e, Inv s -> ex_agent e = "coordinator" -> Inv (add_exchange e s)) ->
  (forall s p, Inv s -> Inv (set_coder_solver_path p s)) ->
  (forall s p, Inv s -> Inv (set_testgen_solver_path p s)) ->
  (forall s h, Inv s -> Inv (set_testgen_history h s)) ->
  (forall step_num tc,
     keeps (fun ls : Transcript.t * State => Inv ls.2) (fun _ => True) (fun _ => True)
       (MultiAgent.handle self l step_num tc)) ->
  keeps Inv (fun _ => True) (fun _ => True) (MultiAgent.run self l).
Proof.
  intros Hexchange Hcoder Htestgen Hhistory Hhandle. unfold MultiAgent.run.
  keeps_step; [apply keeps_modify; intros; by apply Hcoder|].
  keeps_step; [apply keeps_modify; intros; by apply Htestgen|].
  keeps_step; [apply keeps_modify; intros; by apply Hhistory|].
  apply keeps_with_local. unfold MultiAgent.loop.
  eapply keeps_bind with (Q1 := fun _ => True).
  2:{ intros [target|] _; [by keeps_step|].
      keeps_step; [apply keeps_lift_world, keeps_get|].
      keeps_step; [apply keeps_lift_world, keeps_Path_exists|]. by keeps_step. }
  apply keeps_for. intros step_num _. unfold MultiAgent.step.
  keeps_step; [by apply keeps_modify_local|].
  keeps_step; [by apply keeps_transcript_append|].
  keeps_step; [apply keeps_get_local|].
  eapply keeps_bind with (Q1 := fun _ => True).
  { apply keeps_lift_world. eapply keeps_weaken with (X := caught);
      [eapply keeps_chat with (allowed := fun a => a = "coordinator") (call_ok := fun _ => True);
       [done | intros; by apply Forall_true | done]
      | done | done]. }
  intros message _. destruct (negb _).
  - keeps_step; [by apply keeps_transcript_append|].
    keeps_step; [by apply keeps_transcript_append|]. by keeps_step.
  - keeps_step; [by apply keeps_transcript_append|].
    eapply keeps_bind with (Q1 := fun _ => True); [|intros [target|] _; by keeps_step].
    apply keeps_for. intros tc _. unfold MultiAgent.call_tool.
    eapply keeps_bind with (Q1 := fun _ => True); [apply Hhandle|].
    intros [content|target] _; [|by keeps_step].
    keeps_step; [by apply keeps_transcript_append|]. by keeps_step.
Qed.

(** A coder that has no researcher. *)
Lemma keeps_coder_alone (Inv : State -> Prop) (self : CoderTool.t) (tc : ToolCall)
  (step_num : Z) (task_name task_description : string) :
  CoderTool.researcher_tool self = None ->
  (forall s f, Inv s -> Inv (set_fs f s)) ->
  (forall s e, Inv s -> ex_agent e = "coder" -> Inv (add_exchange e s)) ->
  (forall s p, Inv s -> Inv (set_coder_solver_path p s)) ->
  keeps Inv (fun _ => True) caught
    (CoderTool.execute self tc step_num task_name task_description).
Proof.
  intros Hnone Hfs Hexchange Hcoder.
  assert (Hfs' : forall s f, Inv s -> True -> Inv (set_fs f s)) by auto.
  unfold CoderTool.execute.
  destruct (json_loads _) as [exc|args]; [by keeps_step|].
  keeps_step; [apply keeps_of_result with (Q := fun _ => True), as_dict_result|].
  keeps_step; [apply keeps_of_result with (Q := fun _ => True), method_strip_result|].
  destruct (negb (nonempty _)); [by keeps_step|].
  keeps_step; [apply keeps_get|].
  keeps_step.
  { destruct (given _); [|by keeps_step].
    apply keeps_of_result with (Q := fun _ => True), of_json_result. }
  keeps_step.
  { by apply (keeps_Path_mkdir Inv (fun _ _ => True) (fun _ => True) Hfs'). }
  keeps_step; [apply keeps_modify; intros; by apply Hcoder|].
  keeps_step.
  { unfold ToolChatAgent.run. apply keeps_with_local.
    apply (keeps_tool_chat_run_on Inv (fun a => a = "coder") (fun _ => True) Hexchange).
    - intros. by apply Forall_true.
    - apply coder_agent_name.
    - intros tc' handler _ Hh. apply coder_handlers in Hh as [-> | [-> | ->]].
      + apply (keeps_write_file Inv (fun _ _ => True) (fun _ => True) Hfs'); try done.
      + by apply (keeps_run_shell Inv (fun _ _ => True) Hfs').
      + unfold CoderTool.call_researcher. rewrite Hnone. by keeps_step. }
  keeps_step; [apply keeps_Path_exists|]. by keeps_step.
Qed.

(** The coordinator's own handlers keep what its helpers keep, when it
    does not depend on the file system. *)
Lemma keeps_handle_of_helpers (Inv : State -> Prop) (self : MultiAgent.t)
  (l : MultiAgent.Locals) (step_num : Z) (tc : ToolCall) :
  (forall s f, Inv s -> Inv (set_fs f s)) ->
  (forall r, MultiAgent.enable_researcher self = true ->
     keeps Inv (fun _ => True) caught (ResearcherTool.execute r tc step_num)) ->
  keeps Inv (fun _ => True) caught
    (CoderTool.execute (MultiAgent.coder_tool self l) tc step_num
       (MultiAgent.task self) (MultiAgent.task_description l)) ->
  (forall t, MultiAgent.enable_tester self = true ->
     keeps Inv (fun _ => True) caught
       (TestGenerator.execute t tc step_num
          (MultiAgent.task self) (MultiAgent.task_description l))) ->
  keeps (fun ls : Transcript.t * State => Inv ls.2) (fun _ => True) (fun _ => True)
    (MultiAgent.handle self l step_num tc).
Proof.
  intros Hfs Hresearcher Hcoder Htester.
  assert (Hfs' : forall s f, Inv s -> True -> Inv (set_fs f s)) by auto.
  unfold MultiAgent.handle.
  destruct (String.eqb _ "write_file").
  { keeps_step; [|by keeps_step]. apply keeps_lift_world.
    eapply keeps_weaken with (X := caught); [|done|done].
    apply (keeps_write_file Inv (fun _ _ => True) (fun _ => True) Hfs'); try done. }
  destruct (String.eqb _ "run_shell").
  { keeps_step; [|by keeps_step]. apply keeps_lift_world.
    eapply keeps_weaken with (X := caught); [|done|done].
    by apply (keeps_run_shell Inv (fun _ _ => True) Hfs'). }
  destruct (String.eqb _ "call_researcher").
  { destruct (MultiAgent.enable_researcher self) eqn:Hon; [|by keeps_step].
    destruct (MultiAgent.researcher_tool self l); [|by keeps_step].
    keeps_step; [|by keeps_step]. apply keeps_lift_world.
    eapply keeps_weaken with (X := caught); [by apply Hresearcher|done|done]. }
  destruct (String.eqb _ "call_coder").
  { keeps_step; [|by keeps_step]. apply keeps_lift_world.
    eapply keeps_weaken with (X := caught); [apply Hcoder|done|done]. }
  destruct (String.eqb _ "call_testgen").
  { destruct (MultiAgent.enable_tester self) eqn:Hon; [|by keeps_step].
    destruct (MultiAgent.test_generator self l); [|by keeps_step].
    keeps_step; [|by keeps_step]. apply keeps_lift_world.
    eapply keeps_weaken with (X := caught); [by apply Htester|done|done]. }
  destruct (String.eqb _ "indicate_completion"); [|by keeps_step].
  by apply (keeps_indicate_completion Inv (fun _ _ => True) Hfs').
Qed.

(** A run of the coordinator with the researcher switched off, as
    [MultiAgentNoResearcher] and [MultiAgentCoderOnly] have it, makes no
    request in the researcher's name and no call to the documentation
    service, whatever the model asks for; with the tester switched off, as
    [MultiAgentNoTester] and [MultiAgentCoderOnly] have it, it makes no
    request in the test generator's name. *)
Theorem disabled_roles_make_no_requests (self : MultiAgent.t) (l : MultiAgent.Locals) (s : State) :
  let s' := (MultiAgent.run self l s).2 in
  (MultiAgent.enable_researcher self = false ->
   requests_of "researcher" s' = requests_of "researcher" s
   /\ mcp_calls s' = mcp_calls s)
  /\ (MultiAgent.enable_tester self = false ->
      requests_of "test_generator" s' = requests_of "test_generator" s).
Proof.
  cbn zeta. split.
  - intros Hoff.
    set (Inv := fun x => requests_of "researcher" x = requests_of "researcher" s
                         /\ mcp_calls x = mcp_calls s).
    assert (Hexchange : forall x e, Inv x -> ex_agent e <> "researcher" ->
                                    Inv (add_exchange e x)).
    { intros x e [Hreq Hcalls] He. split; [|done].
      rewrite <- Hreq, requests_of_add.
      apply String.eqb_neq in He. rewrite He. apply app_nil_r. }
    apply (keeps_run_of_handle Inv self l); try done.
    { intros x e Hx He. apply Hexchange; [done|]. by rewrite He. }
    intros step_num tc. apply keeps_handle_of_helpers; try done.
    + intros r Hon. congruence.
    + apply keeps_coder_alone; try done.
      * unfold MultiAgent.coder_tool. cbn. unfold MultiAgent.researcher_tool.
        by rewrite Hoff.
      * intros x e Hx He. apply Hexchange; [done|]. by rewrite He.
    + intros t _.
      apply (keeps_testgen_execute Inv (fun a => a = "test_generator")
               (fun _ _ => True) (fun _ => True) (fun _ => True)); try done.
      * intros x e Hx He. apply Hexchange; [done|]. by rewrite He.
      * intros. by apply Forall_true.
  - intros Hoff.
    set (Inv := fun x => requests_of "test_generator" x = requests_of "test_generator" s).
    assert (Hexchange : forall x e, Inv x -> ex_agent e <> "test_generator" ->
                                    Inv (add_exchange e x)).
    { intros x e Hreq He. unfold Inv. rewrite <- Hreq, requests_of_add.
      apply String.eqb_neq in He. rewrite He. apply app_nil_r. }
    apply (keeps_run_of_handle Inv self l); try done.
    { intros x e Hx He. apply Hexchange; [done|]. by rewrite He. }
    intros step_num tc. apply keeps_handle_of_helpers; try done.
    + intros r _.
      eapply keeps_weaken with (X := caught); [|done|done].
      apply (keeps_researcher_execute Inv (fun a => a = "researcher") (fun _ => True));
        try done.
      * intros x e Hx He. apply Hexchange; [done|]. by rewrite He.
      * intros. by apply Forall_true.
    + apply (keeps_coder_execute Inv (fun a => a = "coder" \/ a = "researcher")
               (fun _ _ => True) (fun _ => True) (fun _ => True)); try done; auto.
      * intros x e Hx [He|He]; (apply Hexchange; [done|]); by rewrite He.
      * intros. by apply Forall_true.
    + intros t Hon. congruence.
Qed.

End Ablations.

(** ** The single agent *)

Section SingleAgentRuns.
Context {E : Env}.
Import SingleAgent.

Lemma session_kept_add (l : Locals) (session : Session.t) (new : list Message) :
  session_kept l session -> session_kept l (Session.add_messages new session).
Proof.
  intros [Htools [rest Hrest]]. split; [done|].
  exists (rest ++ new). cbn [Session.add_messages Session.messages]. by rewrite Hrest.
Qed.

(** A tool keeps what does not depend on the file system. *)
Lemma single_call_tool_keeps (I : Session.t * State -> Prop) (l : Locals) (step_num : Z)
  (tc : ToolCall) :
  (forall session s f, I (session, s) -> I (session, set_fs f s)) ->
  (forall session s new, I (session, s) -> I (Session.add_messages new session, s)) ->
  keeps I (fun _ => True) caught (call_tool l step_num tc).
Proof.
  intros Hfs Hadd. unfold call_tool.
  destruct (String.eqb _ "write_file").
  { keeps_step.
    - apply keeps_lift. intros session.
      apply (keeps_write_file (fun s => I (session, s)) (fun _ _ => True) (fun _ => True));
        try done. intros. by apply Hfs.
    - keeps_step; [apply keeps_modify_local; intros; by apply Hadd|]. by keeps_step. }
  destruct (String.eqb _ "run_shell").
  { keeps_step.
    - apply keeps_lift. intros session.
      apply (keeps_run_shell (fun s => I (session, s)) (fun _ _ => True)); try done.
      intros. by apply Hfs.
    - keeps_step; [apply keeps_modify_local; intros; by apply Hadd|]. by keeps_step. }
  destruct (String.eqb _ "indicate_completion").
  { keeps_step; [apply keeps_lift; intros session; apply keeps_Path_exists|].
    destruct a; [by keeps_step|].
    keeps_step; [apply keeps_modify_local; intros; by apply Hadd|]. by keeps_step. }
  keeps_step; [apply keeps_modify_local; intros; by apply Hadd|]. by keeps_step.
Qed.

Lemma single_call_tool_break (l : Locals) (k : Z) (tc : ToolCall)
  (st : Session.t * State) r st' :
  call_tool l k tc st = (Ok (Break r), st') ->
  r = Returned (Some (solver_path l))
  /\ FS.exists_ (fs st'.2) (location (solver_path l)) = true.
Proof.
  destruct st as [session s]. unfold call_tool.
  repeat (match goal with
          | |- context [String.eqb ?a ?b] => destruct (String.eqb a b)
          end).
  - unfold_monad. by destruct (WriteFileTool.execute _ _ _ _) as [[?|?] ?].
  - unfold_monad. by destruct (RunShellTool.execute _ _ _ _) as [[?|?] ?].
  - unfold_monad. unfold Path_exists. cbn [fst snd].
    destruct (FS.exists_ (fs s) (location (solver_path l))) eqn:Hexists; [|done].
    by intros [= <- <-].
  - by unfold_monad.
Qed.

(** Each step makes one request, and the tools make none. *)
Lemma single_step_request (self : t) (l : Locals) (k : Z) (session : Session.t) (s : State) :
  session_kept l session ->
  let out := step self l k (session, s) in
  session_kept l out.2.1
  /\ mcp_calls out.2.2 = mcp_calls s
  /\ (match out.1 with Ok _ => True | Raise e => caught e end)
  /\ exists e,
       exchanges out.2.2 = exchanges s ++ [e]
       /\ single_agent_request l e
       /\ ex_messages e = Session.messages session
       /\ (forall exc, ex_response e = Raise exc ->
             out = (Ok (Break (AgentError ("Error getting response: " +:+ str_of exc))),
                    (session, add_exchange e s)))
       /\ (forall r, out.1 = Ok (Break r) ->
             (r = Returned (Some (solver_path l))
              /\ FS.exists_ (fs out.2.2) (location (solver_path l)) = true)
             \/ exists exc,
                  ex_response e = Raise exc
                  /\ r = AgentError ("Error getting response: " +:+ str_of exc)).
Proof.
  intros Hkept. pose proof Hkept as [Htools [rest Hrest]]. cbn zeta. unfold step.
  rewrite (bind_ok _ _ (session, s) session (session, s)) by reflexivity.
  set (r := match chat_completions_create (exchanges s) "single_agent"
                    (Session.messages session) (Some tools) with
            | inl msg => Raise (Exn APIError msg)
            | inr m => Ok m
            end).
  set (e := {| ex_agent := "single_agent"; ex_messages := Session.messages session;
               ex_tools := Some tools; ex_response := r |}).
  assert (Hreq : single_agent_request l e) by (split; [done|]; split; [done|]; by exists rest).
  assert (Hchat : lift (Session.get_response "single_agent" session) (session, s)
                  = (r, (session, add_exchange e s))).
  { unfold lift, Session.get_response. by rewrite Htools. }
  assert (Hclass : forall exc, r = Raise exc -> is_Exception (class_of exc) = true).
  { subst r. destruct (chat_completions_create _ _ _ _); [|done]. by intros ? [= <-]. }
  destruct r as [reply|exc] eqn:Hr.
  - erewrite bind_ok; cycle 1.
    { unfold try_except. erewrite bind_ok; [|exact Hchat]. reflexivity. }
    cbn match. destruct (has_tool_calls reply); cbn [negb].
    + rewrite (bind_ok _ _ (session, add_exchange e s) tt
                 (Session.add_messages [calls_message (calls_of reply)] session,
                  add_exchange e s)) by reflexivity.
      pose proof (keeps_for
                    (fun ls : Session.t * State =>
                       session_kept l ls.1
                       /\ exchanges ls.2 = exchanges s ++ [e]
                       /\ mcp_calls ls.2 = mcp_calls s)
                    caught (calls_of reply) (call_tool l k)) as Hfor.
      destruct (Hfor
                  ltac:(intros tc _; apply single_call_tool_keeps;
                        [done | intros ? ? ? (? & ? & ?); split; [by apply session_kept_add|done]])
                  (Session.add_messages [calls_message (calls_of reply)] session,
                   add_exchange e s)
                  ltac:(split; [by apply session_kept_add | done]))
        as [(Hk & Hex & Hmcp) Hres].
      unfold mbind, M_bind in *.
      destruct (for_ _ _ _) as [[[ended|]|exc] [session1 s1]] eqn:Hloop; cbn [fst snd] in *;
        (split; [done|]; split; [done|]; split; [done|]; exists e;
         split; [done|]; split; [done|]; split; [done|]; split; [intros ?; discriminate|]);
        [|done..].
      intros ? [= <-]. left.
      by apply (for_break (fun r st => r = Returned (Some (solver_path l))
                                       /\ FS.exists_ (fs st.2) (location (solver_path l)) = true)
                  _ _ (single_call_tool_break l k)) in Hloop.
    + rewrite (bind_ok _ _ (session, add_exchange e s) tt
                 (Session.add_messages
                    [text_message assistant (str_or (reply_content reply) "No content produced.");
                     text_message user must_use_tools] session,
                  add_exchange e s)) by reflexivity.
      cbn [mret M_ret fst snd]. split; [by apply session_kept_add|].
      split; [done|]. split; [done|]. exists e.
      split; [done|]. split; [done|]. split; [done|]. split; [intros ?; discriminate|done].
  - erewrite bind_ok; cycle 1.
    { unfold try_except. erewrite bind_raise; [|exact Hchat].
      rewrite (Hclass exc eq_refl). reflexivity. }
    cbn [mret M_ret fst snd]. split; [done|]. split; [done|]. split; [done|]. exists e.
    split; [done|]. split; [done|]. split; [done|].
    split; [by intros ? [= <-]|]. intros ? [= <-]. right. by exists exc.
Qed.

Lemma single_loop_requests (self : t) (l : Locals) (ks : list Z) :
  forall session s,
    session_kept l session ->
    let out := for_ ks (step self l) (session, s) in
    mcp_calls out.2.2 = mcp_calls s
    /\ (match out.1 with Ok _ => True | Raise e => caught e end)
    /\ exists new,
         exchanges out.2.2 = exchanges s ++ new
         /\ (length new <= length ks)%nat
         /\ Forall (single_agent_request l) new
         /\ (out.1 = Ok None -> length new = length ks)
         /\ (forall e exc, e ∈ new -> ex_response e = Raise exc ->
               out.1 = Ok (Some (AgentError ("Error getting response: " +:+ str_of exc))))
         /\ (forall r, out.1 = Ok (Some r) ->
               (r = Returned (Some (solver_path l))
                /\ FS.exists_ (fs out.2.2) (location (solver_path l)) = true)
               \/ exists e exc,
                    last new = Some e /\ ex_response e = Raise exc
                    /\ r = AgentError ("Error getting response: " +:+ str_of exc)).
Proof.
  induction ks as [|k ks IH]; intros session s Hkept; cbn zeta.
  - cbn. split; [done|]. split; [done|]. exists []. rewrite app_nil_r.
    split; [done|]. split; [done|]. split; [constructor|]. split; [done|].
    split; [by intros ? ? ?%elem_of_nil | done].
  - cbn [for_].
    destruct (single_step_request self l k session s Hkept)
      as (Hkept1 & Hmcp & Hcaught & e & Hex & Hreq & _ & Hfault & Hbreak).
    destruct (step self l k (session, s)) as [[[|r]|exc] [session1 s1]] eqn:Hstep;
      cbn [fst snd] in *.
    + rewrite (bind_ok _ _ _ _ _ Hstep).
      destruct (IH session1 s1 Hkept1) as (Hmcp' & Hcaught' & new & Hex' & Hlen & Hall & Hnone & Hfault' & Hbreak').
      split; [congruence|]. split; [done|]. exists (e :: new).
      rewrite Hex', Hex, <- app_assoc.
      split; [done|]. split; [cbn; lia|]. split; [by constructor|].
      split; [intros Hout; cbn; by rewrite Hnone|].
      split.
      * intros e' exc' [->|Hin]%elem_of_cons Hraise; [|by eapply Hfault'].
        by specialize (Hfault _ Hraise).
      * intros r Hout. destruct (Hbreak' r Hout) as [?|(e' & exc' & Hlast & ? & ?)]; [by left|].
        right. exists e', exc'. split; [|done].
        destruct new; [done|]. done.
    + rewrite (bind_ok _ _ _ _ _ Hstep). cbn [mret M_ret fst snd].
      split; [done|]. split; [done|]. exists [e].
      split; [done|]. split; [cbn; lia|]. split; [by constructor|].
      split; [done|]. split.
      * intros e' exc' ->%list_elem_of_singleton Hraise.
        specialize (Hfault _ Hraise). by injection Hfault as <- _.
      * intros r' [= <-]. destruct (Hbreak r eq_refl) as [?|(exc' & ? & ?)]; [by left|].
        right. by exists e, exc'.
    + rewrite (bind_raise _ _ _ _ _ Hstep). cbn [fst snd].
      split; [done|]. split; [done|]. exists [e].
      split; [done|]. split; [cbn; lia|]. split; [by constructor|].
      split; [done|]. split; [|done].
      intros e' exc' ->%list_elem_of_singleton Hraise. by specialize (Hfault _ Hraise).
Qed.


Lemma single_run_loop (self : t) (l : Locals) (s : State) :
  session_kept l (Session.make (Some (system_prompt l)) (Some tools))
  /\ Z.of_nat (length (range 1 (max_steps self + 1))) = Z.max 0 (max_steps self).
Proof.
  split; [split; [done | by exists []]|]. rewrite range_length. lia.
Qed.

(** A run of the single agent makes at most as many requests as its step
    budget, nothing else asks the model anything and nobody calls the
    documentation service.  Every request is made with the three tools
    advertised and opens with the system prompt.  [None] is returned only
    when the whole budget has been spent. *)
Theorem single_agent_bounded (self : t) (l : Locals) (s : State) :
  let out := run self l s in
  exists new,
    exchanges out.2 = exchanges s ++ new
    /\ Z.of_nat (length new) <= Z.max 0 (max_steps self)
    /\ Forall (single_agent_request l) new
    /\ mcp_calls out.2 = mcp_calls s
    /\ (out.1 = Ok (Returned None) -> Z.of_nat (length new) = Z.max 0 (max_steps self)).
Proof.
  cbn zeta. destruct (single_run_loop self l s) as [Hkept Hbudget].
  destruct (single_loop_requests self l (range 1 (max_steps self + 1)) _ s Hkept)
    as (Hmcp & _ & new & Hex & Hlen & Hall & Hnone & _ & Hbreak).
  unfold run, with_local. unfold mbind, M_bind.
  destruct (for_ _ _ _) as [[[ended|]|exc] [session1 s1]]; cbn [fst snd] in *.
  - exists new. split; [done|]. split; [lia|]. split; [done|]. split; [done|].
    intros [= ->]. by destruct (Hbreak _ eq_refl) as [[? _]|(? & ? & _ & _ & ?)].
  - unfold_monad. unfold Path_exists. cbn [fst snd].
    exists new. split; [done|]. split; [lia|]. split; [done|]. split; [done|].
    intros _. rewrite Hnone by done. lia.
  - exists new. split; [done|]. split; [lia|]. split; [done|]. by split.
Qed.

Lemma get_response_raises_caught (agent : string) (session : Session.t) (s : State) e s1 :
  Session.get_response agent session s = (Raise e, s1) -> is_Exception (class_of e) = true.
Proof.
  unfold Session.get_response.
  destruct (Session.tools session) as [[|first more]|]; unfold chat;
    destruct (chat_completions_create _ _ _ _); by intros [= <- _].
Qed.

Lemma single_call_tool_raises (l : Locals) (k : Z) (tc : ToolCall)
  (session : Session.t) (s : State) e st' :
  call_tool l k tc (session, s) = (Raise e, st') <->
  st'.1 = session /\ single_tool_raises l k tc s e st'.2.
Proof.
  destruct st' as [session' s']. unfold call_tool, single_tool_raises. cbn [fst snd].
  destruct (String.eqb_spec (function_name tc) "write_file") as [Hw|Hw].
  { unfold_monad.
    destruct (WriteFileTool.execute _ _ _ _) as [[text|e0] s0]; split.
    - done.
    - intros [_ [[_ [=]]|[Hname _]]]. by rewrite Hname in Hw.
    - intros [= <- <- <-]. split; [done|]. by left.
    - intros [-> [[_ [= <- <-]]|[Hname _]]]; [done|]. by rewrite Hname in Hw. }
  destruct (String.eqb_spec (function_name tc) "run_shell") as [Hr|Hr].
  { unfold_monad.
    destruct (RunShellTool.execute _ _ _ _) as [[text|e0] s0]; split.
    - done.
    - intros [_ [[Hname _]|[_ [=]]]]. by rewrite Hname in Hw.
    - intros [= <- <- <-]. split; [done|]. by right.
    - intros [-> [[Hname _]|[_ [= <- <-]]]]; [|done]. by rewrite Hname in Hw. }
  split.
  - destruct (String.eqb (function_name tc) "indicate_completion"); unfold_monad;
      unfold Path_exists; cbn [fst snd]; [by destruct (FS.exists_ _ _) | done].
  - by intros [_ [[? _]|[? _]]].
Qed.

Lemma for_app_none {S A R} (xs ys : list A) (body : A -> M S (control R)) st st1 :
  for_ xs body st = (Ok None, st1) -> for_ (xs ++ ys) body st = for_ ys body st1.
Proof.
  revert st. induction xs as [|x xs IH]; intros st; cbn [for_ app].
  - unfold mret, M_ret. by intros [= ->].
  - unfold mbind, M_bind. destruct (body x st) as [[[|r]|e] st2]; [apply IH | done..].
Qed.

Lemma for_raises {S A R} (xs : list A) (body : A -> M S (control R)) st e st' :
  for_ xs body st = (Raise e, st') ->
  exists x st0, x ∈ xs /\ body x st0 = (Raise e, st').
Proof.
  revert st. induction xs as [|x xs IH]; intros st; cbn [for_]; [done|].
  unfold mbind, M_bind. destruct (body x st) as [[[|r]|e0] st2] eqn:Hx.
  - intros (y & st0 & Hin & Hy)%IH. exists y, st0. split; [by right | done].
  - done.
  - intros [= <- <-]. exists x, st. split; [by left | done].
Qed.

Lemma single_step_raises (self : t) (l : Locals) (k : Z) (st : Session.t * State) e st' :
  step self l k st = (Raise e, st') ->
  exists tc s0, single_tool_raises l k tc s0 e st'.2.
Proof.
  destruct st as [session s]. unfold step.
  rewrite (bind_ok _ _ (session, s) session (session, s)) by reflexivity.
  unfold mbind at 1, M_bind at 1. unfold try_except, lift.
  unfold mbind at 1, M_bind at 1. cbn [fst snd].
  destruct (Session.get_response "single_agent" session s) as [[reply|exc] s1] eqn:Hreply.
  - cbn [mret M_ret]. destruct (negb (has_tool_calls reply)); [by unfold_monad|].
    rewrite (bind_ok _ _ (session, s1) tt
               (Session.add_messages [calls_message (calls_of reply)] session, s1))
      by reflexivity.
    unfold mbind, M_bind.
    destruct (for_ _ _ _) as [[[ended|]|exc] st2] eqn:Hloop; [done..|].
    intros [= <- <-]. apply for_raises in Hloop as (tc & [session0 s0] & _ & Hcall).
    apply single_call_tool_raises in Hcall as [_ Hcall]. by exists tc, s0.
  - by rewrite (get_response_raises_caught _ _ _ _ _ Hreply).
Qed.

(** What a run of the single agent gives back.  A path is the solver path,
    and a file exists there: nothing else is asked of it.  [None] means
    that no file exists there.  [AgentError] carries the text of the
    endpoint's fault, and the failed request is the last one made.  An
    exception of a tool leaves [run] as it is: when [run] raises, one of
    its two tools has raised that exception and left the world as [run]
    leaves it; and when, at some step, a tool raises on a call of the
    turn, the calls before it having been answered, [run] raises that
    exception and leaves the world as the tool left it. *)
Theorem single_agent_returns (self : t) (l : Locals) (s : State) :
  let out := run self l s in
  match out.1 with
  | Ok (Returned (Some path)) =>
      path = solver_path l /\ FS.exists_ (fs out.2) (location path) = true
  | Ok (Returned None) => FS.exists_ (fs out.2) (location (solver_path l)) = false
  | Ok (AgentError msg) =>
      exists e exc,
        last (exchanges out.2) = Some e
        /\ single_agent_request l e
        /\ ex_response e = Raise exc
        /\ msg = "Error getting response: " +:+ str_of exc
  | Raise e =>
      caught e /\ exists k tc s0, single_tool_raises l k tc s0 e out.2
  end
  /\ (forall (earlier : list Z) (k : Z) (later : list Z) (session : Session.t) (s0 : State)
             (reply : AssistantMessage) (s1 : State)
             (before : list ToolCall) (tc : ToolCall) (after : list ToolCall)
             (session2 : Session.t) (s2 : State) (e : exn) (s3 : State),
        range 1 (max_steps self + 1) = earlier ++ k :: later ->
        for_ earlier (step self l)
          (Session.make (Some (system_prompt l)) (Some tools), s)
        = (Ok None, (session, s0)) ->
        Session.get_response "single_agent" session s0 = (Ok reply, s1) ->
        calls_of reply = before ++ tc :: after ->
        for_ before (call_tool l k)
          (Session.add_messages [calls_message (calls_of reply)] session, s1)
        = (Ok None, (session2, s2)) ->
        single_tool_raises l k tc s2 e s3 ->
        out = (Raise e, s3)).
Proof.
  cbn zeta. split.
  - destruct (single_run_loop self l s) as [Hkept _].
    destruct (single_loop_requests self l (range 1 (max_steps self + 1)) _ s Hkept)
      as (_ & Hcaught & new & Hex & _ & Hall & _ & _ & Hbreak).
    unfold run, with_local. unfold mbind, M_bind.
    destruct (for_ _ _ _) as [[[ended|]|exc] [session1 s1]] eqn:Hloop; cbn [fst snd] in *.
    + destruct (Hbreak _ eq_refl) as [[-> Hexists]|(e & exc & Hlast & Hraise & ->)]; [done|].
      unfold mret, M_ret. cbn [fst snd]. exists e, exc. rewrite Hex.
      assert (new <> []) as Hne by (by intros ->).
      rewrite last_app, Hlast. split; [done|]. split; [|done].
      rewrite Forall_forall in Hall. apply Hall. by apply last_Some_elem_of.
    + unfold_monad. unfold Path_exists. cbn [fst snd].
      by destruct (FS.exists_ (fs s1) (location (solver_path l))) eqn:Hexists.
    + split; [done|].
      apply for_raises in Hloop as (k & st0 & _ & Hstep).
      apply single_step_raises in Hstep as (tc & s0 & Htool). by exists k, tc, s0.
  - intros earlier k later session s0 reply s1 before tc after session2 s2 e s3
      Hrange Hearlier Hreply Hcalls Hbefore Htool.
    assert (for_ (calls_of reply) (call_tool l k)
              (Session.add_messages [calls_message (calls_of reply)] session, s1)
            = (Raise e, (session2, s3))) as Hdispatch.
    { rewrite Hcalls at 1. rewrite (for_app_none _ _ _ _ _ Hbefore). cbn [for_].
      apply bind_raise. by apply single_call_tool_raises. }
    assert (step self l k (session, s0) = (Raise e, (session2, s3))) as Hstep.
    { unfold step.
      rewrite (bind_ok _ _ (session, s0) session (session, s0)) by reflexivity.
      erewrite bind_ok; cycle 1.
      { unfold try_except. erewrite bind_ok; [reflexivity|]. unfold lift. cbn [fst snd].
        by rewrite Hreply. }
      cbn match.
      assert (has_tool_calls reply = true) as ->.
      { unfold has_tool_calls. rewrite Hcalls. by destruct before. }
      cbn [negb].
      rewrite (bind_ok _ _ (session, s1) tt
                 (Session.add_messages [calls_message (calls_of reply)] session, s1))
        by reflexivity.
      by apply bind_raise. }
    assert (for_ (earlier ++ k :: later) (step self l)
              (Session.make (Some (system_prompt l)) (Some tools), s)
            = (Raise e, (session2, s3))) as Hloop.
    { rewrite (for_app_none _ _ _ _ _ Hearlier). cbn [for_]. by apply bind_raise. }
    unfold run, with_local. rewrite Hrange.
    by rewrite (bind_raise _ _ _ _ _ Hloop).
Qed.

(** A request that fails is not tried again: the run ends there, with an
    [AgentError] that carries the text of the fault. *)
Theorem single_agent_gives_up (self : t) (l : Locals) (s : State) :
  let out := run self l s in
  exists new,
    exchanges out.2 = exchanges s ++ new
    /\ forall e exc,
         e ∈ new -> ex_response e = Raise exc ->
         out.1 = Ok (AgentError ("Error getting response: " +:+ str_of exc)).
Proof.
  cbn zeta. destruct (single_run_loop self l s) as [Hkept _].
  destruct (single_loop_requests self l (range 1 (max_steps self + 1)) _ s Hkept)
    as (_ & _ & new & Hex & _ & _ & _ & Hfault & _).
  unfold run, with_local. unfold mbind, M_bind.
  destruct (for_ _ _ _) as [[[ended|]|exc] [session1 s1]]; cbn [fst snd] in *;
    exists new; (split; [done|]); intros e exc' Hin Hraise;
    by specialize (Hfault e exc' Hin Hraise) as [= ->].
Qed.

End SingleAgentRuns.

(** A [write_file] call without arguments: the fault of the tool is what
    the run raises. *)
Lemma single_agent_returns_witness :
  (SingleAgent.run (E := Demo.env [inr (Demo.calling [Demo.call "call_1" "write_file" None])])
     Fixtures.single Fixtures.single_locals (Demo.state Demo.empty_dir)).1
  = Raise json_loads_None.
Proof.
  pose (env := Demo.env [inr (Demo.calling [Demo.call "call_1" "write_file" None])]).
  pose (s := Demo.state Demo.empty_dir).
  pose (session := Session.make (Some (SingleAgent.system_prompt Fixtures.single_locals))
                     (Some SingleAgent.tools)).
  pose (asked := Session.get_response (E := env) "single_agent" session s).
  destruct (single_agent_returns (E := env) Fixtures.single Fixtures.single_locals s)
    as [_ Hraises].
  pose proof (Hraises [] 1 [2] session s
             (Demo.calling [Demo.call "call_1" "write_file" None]) asked.2
             [] (Demo.call "call_1" "write_file" None) []
             (Session.add_messages
                [calls_message [Demo.call "call_1" "write_file" None]] session)
             asked.2 json_loads_None asked.2
             eq_refl eq_refl eq_refl eq_refl eq_refl (or_introl (conj eq_refl eq_refl)))
    as Hrun.
  exact (f_equal fst Hrun).
Defined.

(** ** What the single agent answers to a call *)

Section SingleAgentAnswers.
Context {E : Env}.
Import SingleAgent.

Lemma single_call_tool_answer (l : Locals) (k : Z) (tc : ToolCall)
  (session : Session.t) (s : State) c session' s' :
  call_tool l k tc (session, s) = (Ok c, (session', s')) ->
  match c with
  | Continue =>
      (exists m, Session.messages session' = Session.messages session ++ [m]
                 /\ single_answers l [tc] [m])
      /\ (function_name tc = "indicate_completion" ->
          FS.exists_ (fs s) (location (solver_path l)) = false)
  | Break r =>
      function_name tc = "indicate_completion" /\ session' = session /\ s' = s
      /\ r = Returned (Some (solver_path l))
      /\ FS.exists_ (fs s) (location (solver_path l)) = true
  end.
Proof.
  unfold call_tool, single_answers.
  destruct (String.eqb_spec (function_name tc) "write_file") as [Hw|Hw].
  { rewrite Hw. unfold_monad.
    destruct (WriteFileTool.execute _ _ _ _) as [[text|?] ?]; [|done].
    intros [= <- <- <-]. split; [|done]. eexists. split; [reflexivity|].
    constructor; [by rewrite Hw | constructor]. }
  destruct (String.eqb_spec (function_name tc) "run_shell") as [Hr|Hr].
  { rewrite Hr. unfold_monad.
    destruct (RunShellTool.execute _ _ _ _) as [[text|?] ?]; [|done].
    intros [= <- <- <-]. split; [|done]. eexists. split; [reflexivity|].
    constructor; [by rewrite Hr | constructor]. }
  destruct (String.eqb_spec (function_name tc) "indicate_completion") as [Hi|Hi].
  { unfold_monad. unfold Path_exists. cbn [fst snd].
    destruct (FS.exists_ _ _) eqn:Hexists; intros [= <- <- <-]; [done|].
    split; [|done]. eexists. split; [reflexivity|]. constructor; [|constructor].
    by rewrite Hi. }
  unfold_monad. intros [= <- <- <-]. split; [|done]. eexists. split; [reflexivity|].
  constructor; [|constructor]. by apply String.eqb_neq in Hi as ->.
Qed.

Lemma single_dispatch_answers (l : Locals) (k : Z) (tcs : list ToolCall) :
  forall (start : Session.t * State) ended st',
    for_ tcs (call_tool l k) start = (Ok ended, st') ->
    match ended with
    | None =>
        (exists replies,
           Session.messages st'.1 = Session.messages start.1 ++ replies
           /\ single_answers l tcs replies)
        /\ completion_found_nothing l k start tcs
    | Some r =>
        exists n tc replies,
          tcs !! n = Some tc
          /\ function_name tc = "indicate_completion"
          /\ Session.messages st'.1 = Session.messages start.1 ++ replies
          /\ single_answers l (take n tcs) replies
          /\ r = Returned (Some (solver_path l))
          /\ FS.exists_ (fs st'.2) (location (solver_path l)) = true
          /\ for_ (take n tcs) (call_tool l k) start = (Ok None, st')
          /\ completion_found_nothing l k start (take n tcs)
    end.
Proof.
  induction tcs as [|tc tcs IH]; intros start ended st'.
  - cbn. intros [= <- <-]. split.
    + exists []. rewrite app_nil_r. split; [done | constructor].
    + by intros n tc' ?.
  - cbn [for_]. unfold mbind, M_bind.
    destruct start as [session s].
    destruct (call_tool l k tc (session, s)) as [[c|exc] [session1 s1]] eqn:Hcall; [|done].
    pose proof (single_call_tool_answer _ _ _ _ _ _ _ _ Hcall) as Hanswer.
    assert (forall (rest : list ToolCall),
              completion_found_nothing l k (session1, s1) rest ->
              c = Continue ->
              completion_found_nothing l k (session, s) (tc :: rest)) as Hfound.
    { intros rest Hrest -> [|n] tc' Hn Hname.
      - injection Hn as <-. exists (session, s). split; [done|].
        destruct Hanswer as [_ Hmissing]. by apply Hmissing.
      - destruct (Hrest n tc' Hn Hname) as (st & Hst & Hmissing). exists st.
        split; [|done]. cbn [take for_]. by rewrite (bind_ok _ _ _ _ _ Hcall). }
    destruct c as [|r].
    + destruct Hanswer as [(m & Hm & Hans) _]. apply Forall2_cons_1 in Hans as [Hans _].
      intros Hrest. apply IH in Hrest. destruct ended as [r|]; cbn [fst snd] in *.
      * destruct Hrest as (n & tc' & replies & Hn & Hname & Hmsgs & Hall & -> & Hexists
                           & Hreached & Hnothing).
        exists (S n), tc', (m :: replies). split; [done|]. split; [done|].
        split; [by rewrite Hmsgs, Hm, <- app_assoc|]. split; [by constructor|].
        split; [done|]. split; [done|].
        split; [cbn [take for_]; by rewrite (bind_ok _ _ _ _ _ Hcall)|].
        by apply (Hfound (take n tcs)).
      * destruct Hrest as [(replies & Hmsgs & Hall) Hnothing]. split.
        -- exists (m :: replies).
           split; [by rewrite Hmsgs, Hm, <- app_assoc | by constructor].
        -- by apply Hfound.
    + destruct Hanswer as (Hname & -> & -> & -> & Hexists). cbn [mret M_ret].
      intros [= <- <-].
      exists 0%nat, tc, []. cbn [fst snd take]. rewrite app_nil_r.
      split; [done|]. split; [done|]. split; [done|]. split; [constructor|].
      split; [done|]. split; [done|]. split; [done|]. by intros n tc' ?.
Qed.

(** A step of the single agent whose reply carries tool calls appends the
    assistant turn and then one message per call, in the order of the
    calls: a tool message with the id of the call, except that a call to
    [indicate_completion] made while no file exists at the solver path
    gets a user message and no tool message.  The step goes on to the next
    only if every such call of the turn found no file there.  A call to
    [indicate_completion] that finds a file at the solver path makes the
    run return that path at once, in the world as that call found it: the
    later calls of the turn are not run. *)
Theorem single_agent_answers (self : t) (l : Locals) (k : Z) (session : Session.t)
  (s : State) reply s1 c session' s' :
  Session.get_response "single_agent" session s = (Ok reply, s1) ->
  has_tool_calls reply = true ->
  step self l k (session, s) = (Ok c, (session', s')) ->
  let start := (Session.add_messages [calls_message (calls_of reply)] session, s1) in
  match c with
  | Continue =>
      (exists replies,
         Session.messages session'
         = Session.messages session ++ calls_message (calls_of reply) :: replies
         /\ single_answers l (calls_of reply) replies)
      /\ completion_found_nothing l k start (calls_of reply)
  | Break r =>
      exists n tc replies,
        calls_of reply !! n = Some tc
        /\ function_name tc = "indicate_completion"
        /\ Session.messages session'
           = Session.messages session ++ calls_message (calls_of reply) :: replies
        /\ single_answers l (take n (calls_of reply)) replies
        /\ r = Returned (Some (solver_path l))
        /\ FS.exists_ (fs s') (location (solver_path l)) = true
        /\ for_ (take n (calls_of reply)) (call_tool l k) start = (Ok None, (session', s'))
        /\ completion_found_nothing l k start (take n (calls_of reply))
  end.
Proof.
  intros Hreply Hcalls. cbn zeta. unfold step.
  rewrite (bind_ok _ _ (session, s) session (session, s)) by reflexivity.
  erewrite bind_ok; cycle 1.
  { unfold try_except. erewrite bind_ok; [reflexivity|]. unfold lift. cbn [fst snd].
    by rewrite Hreply. }
  cbn match. rewrite Hcalls. cbn [negb].
  rewrite (bind_ok _ _ (session, s1) tt
             (Session.add_messages [calls_message (calls_of reply)] session, s1))
    by reflexivity.
  unfold mbind, M_bind.
  destruct (for_ _ _ _) as [[ended|exc] [session2 s2]] eqn:Hloop; [|done].
  apply single_dispatch_answers in Hloop.
  cbn [Session.add_messages Session.messages fst snd] in Hloop.
  destruct ended as [r|]; cbn [mret M_ret]; intros [= <- <- <-].
  - destruct Hloop as (n & tc & replies & Hn & Hname & Hmsgs & Hall & -> & Hexists
                       & Hreached & Hnothing).
    exists n, tc, replies. by rewrite Hmsgs, <- app_assoc.
  - destruct Hloop as [(replies & Hmsgs & Hall) Hnothing]. split; [|done].
    exists replies. by rewrite Hmsgs, <- app_assoc.
Qed.

End SingleAgentAnswers.

(** A turn that asks for completion before the solver exists, and then
    lists the results. *)
Lemma single_agent_answers_witness :
  exists replies,
    single_answers Fixtures.single_locals Demo.closing_turn replies
    /\ nth_error replies 0
       = Some (text_message user (SingleAgent.solver_missing Fixtures.single_locals)).
Proof.
  pose (env := Demo.env [inr (Demo.calling Demo.closing_turn)]).
  pose (session := Session.make (Some (SingleAgent.system_prompt Fixtures.single_locals))
                     (Some SingleAgent.tools)).
  pose (s := Demo.state Demo.empty_dir).
  pose (out := SingleAgent.step (E := env) Fixtures.single Fixtures.single_locals 1 (session, s)).
  pose (asked := Session.get_response (E := env) "single_agent" session s).
  assert (Hasked : asked = (Ok (Demo.calling Demo.closing_turn), asked.2)) by reflexivity.
  assert (Hout : out = (Ok Continue, (out.2.1, out.2.2))) by (vm_compute; reflexivity).
  destruct (single_agent_answers (E := env) Fixtures.single Fixtures.single_locals 1 session s
              (Demo.calling Demo.closing_turn) asked.2 Continue out.2.1 out.2.2
              Hasked eq_refl Hout)
    as [(replies & Hmsgs & Hall) _].
  exists replies. split; [exact Hall|].
  apply Forall2_cons_inv_l in Hall as (m & rest & Hm & _ & ->). cbn in Hm. by rewrite Hm.
Defined.
